(** * The chatbot agent core of pchm, embedded in Rocq

    Shallow embedding of [backend/chatbot]: the LangGraph agent
    ([react_agent.py]), the rule-based responder
    ([rule_based_chatbot.py]), the form catalog and its helpers
    ([form_schemas.py]), the turn endpoint, the operator's actions and
    the polling endpoint ([views.py]), and the keywords of a context
    section ([models.py]).

    Conventions.
    - Python [str] is [string]; text is taken to be ASCII, so [lower],
      [strip] and [isdigit] are the ASCII restrictions of the Python
      methods.
    - Python values of dynamic type (JSON documents, dictionary entries)
      are [pyval]; a [float] is a rational.
    - A [dict] is an association list in insertion order.
    - Code that reads or writes the agent object, or that may raise, runs
      in the monad [M]: a state transformer over [Heap] whose results are
      [Ok] or [Exc]; what was written before a [raise] stays written. *)

From Stdlib Require Import String Ascii List ZArith QArith Bool Arith Lia.
From Stdlib Require Import DecimalString DecimalNat DecimalFacts.
Import ListNotations.
Close Scope Q_scope.
Open Scope string_scope.
Set Warnings "-register-all".

(* ================================================================== *)
(** ** Python strings *)

Module Str.

Definition is_upper (c : ascii) : bool :=
  let n := nat_of_ascii c in (65 <=? n)%nat && (n <=? 90)%nat.

Definition is_lower (c : ascii) : bool :=
  let n := nat_of_ascii c in (97 <=? n)%nat && (n <=? 122)%nat.

Definition is_digit (c : ascii) : bool :=
  let n := nat_of_ascii c in (48 <=? n)%nat && (n <=? 57)%nat.

(** [str.isspace] on ASCII: tab to carriage return, the four
    separators 28..31, and the blank. *)
Definition is_space (c : ascii) : bool :=
  let n := nat_of_ascii c in
  ((9 <=? n)%nat && (n <=? 13)%nat) || ((28 <=? n)%nat && (n <=? 32)%nat).

Definition lower_char (c : ascii) : ascii :=
  if is_upper c then ascii_of_nat (nat_of_ascii c + 32) else c.

Fixpoint lower (s : string) : string :=
  match s with
  | EmptyString => EmptyString
  | String c r => String (lower_char c) (lower r)
  end.

Definition upper_char (c : ascii) : ascii :=
  if is_lower c then ascii_of_nat (nat_of_ascii c - 32) else c.

Fixpoint upper (s : string) : string :=
  match s with
  | EmptyString => EmptyString
  | String c r => String (upper_char c) (upper r)
  end.

Fixpoint lstrip (s : string) : string :=
  match s with
  | String c r => if is_space c then lstrip r else s
  | EmptyString => EmptyString
  end.

Fixpoint rev_acc (s acc : string) : string :=
  match s with
  | EmptyString => acc
  | String c r => rev_acc r (String c acc)
  end.

Definition rev (s : string) : string := rev_acc s EmptyString.

Definition rstrip (s : string) : string := rev (lstrip (rev s)).

Definition strip (s : string) : string := rstrip (lstrip s).

Definition startswith (p s : string) : bool := String.prefix p s.

Definition endswith (p s : string) : bool := String.prefix (rev p) (rev s).

(** [needle in hay] *)
Fixpoint contains (needle hay : string) : bool :=
  String.prefix needle hay ||
  match hay with
  | EmptyString => false
  | String _ r => contains needle r
  end.

Fixpoint filter (p : ascii -> bool) (s : string) : string :=
  match s with
  | EmptyString => EmptyString
  | String c r => if p c then String c (filter p r) else filter p r
  end.

Fixpoint forallb (p : ascii -> bool) (s : string) : bool :=
  match s with
  | EmptyString => true
  | String c r => p c && forallb p r
  end.

Definition nonempty (s : string) : bool :=
  match s with EmptyString => false | _ => true end.

(** [str.isdigit] *)
Definition isdigit (s : string) : bool := nonempty s && forallb is_digit s.

(** [s.replace(c, '')] for a one-character [c]. *)
Definition remove_char (c : ascii) (s : string) : string :=
  filter (fun x => negb (Ascii.eqb x c)) s.

(** [s.replace(a, b)] for one-character [a] and [b]. *)
Fixpoint replace_char (a b : ascii) (s : string) : string :=
  match s with
  | EmptyString => EmptyString
  | String c r =>
      String (if Ascii.eqb c a then b else c) (replace_char a b r)
  end.

(** [s[1:-1]] *)
Definition drop_ends (s : string) : string :=
  match s with
  | EmptyString => EmptyString
  | String _ r => rev (match rev r with
                       | EmptyString => EmptyString
                       | String _ r' => r'
                       end)
  end.

(** [s.split('\n')] *)
Fixpoint split_lines_acc (s cur : string) : list string :=
  match s with
  | EmptyString => [rev cur]
  | String c r =>
      if Ascii.eqb c "010"%char
      then rev cur :: split_lines_acc r EmptyString
      else split_lines_acc r (String c cur)
  end.

Definition split_lines (s : string) : list string :=
  split_lines_acc s EmptyString.

(** ['\n'.join(l)] *)
Fixpoint join_lines (l : list string) : string :=
  match l with
  | [] => EmptyString
  | [x] => x
  | x :: r => x ++ String "010"%char (join_lines r)
  end.

Fixpoint count_char (c : ascii) (s : string) : nat :=
  match s with
  | EmptyString => 0
  | String x r => (if Ascii.eqb x c then 1 else 0) + count_char c r
  end.

Definition mem (s : string) (l : list string) : bool :=
  existsb (String.eqb s) l.

(** The double quote, which a literal cannot hold. *)
Definition dquote : string := String "034"%char EmptyString.

End Str.

(* ================================================================== *)
(** ** Python values, results and dictionaries *)

Inductive pyval : Type :=
| PNone
| PBool (b : bool)
| PInt (z : Z)
| PFloat (q : Q)
| PStr (s : string)
| PList (l : list pyval)
| PDict (d : list (string * pyval)).

(** Truth value of a Python object. *)
Definition truthy (v : pyval) : bool :=
  match v with
  | PNone => false
  | PBool b => b
  | PInt z => negb (z =? 0)%Z
  | PFloat q => negb (Qeq_bool q 0%Q)
  | PStr s => Str.nonempty s
  | PList l => match l with [] => false | _ => true end
  | PDict d => match d with [] => false | _ => true end
  end.

(** The outcome of running Python code: a value, or an exception whose
    [str(e)] is recorded. *)
Inductive Res (A : Type) : Type :=
| Ok (a : A)
| Exc (e : string).
Arguments Ok {A} a.
Arguments Exc {A} e.

Definition dict (V : Type) : Type := list (string * V).

Module Dict.
Section Ops.
Context {V : Type}.

(** [d.get(k)] *)
Fixpoint get (k : string) (d : dict V) : option V :=
  match d with
  | [] => None
  | (k', v) :: r => if String.eqb k k' then Some v else get k r
  end.

(** [k in d] *)
Definition mem (k : string) (d : dict V) : bool :=
  match get k d with Some _ => true | None => false end.

(** [d[k] = v]: an existing key keeps its position. *)
Fixpoint set (k : string) (v : V) (d : dict V) : dict V :=
  match d with
  | [] => [(k, v)]
  | (k', v') :: r =>
      if String.eqb k k' then (k, v) :: r else (k', v') :: set k v r
  end.

(** [list(d.keys())] *)
Definition keys (d : dict V) : list string := map fst d.

(** [d.update(e)] *)
Definition update (e d : dict V) : dict V :=
  fold_left (fun acc kv => set (fst kv) (snd kv) acc) e d.

End Ops.
End Dict.

(** [d.get(k)] on a dictionary of Python values; a missing key is
    [None]. *)
Definition pyget (k : string) (d : dict pyval) : pyval :=
  match Dict.get k d with Some v => v | None => PNone end.

(** [list.remove(x)]: drops the first occurrence. *)
Fixpoint list_remove (x : string) (l : list string) : list string :=
  match l with
  | [] => []
  | y :: r => if String.eqb x y then r else y :: list_remove x r
  end.

(* ================================================================== *)
(** ** The outside world *)

(** Functions of Python's standard library whose results the agent only
    passes on: [json.loads], [float] and [str] on text, and the regular
    expression searches and substitutions of the noise filters.  The
    development is parametric in them. *)
Record PyLib : Type := {
  (** [json.loads]; [None] stands for [JSONDecodeError]. *)
  json_loads : string -> option pyval;
  (** [float(s)] on a string; [None] stands for [ValueError]. *)
  float_of_str : string -> option Q;
  (** [str(v)] on a float, a list or a dictionary. *)
  repr_other : pyval -> string;
  (** The [re.sub] cascade of [_clean_response_for_json] that deletes
      reasoning tags, then any remaining tag or bracketed text. *)
  sub_reasoning_tags : string -> string;
  (** [re.search] for a fenced JSON block, group 1. *)
  search_fenced_json : string -> option string;
  (** [re.search] for a brace-delimited object, group 0. *)
  search_flat_json : string -> option string;
  (** [re.search] of the word-bounded e-mail pattern, group 0. *)
  search_email : string -> option string;
  (** [re.search] of the phone pattern, group 0. *)
  search_phone : string -> option string;
  (** [AgenticChatbotService()._clean_response] on a non-empty string. *)
  service_clean_response : string -> Res string;
  (** [RuleBasedChatbot.classify_intent]'s keyword scoring. *)
  score_intent : string -> Res (string * Q)
}.

(** One entry of the history handed to the prompts. *)
Record HistoryEntry : Type := {
  h_type : string;
  h_content : string
}.

(** What one completion request to the provider comes back with. *)
Inductive completion : Type :=
| Raises (msg : string)
    (** [client.chat.completions.create] raised [e], [str(e) = msg] *)
| Reply (content : option string).
    (** a response; [None] when [choices] is empty or the content is
        [None] *)

(** The environment of one run: the provider's answer to the n-th
    request, and what the settings table holds. *)
Record World : Type := {
  provider : nat -> completion;
  (** [ChatbotSettings.get_settings()] and its key; [Exc] when the
      lookup raises, [Ok ""] when there is no key. *)
  stored_api_key : Res string;
  (** whether [groq.Groq(api_key=k)] returns *)
  groq_init : string -> Res unit;
  (** the history read off [conversation.messages.all()] *)
  stored_messages : Res (list HistoryEntry);
  (** whether [conversation.save()] returns *)
  save_result : Res unit
}.

(* ================================================================== *)
(** ** Persisted records ([models.py]) *)

Inductive Status : Type := Active | Completed | Manual.

Record ConversationMessage : Type := {
  msg_id : nat;
  msg_conversation : string;
  message_type : string;
  content : string;
  response_time_ms : option Z;
  is_admin_reply : bool
}.

Record Conversation : Type := {
  cv_session_id : string;
  cv_user_email : pyval;
  cv_user_name : pyval;
  cv_user_phone : pyval;
  cv_ip_address : option string;
  cv_is_lead : bool;
  cv_status : Status;
  cv_manual_reply_active : bool;
  cv_collected_data : dict pyval;
  cv_intent_classification : pyval;
  cv_confidence_score : option Q
}.

(* ================================================================== *)
(** ** The agent object and the monad of its methods *)

(** The fields of [LangGraphChatbotAgent] that change after
    construction. [client] is [false] for [self.client is None]. *)
Record Agent : Type := {
  client : bool;
  api_disabled : bool;
  api_failure_count : nat
}.

(** What a turn can read and write: the agent singleton, the
    conversation object it was handed, and the number of completion
    requests issued so far. *)
Record Heap : Type := {
  agent : Agent;
  conv : Conversation;
  calls : nat
}.

Definition M (A : Type) : Type := Heap -> Res A * Heap.

Definition ret {A} (a : A) : M A := fun h => (Ok a, h).

Definition raise {A} (e : string) : M A := fun h => (Exc e, h).

Definition bind {A B} (m : M A) (k : A -> M B) : M B :=
  fun h => match m h with
           | (Ok a, h') => k a h'
           | (Exc e, h') => (Exc e, h')
           end.

(** [try: m  except Exception as e: handler e] *)
Definition try_except {A} (m : M A) (handler : string -> M A) : M A :=
  fun h => match m h with
           | (Ok a, h') => (Ok a, h')
           | (Exc e, h') => handler e h'
           end.

Definition lift {A} (r : Res A) : M A := fun h => (r, h).

Definition get_agent : M Agent := fun h => (Ok (agent h), h).

Definition put_agent (a : Agent) : M unit :=
  fun h => (Ok tt, {| agent := a; conv := conv h; calls := calls h |}).

Definition get_conv : M Conversation := fun h => (Ok (conv h), h).

Definition put_conv (c : Conversation) : M unit :=
  fun h => (Ok tt, {| agent := agent h; conv := c; calls := calls h |}).

Declare Scope py_scope.
Delimit Scope py_scope with py.
Notation "x <- m ;; k" := (bind m (fun x => k))
  (at level 61, m at next level, right associativity) : py_scope.
Notation "' p <- m ;; k" := (bind m (fun x => match x with p => k end))
  (at level 61, p pattern, m at next level, right associativity) : py_scope.
Notation "m ;;; k" := (bind m (fun _ => k))
  (at level 61, right associativity) : py_scope.
Open Scope py_scope.

Section AgentMethods.
Variable L : PyLib.
Variable W : World.

(** [self.client.chat.completions.create(...)]: one more request; the
    content of the answer, or the provider's exception. *)
Definition create_completion : M (option string) :=
  fun h =>
    let h' := {| agent := agent h; conv := conv h; calls := S (calls h) |} in
    match provider W (calls h) with
    | Raises msg => (Exc msg, h')
    | Reply c => (Ok c, h')
    end.

(** [_is_client_available] *)
Definition _is_client_available : M bool :=
  a <- get_agent ;;
  ret (if negb (client a) || api_disabled a then false else true).

(** The test shared by [_mark_api_failure] and [_handle_api_error]. *)
Definition is_auth_error (error_msg : string) : bool :=
  Str.contains "401" error_msg
  || Str.contains "invalid_api_key" (Str.lower error_msg)
  || Str.contains "unauthorized" (Str.lower error_msg).

(** [_mark_api_failure] *)
Definition _mark_api_failure (error_msg : string) : M unit :=
  a <- get_agent ;;
  if is_auth_error error_msg then
    if negb (api_disabled a) then
      put_agent {| client := false; api_disabled := true;
                   api_failure_count := api_failure_count a |}
    else ret tt
  else
    let n := S (api_failure_count a) in
    put_agent {| client := client a;
                 api_disabled := if (3 <=? n)%nat then true
                                 else api_disabled a;
                 api_failure_count := n |}.

(** [reload_api_key]. The model and sampling settings it also reloads
    are not part of [Agent]. *)
Definition reload_api_key : M bool :=
  try_except
    (api_key <- lift (stored_api_key W) ;;
     a <- get_agent ;;
     put_agent {| client := client a; api_disabled := false;
                  api_failure_count := 0 |} ;;;
     if negb (Str.nonempty api_key) then
       put_agent {| client := false; api_disabled := true;
                    api_failure_count := 0 |} ;;;
       ret false
     else
       try_except
         (lift (groq_init W api_key) ;;;
          put_agent {| client := true; api_disabled := false;
                       api_failure_count := 0 |} ;;;
          if negb (Str.startswith "gsk_" api_key) then
            put_agent {| client := true; api_disabled := true;
                         api_failure_count := 0 |} ;;;
            ret false
          else ret true)
         (fun _ =>
            put_agent {| client := false; api_disabled := true;
                         api_failure_count := 0 |} ;;;
            ret false))
    (fun _ => ret false).

End AgentMethods.

(* ================================================================== *)
(** ** The form catalog ([form_schemas.py]) *)

(** A per-field validation rule; a key the dictionary does not have is
    [None]. *)
Record FieldSchema : Type := {
  f_type : option string;
  f_min_length : option nat;
  f_max_length : option nat;
  f_min : option Z;
  f_max : option Z;
  f_options : option (list string);
  f_pattern : option string;
  f_optional : option bool
}.

Record FormInfo : Type := {
  fi_title : string;
  fi_description : string;
  fi_endpoint : string;
  fi_required_fields : list string;
  fi_optional_fields : list string;
  fi_validation : dict FieldSchema
}.

Definition rule (ty : string) (minl maxl : option nat) (mn mx : option Z)
    (opts : option (list string)) (pat : option string)
    (optional : option bool) : FieldSchema :=
  {| f_type := Some ty; f_min_length := minl; f_max_length := maxl;
     f_min := mn; f_max := mx; f_options := opts; f_pattern := pat;
     f_optional := optional |}.

(** The empty dictionary [{}] as a rule. *)
Definition no_rule : FieldSchema :=
  {| f_type := None; f_min_length := None; f_max_length := None;
     f_min := None; f_max := None; f_options := None; f_pattern := None;
     f_optional := None |}.

(** Truth value of a rule dictionary: false exactly for [{}]. *)
Definition rule_nonempty (r : FieldSchema) : bool :=
  match f_type r, f_min_length r, f_max_length r, f_min r, f_max r,
        f_options r, f_pattern r, f_optional r with
  | None, None, None, None, None, None, None, None => false
  | _, _, _, _, _, _, _, _ => true
  end.

(** [FORM_SCHEMAS] *)
Definition FORM_SCHEMAS : dict FormInfo := [
  ("contact",
   {| fi_title := "Contact Inquiry";
      fi_description := "General contact form for inquiries";
      fi_endpoint := "inquiriesApi.create";
      fi_required_fields := ["full_name"; "email"; "subject"; "message"];
      fi_optional_fields := ["phone"];
      fi_validation := [
      ("full_name", rule "string" (Some 2) (Some 100) None None
         None None None);
      ("email", rule "email" None None None None None None None);
      ("phone", rule "phone" None None None None None None (Some true));
      ("subject", rule "string" (Some 5) (Some 200) None None None None None);
      ("message", rule "text" (Some 10) (Some 1000) None None None None None)] |});
  ("make_claim",
   {| fi_title := "Accident Claim";
      fi_description := "Submit vehicle accident claims";
      fi_endpoint := "bookingsApi.submitClaim";
      fi_required_fields := ["first_name";
         "last_name";
         "email";
         "phone";
         "full_address";
         "accident_date";
         "vehicle_registration";
         "insurance_company";
         "policy_number";
         "accident_details";
         "pickup_location";
         "dropoff_location"];
      fi_optional_fields := ["additional_notes"; "documents"];
      fi_validation := [
      ("first_name", rule "string" (Some 2) (Some 50) None None
         None None None);
      ("last_name", rule "string" (Some 2) (Some 50) None None
         None None None);
      ("email", rule "email" None None None None None None None);
      ("phone", rule "phone" None None None None None None None);
      ("full_address", rule "text" (Some 10) (Some 500) None None
         None None None);
      ("accident_date", rule "date" None None None None None None None);
      ("vehicle_registration", rule "string" None None None None
         None (Some "^[A-Z0-9]{1,10}$") None);
      ("insurance_company", rule "string" (Some 2) (Some 100) None None
         None None None);
      ("policy_number", rule "string" (Some 5) (Some 50) None None
         None None None);
      ("accident_details", rule "text" (Some 20) (Some 1000) None None
         None None None);
      ("pickup_location", rule "location" None None None None None None None);
      ("dropoff_location", rule "location" None None None None
         None None None);
      ("additional_notes", rule "text" None (Some 500) None None
         None None (Some true));
      ("documents", rule "file" None None None None None None (Some true))] |});
  ("testimonial",
   {| fi_title := "Customer Testimonial";
      fi_description := "Submit customer feedback and testimonials";
      fi_endpoint := "testimonialsApi.create";
      fi_required_fields := ["full_name"; "feedback"; "rating"];
      fi_optional_fields := ["service_used"];
      fi_validation := [
      ("full_name", rule "string" (Some 2) (Some 100) None None
         None None None);
      ("service_used", rule "select" None None None None
         (Some ["Car Hire";
         "Car Rental";
         "Claims Management";
         "Car Purchase/Sale"]) None (Some true));
      ("feedback", rule "text" (Some 10) (Some 1000) None None
         None None None);
      ("rating", rule "integer" None None (Some (1%Z)) (Some (5%Z))
         None None None)] |});
  ("newsletter_subscribe",
   {| fi_title := "Newsletter Subscription";
      fi_description := "Subscribe to newsletter";
      fi_endpoint := "newsletterApi.subscribe";
      fi_required_fields := ["email"];
      fi_optional_fields := [];
      fi_validation := [
      ("email", rule "email" None None None None None None None)] |});
  ("newsletter_unsubscribe",
   {| fi_title := "Newsletter Unsubscription";
      fi_description := "Unsubscribe from newsletter";
      fi_endpoint := "newsletterApi.unsubscribe";
      fi_required_fields := ["email"];
      fi_optional_fields := [];
      fi_validation := [
      ("email", rule "email" None None None None None None None)] |});
  ("car_purchase",
   {| fi_title := "Car Purchase Request";
      fi_description := "Submit interest in purchasing a vehicle";
      fi_endpoint := "carSalesApi.submitPurchaseRequest";
      fi_required_fields := ["name"; "email"; "phone"];
      fi_optional_fields := ["message";
         "offer_price";
         "financing_required";
         "trade_in_details"];
      fi_validation := [
      ("name", rule "string" (Some 2) (Some 100) None None None None None);
      ("email", rule "email" None None None None None None None);
      ("phone", rule "phone" None None None None None None None);
      ("message", rule "text" None (Some 500) None None
         None None (Some true));
      ("offer_price", rule "number" None None (Some (0%Z)) None
         None None (Some true));
      ("financing_required", rule "boolean" None None None None
         None None (Some true));
      ("trade_in_details", rule "text" None (Some 500) None None
         None None (Some true))] |});
  ("car_sell",
   {| fi_title := "Sell Vehicle Request";
      fi_description := "Submit request to sell a vehicle";
      fi_endpoint := "carSalesApi.submitSellRequest";
      fi_required_fields := ["name"; "vehicle_make"; "vehicle_model"];
      fi_optional_fields := ["email";
         "phone";
         "vehicle_year";
         "mileage";
         "message";
         "vehicle_image"];
      fi_validation := [
      ("name", rule "string" (Some 2) (Some 100) None None None None None);
      ("email", rule "email" None None None None None None (Some true));
      ("phone", rule "phone" None None None None None None (Some true));
      ("vehicle_make", rule "string" (Some 2) (Some 50) None None
         None None None);
      ("vehicle_model", rule "string" (Some 2) (Some 50) None None
         None None None);
      ("vehicle_year", rule "integer" None None (Some (1900%Z)) (Some (2030%Z))
         None None (Some true));
      ("mileage", rule "integer" None None (Some (0%Z)) None
         None None (Some true));
      ("message", rule "text" None (Some 500) None None
         None None (Some true));
      ("vehicle_image", rule "file" None None None None
         None None (Some true))] |})
].

(** [FORM_QUESTIONS] *)
Definition FORM_QUESTIONS : dict (dict string) := [
  ("contact", [
      ("full_name", "May I have your full name please?");
      ("email", "What's the best email address to reach you at?");
      ("phone", "Would you like to provide a phone number for faster assistance?");
      ("subject", "What's the main topic or subject of your inquiry?");
      ("message", "Please share any additional details about your inquiry. I'm here to help.")]);
  ("make_claim", [
      ("first_name", "To get started with your claim, may I have your first name?");
      ("last_name", "And your last name please?");
      ("email", "What's your email address so we can keep you updated on your claim?");
      ("phone", "What's the best phone number to reach you at regarding your claim?");
      ("full_address", "Could you please provide your full address for the claim documentation?");
      ("accident_date", "When did the accident occur? (Please provide the date)");
      ("vehicle_registration", "What's the registration number of the vehicle involved?");
      ("insurance_company", "Which insurance company handles your policy?");
      ("policy_number", "What's your policy number with them?");
      ("accident_details", "Could you please describe what happened in the accident? Any details would be helpful.");
      ("pickup_location", "Where would you like us to pick up the replacement vehicle?");
      ("dropoff_location", "And where should we deliver it to?");
      ("additional_notes", "Is there anything else you'd like to add about your claim?")]);
  ("testimonial", [
      ("full_name", "May I have your name for this testimonial?");
      ("service_used", "Which of our services have you used? (Car Hire, Car Rental, Claims Management, or Car Purchase/Sale)");
      ("feedback", "I'd love to hear about your experience. Please share your feedback with us.");
      ("rating", "On a scale of 1-5 stars, how would you rate your experience with us?")]);
  ("newsletter_subscribe", [
      ("email", "What's your email address for the newsletter subscription?")]);
  ("newsletter_unsubscribe", [
      ("email", "What's the email address you'd like to unsubscribe from our newsletter?")]);
  ("car_purchase", [
      ("name", "May I have your full name for this purchase inquiry?");
      ("email", "What's your email address so we can discuss the vehicle details?");
      ("phone", "And your phone number for any immediate questions?");
      ("message", "Is there anything specific you'd like to know about this vehicle?");
      ("offer_price", "Do you have an offer price in mind for this vehicle?");
      ("financing_required", "Are you interested in financing options for this purchase?");
      ("trade_in_details", "Do you have a vehicle you'd like to trade in?")]);
  ("car_sell", [
      ("name", "May I have your name for this vehicle sale inquiry?");
      ("email", "What's your email address so we can discuss the valuation?");
      ("phone", "And your phone number for coordination?");
      ("vehicle_make", "What's the make of the vehicle you'd like to sell?");
      ("vehicle_model", "And the model?");
      ("vehicle_year", "What year was it manufactured?");
      ("mileage", "What's the current mileage on the vehicle?");
      ("message", "Is there anything specific you'd like to tell us about the vehicle?")])
].

(* ================================================================== *)
(** ** Regular expressions the validators anchor at both ends *)

Module Re.

Inductive regex : Type :=
| Void
| Eps
| Cls (p : ascii -> bool)
| Seq (r1 r2 : regex)
| Alt (r1 r2 : regex)
| Star (r : regex).

Fixpoint nullable (r : regex) : bool :=
  match r with
  | Void => false
  | Eps => true
  | Cls _ => false
  | Seq r1 r2 => nullable r1 && nullable r2
  | Alt r1 r2 => nullable r1 || nullable r2
  | Star _ => true
  end.

Definition seq (r1 r2 : regex) : regex :=
  match r1, r2 with
  | Void, _ => Void
  | _, Void => Void
  | Eps, _ => r2
  | _, _ => Seq r1 r2
  end.

Definition alt (r1 r2 : regex) : regex :=
  match r1, r2 with
  | Void, _ => r2
  | _, Void => r1
  | _, _ => Alt r1 r2
  end.

(** Brzozowski derivative. *)
Fixpoint deriv (c : ascii) (r : regex) : regex :=
  match r with
  | Void => Void
  | Eps => Void
  | Cls p => if p c then Eps else Void
  | Seq r1 r2 =>
      alt (seq (deriv c r1) r2) (if nullable r1 then deriv c r2 else Void)
  | Alt r1 r2 => alt (deriv c r1) (deriv c r2)
  | Star r1 => seq (deriv c r1) (Star r1)
  end.

(** Whether the whole of [s] is in the language of [r]. *)
Fixpoint fullmatch (r : regex) (s : string) : bool :=
  match s with
  | EmptyString => nullable r
  | String c s' => fullmatch (deriv c r) s'
  end.

Definition plus (r : regex) : regex := Seq r (Star r).

(** [re.match('^' r '$', s)]: without [re.MULTILINE] the dollar also
    matches just before a newline that ends the string. *)
Definition match_anchored (r : regex) (s : string) : bool :=
  fullmatch r s
  || match Str.rev s with
     | String c t => Ascii.eqb c "010"%char && fullmatch r (Str.rev t)
     | EmptyString => false
     end.

Definition alnum (c : ascii) : bool :=
  Str.is_lower c || Str.is_upper c || Str.is_digit c.

Definition one_of (chars : string) (c : ascii) : bool :=
  Str.nonempty (Str.filter (Ascii.eqb c) chars).

(** [[a-zA-Z0-9._%+-]+@[a-zA-Z0-9.-]+\.[a-zA-Z]{2,}] *)
Definition email_pattern : regex :=
  let letter := Cls (fun c => Str.is_lower c || Str.is_upper c) in
  Seq (plus (Cls (fun c => alnum c || one_of "._%+-" c)))
   (Seq (Cls (Ascii.eqb "@"%char))
    (Seq (plus (Cls (fun c => alnum c || one_of ".-" c)))
     (Seq (Cls (Ascii.eqb "."%char))
      (Seq letter (Seq letter (Star letter)))))).

End Re.

(* ================================================================== *)
(** ** Conversions *)

Definition digit_val (c : ascii) : Z := Z.of_nat (nat_of_ascii c - 48).

(** The digits of an [int] literal: decimal digits, single underscores
    only between two of them. *)
Fixpoint int_digits (s : string) (acc : Z) (prev_digit : bool) : option Z :=
  match s with
  | EmptyString => if prev_digit then Some acc else None
  | String c r =>
      if Str.is_digit c then int_digits r (10 * acc + digit_val c)%Z true
      else if Ascii.eqb c "_"%char then
             if prev_digit then int_digits r acc false else None
           else None
  end.

(** [int(s)] on a string; [None] stands for [ValueError]. *)
Definition py_int (s : string) : option Z :=
  match Str.strip s with
  | String "+"%char r => int_digits r 0%Z false
  | String "-"%char r => option_map Z.opp (int_digits r 0%Z false)
  | t => int_digits t 0%Z false
  end.

Definition str_of_nat (n : nat) : string :=
  NilZero.string_of_uint (Nat.to_uint n).

Section Helpers.
Variable L : PyLib.

(** [str(v)] *)
Definition py_str (v : pyval) : string :=
  match v with
  | PStr s => s
  | PInt z => NilZero.string_of_int (Z.to_int z)
  | PBool true => "True"
  | PBool false => "False"
  | PNone => "None"
  | _ => repr_other L v
  end.

(** [float(v)] *)
Definition py_float (v : pyval) : Res Q :=
  match v with
  | PFloat q => Ok q
  | PInt z => Ok (inject_Z z)
  | PBool b => Ok (if b then 1%Q else 0%Q)
  | PStr s =>
      match float_of_str L s with
      | Some q => Ok q
      | None => Exc "could not convert string to float"
      end
  | _ => Exc "float() argument must be a string or a real number"
  end.

(** [v.get(k, default)]: only a dictionary has the method. *)
Definition py_dict_get (v : pyval) (k : string) (default : pyval)
    : Res pyval :=
  match v with
  | PDict d => Ok (match Dict.get k d with Some x => x | None => default end)
  | _ => Exc "object has no attribute 'get'"
  end.

(* ---------------------------------------------------------------- *)
(** *** Noise stripping and JSON extraction *)

Definition thinking_indicators : list string :=
  ["okay, let's see"; "okay let's see"; "let me think"; "i need to";
   "looking at"; "first,"; "check the"; "the user sent"; "the message is"].

(** [_clean_response_for_json] *)
Definition _clean_response_for_json (text : string) : string :=
  if negb (Str.nonempty text) then text
  else
    let cleaned := sub_reasoning_tags L text in
    let keep line :=
      let line_lower := Str.lower (Str.strip line) in
      negb (existsb (fun indicator => Str.contains indicator line_lower)
                    thinking_indicators
            && negb (Str.startswith "{" (Str.strip line))) in
    Str.strip (Str.join_lines (List.filter keep (Str.split_lines cleaned))).

(** The balanced-brace scan of [_extract_json_from_text]: [rest] is
    [text[i:]]; [Some v] when a candidate parsed and [v] was returned. *)
Fixpoint brace_scan (text rest : string) (i : nat) (brace_count : Z)
    (start_idx : option nat) : option pyval :=
  match rest with
  | EmptyString => None
  | String c r =>
      if Ascii.eqb c "{"%char then
        brace_scan text r (S i) (brace_count + 1)%Z
          (match start_idx with None => Some i | Some s => Some s end)
      else if Ascii.eqb c "}"%char then
        let bc := (brace_count - 1)%Z in
        match (bc =? 0)%Z, start_idx with
        | true, Some s =>
            match json_loads L (String.substring s (S i - s) text) with
            | Some v => Some v
            | None => brace_scan text r (S i) bc None
            end
        | _, _ => brace_scan text r (S i) bc start_idx
        end
      else brace_scan text r (S i) brace_count start_idx
  end.

(** The last strategy: the lines from the first that opens a brace to
    the first that closes one. *)
Fixpoint json_lines (lines : list string) (in_json : bool) : list string :=
  match lines with
  | [] => []
  | line :: rest =>
      let stripped := Str.strip line in
      if Str.startswith "{" stripped || in_json then
        if Str.endswith "}" stripped
           && (Str.count_char "{"%char stripped
               <=? Str.count_char "}"%char stripped)%nat
        then [line]
        else line :: json_lines rest true
      else json_lines rest in_json
  end.

Definition or_else {A} (o : option A) (k : option A) : option A :=
  match o with Some a => Some a | None => k end.

Definition loads_match (found : option string) : option pyval :=
  match found with
  | Some s => json_loads L s
  | None => None
  end.

(** [_extract_json_from_text]. The result is the value returned, with
    [PNone] for Python's [None]: no strategy parsed, or one parsed the
    document [null]. *)
Definition _extract_json_from_text (text : string) : pyval :=
  if negb (Str.nonempty text) then PNone
  else
    match
      or_else (json_loads L text)
     (or_else (loads_match (search_fenced_json L text))
     (or_else (brace_scan text text 0 0%Z None)
     (or_else (loads_match (search_flat_json L text))
              (match json_lines (Str.split_lines text) false with
               | [] => None
               | ls => json_loads L (Str.join_lines ls)
               end))))
    with
    | Some v => v
    | None => PNone
    end.

(* ---------------------------------------------------------------- *)
(** *** Field validation *)

Definition opt_default {A} (d : A) (o : option A) : A :=
  match o with Some a => a | None => d end.

Definition digits_only (s : string) : string := Str.filter Str.is_digit s.

(** [_validate_field_value] *)
Definition _validate_field_value (field_name value : string)
    (field_schema : FieldSchema) : bool :=
  if negb (Str.nonempty value) then false
  else
    let field_type := opt_default "string" (f_type field_schema) in
    if String.eqb field_type "email" then
      Re.match_anchored Re.email_pattern value
    else if String.eqb field_type "phone" then
      (7 <=? String.length (digits_only value))%nat
    else if String.eqb field_type "string" || String.eqb field_type "text"
    then
      match f_min_length field_schema with
      | Some n => negb (String.length value <? n)%nat
      | None => true
      end
      && match f_max_length field_schema with
         | Some n => negb (n <? String.length value)%nat
         | None => true
         end
    else if String.eqb field_type "integer" then
      match py_int value with
      | Some int_val =>
          match f_min field_schema with
          | Some lo => negb (int_val <? lo)%Z
          | None => true
          end
          && match f_max field_schema with
             | Some hi => negb (hi <? int_val)%Z
             | None => true
             end
      | None => false
      end
    else if String.eqb field_type "select" then
      match f_options field_schema with
      | Some options => Str.mem value options
      | None => true
      end
    else true.

End Helpers.

(* ================================================================== *)
(** ** The conversation state of the graph *)

(** [ConversationState]: the dictionary the graph's nodes pass along. *)
Record ConversationState : Type := {
  session_id : string;
  user_info : dict pyval;
  ip_address : option string;
  messages : list HistoryEntry;
  current_message : string;
  current_form : option string;
  current_step : option string;
  collected_data : dict pyval;
  required_fields : list string;
  completed_fields : list string;
  intent : option string;
  confidence : Q;
  intent_reasoning : pyval;
  is_form_active : bool;
  form_completed : bool;
  requires_confirmation : bool;
  manual_reply_active : bool;
  response : option string;
  response_type : string;
  next_node : option string
}.

(** [state[key] = v], one definition per key the nodes assign. *)
Definition set_current_form (v : option string) (st : ConversationState)
    : ConversationState :=
  {| session_id := session_id st; user_info := user_info st;
     ip_address := ip_address st; messages := messages st;
     current_message := current_message st; current_form := v;
     current_step := current_step st; collected_data := collected_data st;
     required_fields := required_fields st;
     completed_fields := completed_fields st; intent := intent st;
     confidence := confidence st; intent_reasoning := intent_reasoning st;
     is_form_active := is_form_active st;
     form_completed := form_completed st;
     requires_confirmation := requires_confirmation st;
     manual_reply_active := manual_reply_active st; response := response st;
     response_type := response_type st; next_node := next_node st |}.

Definition set_current_step (v : option string) (st : ConversationState)
    : ConversationState :=
  {| session_id := session_id st; user_info := user_info st;
     ip_address := ip_address st; messages := messages st;
     current_message := current_message st; current_form := current_form st;
     current_step := v; collected_data := collected_data st;
     required_fields := required_fields st;
     completed_fields := completed_fields st; intent := intent st;
     confidence := confidence st; intent_reasoning := intent_reasoning st;
     is_form_active := is_form_active st;
     form_completed := form_completed st;
     requires_confirmation := requires_confirmation st;
     manual_reply_active := manual_reply_active st; response := response st;
     response_type := response_type st; next_node := next_node st |}.

Definition set_collected_data (v : dict pyval) (st : ConversationState)
    : ConversationState :=
  {| session_id := session_id st; user_info := user_info st;
     ip_address := ip_address st; messages := messages st;
     current_message := current_message st; current_form := current_form st;
     current_step := current_step st; collected_data := v;
     required_fields := required_fields st;
     completed_fields := completed_fields st; intent := intent st;
     confidence := confidence st; intent_reasoning := intent_reasoning st;
     is_form_active := is_form_active st;
     form_completed := form_completed st;
     requires_confirmation := requires_confirmation st;
     manual_reply_active := manual_reply_active st; response := response st;
     response_type := response_type st; next_node := next_node st |}.

Definition set_required_fields (v : list string) (st : ConversationState)
    : ConversationState :=
  {| session_id := session_id st; user_info := user_info st;
     ip_address := ip_address st; messages := messages st;
     current_message := current_message st; current_form := current_form st;
     current_step := current_step st; collected_data := collected_data st;
     required_fields := v; completed_fields := completed_fields st;
     intent := intent st; confidence := confidence st;
     intent_reasoning := intent_reasoning st;
     is_form_active := is_form_active st;
     form_completed := form_completed st;
     requires_confirmation := requires_confirmation st;
     manual_reply_active := manual_reply_active st; response := response st;
     response_type := response_type st; next_node := next_node st |}.

Definition set_completed_fields (v : list string) (st : ConversationState)
    : ConversationState :=
  {| session_id := session_id st; user_info := user_info st;
     ip_address := ip_address st; messages := messages st;
     current_message := current_message st; current_form := current_form st;
     current_step := current_step st; collected_data := collected_data st;
     required_fields := required_fields st; completed_fields := v;
     intent := intent st; confidence := confidence st;
     intent_reasoning := intent_reasoning st;
     is_form_active := is_form_active st;
     form_completed := form_completed st;
     requires_confirmation := requires_confirmation st;
     manual_reply_active := manual_reply_active st; response := response st;
     response_type := response_type st; next_node := next_node st |}.

Definition set_intent (v : option string) (st : ConversationState)
    : ConversationState :=
  {| session_id := session_id st; user_info := user_info st;
     ip_address := ip_address st; messages := messages st;
     current_message := current_message st; current_form := current_form st;
     current_step := current_step st; collected_data := collected_data st;
     required_fields := required_fields st;
     completed_fields := completed_fields st; intent := v;
     confidence := confidence st; intent_reasoning := intent_reasoning st;
     is_form_active := is_form_active st;
     form_completed := form_completed st;
     requires_confirmation := requires_confirmation st;
     manual_reply_active := manual_reply_active st; response := response st;
     response_type := response_type st; next_node := next_node st |}.

Definition set_confidence (v : Q) (st : ConversationState)
    : ConversationState :=
  {| session_id := session_id st; user_info := user_info st;
     ip_address := ip_address st; messages := messages st;
     current_message := current_message st; current_form := current_form st;
     current_step := current_step st; collected_data := collected_data st;
     required_fields := required_fields st;
     completed_fields := completed_fields st; intent := intent st;
     confidence := v; intent_reasoning := intent_reasoning st;
     is_form_active := is_form_active st;
     form_completed := form_completed st;
     requires_confirmation := requires_confirmation st;
     manual_reply_active := manual_reply_active st; response := response st;
     response_type := response_type st; next_node := next_node st |}.

Definition set_intent_reasoning (v : pyval) (st : ConversationState)
    : ConversationState :=
  {| session_id := session_id st; user_info := user_info st;
     ip_address := ip_address st; messages := messages st;
     current_message := current_message st; current_form := current_form st;
     current_step := current_step st; collected_data := collected_data st;
     required_fields := required_fields st;
     completed_fields := completed_fields st; intent := intent st;
     confidence := confidence st; intent_reasoning := v;
     is_form_active := is_form_active st;
     form_completed := form_completed st;
     requires_confirmation := requires_confirmation st;
     manual_reply_active := manual_reply_active st; response := response st;
     response_type := response_type st; next_node := next_node st |}.

Definition set_is_form_active (v : bool) (st : ConversationState)
    : ConversationState :=
  {| session_id := session_id st; user_info := user_info st;
     ip_address := ip_address st; messages := messages st;
     current_message := current_message st; current_form := current_form st;
     current_step := current_step st; collected_data := collected_data st;
     required_fields := required_fields st;
     completed_fields := completed_fields st; intent := intent st;
     confidence := confidence st; intent_reasoning := intent_reasoning st;
     is_form_active := v; form_completed := form_completed st;
     requires_confirmation := requires_confirmation st;
     manual_reply_active := manual_reply_active st; response := response st;
     response_type := response_type st; next_node := next_node st |}.

Definition set_requires_confirmation (v : bool) (st : ConversationState)
    : ConversationState :=
  {| session_id := session_id st; user_info := user_info st;
     ip_address := ip_address st; messages := messages st;
     current_message := current_message st; current_form := current_form st;
     current_step := current_step st; collected_data := collected_data st;
     required_fields := required_fields st;
     completed_fields := completed_fields st; intent := intent st;
     confidence := confidence st; intent_reasoning := intent_reasoning st;
     is_form_active := is_form_active st;
     form_completed := form_completed st; requires_confirmation := v;
     manual_reply_active := manual_reply_active st; response := response st;
     response_type := response_type st; next_node := next_node st |}.

Definition set_response (v : option string) (st : ConversationState)
    : ConversationState :=
  {| session_id := session_id st; user_info := user_info st;
     ip_address := ip_address st; messages := messages st;
     current_message := current_message st; current_form := current_form st;
     current_step := current_step st; collected_data := collected_data st;
     required_fields := required_fields st;
     completed_fields := completed_fields st; intent := intent st;
     confidence := confidence st; intent_reasoning := intent_reasoning st;
     is_form_active := is_form_active st;
     form_completed := form_completed st;
     requires_confirmation := requires_confirmation st;
     manual_reply_active := manual_reply_active st; response := v;
     response_type := response_type st; next_node := next_node st |}.

Definition set_response_type (v : string) (st : ConversationState)
    : ConversationState :=
  {| session_id := session_id st; user_info := user_info st;
     ip_address := ip_address st; messages := messages st;
     current_message := current_message st; current_form := current_form st;
     current_step := current_step st; collected_data := collected_data st;
     required_fields := required_fields st;
     completed_fields := completed_fields st; intent := intent st;
     confidence := confidence st; intent_reasoning := intent_reasoning st;
     is_form_active := is_form_active st;
     form_completed := form_completed st;
     requires_confirmation := requires_confirmation st;
     manual_reply_active := manual_reply_active st; response := response st;
     response_type := v; next_node := next_node st |}.

Definition set_next_node (v : option string) (st : ConversationState)
    : ConversationState :=
  {| session_id := session_id st; user_info := user_info st;
     ip_address := ip_address st; messages := messages st;
     current_message := current_message st; current_form := current_form st;
     current_step := current_step st; collected_data := collected_data st;
     required_fields := required_fields st;
     completed_fields := completed_fields st; intent := intent st;
     confidence := confidence st; intent_reasoning := intent_reasoning st;
     is_form_active := is_form_active st;
     form_completed := form_completed st;
     requires_confirmation := requires_confirmation st;
     manual_reply_active := manual_reply_active st; response := response st;
     response_type := response_type st; next_node := v |}.

(** Truth value of an optional string: [None] and [''] are false. *)
Definition opt_truthy (o : option string) : bool :=
  match o with
  | Some s => Str.nonempty s
  | None => false
  end.

(** [[f for f in required if f not in collected_data
         or not collected_data.get(f)]] *)
Definition missing_fields (required : list string)
    (collected : dict pyval) : list string :=
  List.filter
    (fun f => negb (Dict.mem f collected) || negb (truthy (pyget f collected)))
    required.

(** [if x not in l: l.append(x)] *)
Definition append_new (x : string) (l : list string) : list string :=
  if Str.mem x l then l else (l ++ [x])%list.

Definition is_nil {A} (l : list A) : bool :=
  match l with [] => true | _ => false end.

(** [form_schemas.get(form, {}).get('required_fields', [])] *)
Definition form_required_fields (form_schemas : dict FormInfo)
    (form : string) : list string :=
  match Dict.get form form_schemas with
  | Some form_info => fi_required_fields form_info
  | None => []
  end.

Section Extraction.
Variable L : PyLib.
Variable W : World.
Variable form_schemas : dict FormInfo.

(** The acceptance loop of [_extract_multiple_fields_from_message]
    over the parsed answer. *)
Fixpoint validated_fields (result : dict pyval)
    (validation_rules : dict FieldSchema) (field_names : list string)
    (validated_result : dict string) : dict string :=
  match field_names with
  | [] => validated_result
  | field_name :: rest =>
      let value := pyget field_name result in
      let text := py_str L value in
      let accepted :=
        truthy value
        && Str.nonempty (Str.strip text)
        && negb (String.eqb (Str.upper text) "NOT_FOUND")
        && negb (String.eqb (Str.lower text) "null")
        && _validate_field_value field_name (Str.strip text)
             (opt_default no_rule (Dict.get field_name validation_rules)) in
      validated_fields result validation_rules rest
        (if accepted
         then Dict.set field_name (Str.strip text) validated_result
         else validated_result)
  end.

(** [_extract_multiple_fields_from_message]. The prompt it builds is
    an argument of the request only. *)
Definition _extract_multiple_fields_from_message (message : string)
    (field_names : list string) (form_type : string)
    (collected : dict pyval) : M (dict string) :=
  if negb (Str.nonempty message) || is_nil field_names
     || negb (Str.nonempty form_type)
  then ret []
  else
    match Dict.get form_type form_schemas with
    | None => ret []
    | Some form_info =>
        available <- _is_client_available ;;
        if negb available then ret []
        else
          try_except
            (answer <- create_completion W ;;
             if negb (opt_truthy answer) then ret []
             else
               let result_text :=
                 _clean_response_for_json L
                   (Str.strip (opt_default "" answer)) in
               match _extract_json_from_text L result_text with
               | PDict ((k, v) :: d) =>
                   ret (validated_fields ((k, v) :: d)
                          (fi_validation form_info) field_names [])
               | _ => ret []
               end)
            (fun e => _mark_api_failure e ;;; ret [])
    end.

Definition name_fields : list string :=
  ["name"; "full_name"; "first_name"; "last_name"].

(** The quote stripping of [_extract_field_value]. *)
Definition unquote (extracted : string) : string :=
  let e1 :=
    if Str.startswith Str.dquote extracted
       && Str.endswith Str.dquote extracted
    then Str.drop_ends extracted else extracted in
  if Str.startswith "'" e1 && Str.endswith "'" e1
  then Str.drop_ends e1 else e1.

(** [_extract_field_value] *)
Definition _extract_field_value (message field_name form_type : string)
    : M (option string) :=
  if negb (Str.nonempty message) || negb (Str.nonempty field_name)
     || negb (Str.nonempty form_type)
  then ret None
  else
    let field_schema : option FieldSchema :=
      match Dict.get form_type form_schemas with
      | Some form_info =>
          Some (opt_default no_rule
                  (Dict.get field_name (fi_validation form_info)))
      | None => None
      end in
    let schema_type : option string :=
      match field_schema with
      | Some r => if rule_nonempty r then f_type r else None
      | None => None
      end in
    available <- _is_client_available ;;
    if negb available then ret (Some "NOT_FOUND")
    else
      try_except
        (answer <- create_completion W ;;
         if negb (opt_truthy answer) then ret None
         else
           let extracted := unquote (Str.strip (opt_default "" answer)) in
           if String.eqb (Str.upper extracted) "NOT_FOUND"
              || negb (Str.nonempty extracted)
           then ret None
           else
             match schema_type with
             | Some "email" =>
                 if negb (Re.match_anchored Re.email_pattern extracted)
                 then ret None else ret (Some extracted)
             | Some "phone" =>
                 let digits :=
                   Str.remove_char ")"%char (Str.remove_char "("%char
                     (Str.remove_char "+"%char (Str.remove_char "-"%char
                        (Str.remove_char " "%char extracted)))) in
                 if negb (Str.isdigit digits)
                    || (String.length digits <? 7)%nat
                 then ret None else ret (Some extracted)
             | _ => ret (Some extracted)
             end)
        (fun e =>
           _mark_api_failure e ;;;
           let by_pattern : option string :=
             match schema_type with
             | Some "email" => search_email L message
             | Some "phone" =>
                 match search_phone L message with
                 | Some found =>
                     let phone := Str.strip found in
                     if (7 <=? String.length (digits_only phone))%nat
                     then Some (Str.strip phone) else None
                 | None => None
                 end
             | _ => None
             end in
           match by_pattern with
           | Some v => ret (Some v)
           | None =>
               if Str.mem field_name name_fields
                  && (String.length (Str.strip message) <? 50)%nat
               then ret (Some (Str.strip message))
               else ret None
           end).

End Extraction.

(* ================================================================== *)
(** ** The nodes of the graph *)

Definition intent_keywords : list string :=
  ["wanna"; "want"; "need"; "help"; "hire"; "buy"; "sell"; "claim";
   "contact"; "subscribe"; "unsubscribe"; "testimonial"; "review"].

(** The keyword heuristic of [intent_classifier_node]. *)
Definition looks_like_new_intent (message : string) : bool :=
  let message_lower := Str.strip (Str.lower message) in
  existsb (fun keyword => Str.contains keyword message_lower) intent_keywords
  && (5 <? String.length message)%nat.

(** The four assignments every degraded exit of the classifier makes;
    the handler of the outer [try] leaves the reasoning as it was. *)
Definition classify_general (reasoning : option string)
    (state : ConversationState) : ConversationState :=
  set_next_node (Some "general")
    (match reasoning with
     | Some r => set_intent_reasoning (PStr r)
     | None => fun st => st
     end
       (set_confidence (3 # 10)%Q (set_intent (Some "general") state))).

(** The short circuit onto the active form. *)
Definition continue_form (current_form reasoning : string)
    (state : ConversationState) : ConversationState :=
  set_next_node (Some "form_flow")
    (set_intent_reasoning (PStr reasoning)
       (set_confidence 1%Q (set_intent (Some current_form) state))).

Section Nodes.
Variable L : PyLib.
Variable W : World.
Variable form_schemas : dict FormInfo.
Variable form_questions : dict (dict string).

(** [intent not in self.form_schemas]: a list or a dictionary cannot be
    looked up. *)
Definition in_form_schemas (v : pyval) : Res bool :=
  match v with
  | PStr s => Ok (Dict.mem s form_schemas)
  | PList _ | PDict _ => Exc "unhashable type"
  | _ => Ok false
  end.

(** Lines 405-426: what a parsed answer makes of the state. The
    lookups and the conversion raise on an answer of the wrong shape. *)
Definition accept_classification (result : pyval)
    (state : ConversationState) : Res ConversationState :=
  match py_dict_get result "intent" (PStr "general") with
  | Exc e => Exc e
  | Ok intent =>
  match py_dict_get result "confidence" (PFloat (1 # 2)%Q) with
  | Exc e => Exc e
  | Ok c0 =>
  match py_float L c0 with
  | Exc e => Exc e
  | Ok confidence =>
  match py_dict_get result "reasoning" (PStr "") with
  | Exc e => Exc e
  | Ok reasoning =>
  match in_form_schemas intent with
  | Exc e => Exc e
  | Ok known =>
      let '(intent, confidence) :=
        match intent with
        | PStr s =>
            if negb known && negb (String.eqb s "general")
            then ("general", (3 # 10)%Q) else (s, confidence)
        | _ => ("general", (3 # 10)%Q)
        end in
      Ok (set_next_node
            (Some (if Dict.mem intent form_schemas
                   then "form_flow" else "general"))
            (set_intent_reasoning reasoning
               (set_confidence confidence
                  (set_intent (Some intent) state))))
  end end end end end.

(** Lines 379-433: from the provider's response to the state. *)
Definition classify_answer (answer : option string)
    (state : ConversationState) : Res ConversationState :=
  if negb (opt_truthy answer) then
    Ok (classify_general (Some "Empty API response") state)
  else
    let result_text := Str.strip (opt_default "" answer) in
    if negb (Str.nonempty result_text) then
      Ok (classify_general (Some "Empty response text") state)
    else
      let result :=
        _extract_json_from_text L (_clean_response_for_json L result_text) in
      if truthy result then accept_classification result state
      else Ok (classify_general (Some "Failed to parse JSON response") state).

(** The part of [intent_classifier_node] that asks the provider, from
    the availability check to the end of the outer [try]. *)
Definition classify_with_provider (state : ConversationState)
    : M ConversationState :=
  available <- _is_client_available ;;
  if negb available then
    ret (classify_general (Some "API unavailable - using fallback") state)
  else
    answer <- try_except
                (c <- create_completion W ;; ret (inl c))
                (fun e => _mark_api_failure e ;;; ret (inr e)) ;;
    match answer with
    | inr e =>
        ret (classify_general
               (Some ("API error: " ++ String.substring 0 50 e)) state)
    | inl c => lift (classify_answer c state)
    end.

(** [intent_classifier_node] *)
Definition intent_classifier_node (state : ConversationState)
    : M ConversationState :=
  try_except
    (let message := current_message state in
     let collected := collected_data state in
     match current_form state with
     | Some current_form_name =>
         if Str.nonempty current_form_name then
           if looks_like_new_intent message then
             let required :=
               form_required_fields form_schemas current_form_name in
             if negb (is_nil (missing_fields required collected)) then
               ret (continue_form current_form_name
                      ("Already in active form (" ++ current_form_name
                       ++ "), continuing to collect missing fields")
                      state)
             else classify_with_provider state
           else
             ret (continue_form current_form_name "Already in active form"
                    state)
         else classify_with_provider state
     | None => classify_with_provider state
     end)
    (fun _ => ret (classify_general None state)).

(** The pre-population of [form_router_node] from the name on record:
    the first of the three name fields that the form requires. *)
Fixpoint prefill_name (name : pyval) (candidates : list string)
    (collected : dict pyval) (completed required : list string)
    : dict pyval * list string * list string :=
  match candidates with
  | [] => (collected, completed, required)
  | field :: rest =>
      if Str.mem field required then
        (Dict.set field name collected, (completed ++ [field])%list,
         list_remove field required)
      else prefill_name name rest collected completed required
  end.

Definition prefill_field (key : string) (info : dict pyval)
    (acc : dict pyval * list string * list string)
    : dict pyval * list string * list string :=
  let '(collected, completed, required) := acc in
  if truthy (pyget key info) && Str.mem key required then
    (Dict.set key (pyget key info) collected, (completed ++ [key])%list,
     list_remove key required)
  else acc.

(** The loop that commits extracted fields in [form_router_node] and
    [data_extractor_node]. *)
Fixpoint commit_fields (extracted : dict string) (allowed : list string)
    (collected : dict pyval) (completed : list string)
    : dict pyval * list string :=
  match extracted with
  | [] => (collected, completed)
  | (field_name, field_value) :: rest =>
      if Str.nonempty field_value && Str.mem field_name allowed then
        commit_fields rest allowed
          (Dict.set field_name (PStr field_value) collected)
          (append_new field_name completed)
      else commit_fields rest allowed collected completed
  end.

(** [form_router_node] *)
Definition form_router_node (state : ConversationState)
    : M ConversationState :=
  let collected := collected_data state in
  let message := Str.strip (current_message state) in
  let starts :=
    match intent state with
    | Some i => if negb (opt_truthy (current_form state))
                then Dict.get i form_schemas else None
    | None => None
    end in
  match starts, current_form state with
  | Some form_info, _ =>
      let info := user_info state in
      let start := ([], [], fi_required_fields form_info) in
      let named :=
        if truthy (pyget "name" info)
        then prefill_name (pyget "name" info)
               ["name"; "full_name"; "first_name"] [] []
               (fi_required_fields form_info)
        else start in
      let '(prefilled, completed, required) :=
        prefill_field "phone" info (prefill_field "email" info named) in
      ret (set_next_node (Some "start_form")
             (set_completed_fields completed
                (set_collected_data prefilled
                   (set_required_fields required
                      (set_is_form_active true
                         (set_current_form (intent state) state))))))
  | None, Some form_name =>
      if negb (Str.nonempty form_name) then
        ret (set_next_node (Some "general") state)
      else if opt_truthy (current_step state) then
        ret (set_next_node (Some "extract_data") state)
      else
        match Dict.get form_name form_schemas with
        | None => raise "KeyError"
        | Some form_info =>
            let required :=
              missing_fields (fi_required_fields form_info) collected in
            let state := set_required_fields required state in
            if is_nil required then
              ret (set_next_node (Some "validate") state)
            else
              extracted <- _extract_multiple_fields_from_message
                             L W form_schemas message required form_name
                             collected ;;
              if negb (is_nil extracted) then
                let '(collected, completed) :=
                  commit_fields extracted required collected
                    (completed_fields state) in
                let remaining :=
                  missing_fields (fi_required_fields form_info) collected in
                ret (set_next_node
                       (Some (if is_nil remaining then "validate"
                              else "start_form"))
                       (set_required_fields remaining
                          (set_collected_data collected
                             (set_completed_fields completed state))))
              else ret (set_next_node (Some "start_form") state)
        end
  | None, None => ret (set_next_node (Some "general") state)
  end.

End Nodes.

Definition field_labels : dict string :=
  [("name", "Name"); ("full_name", "Full Name");
   ("first_name", "First Name"); ("last_name", "Last Name");
   ("email", "Email"); ("phone", "Phone");
   ("vehicle_make", "Vehicle Make"); ("vehicle_model", "Vehicle Model");
   ("vehicle_year", "Vehicle Year"); ("mileage", "Mileage");
   ("message", "Message"); ("subject", "Subject");
   ("feedback", "Feedback"); ("rating", "Rating");
   ("accident_date", "Accident Date");
   ("vehicle_registration", "Vehicle Registration");
   ("insurance_company", "Insurance Company");
   ("policy_number", "Policy Number");
   ("accident_details", "Accident Details");
   ("pickup_location", "Pickup Location");
   ("dropoff_location", "Dropoff Location"); ("full_address", "Address");
   ("additional_notes", "Additional Notes");
   ("offer_price", "Offer Price");
   ("financing_required", "Financing Required");
   ("trade_in_details", "Trade-in Details");
   ("service_used", "Service Used")].

(** [str.title] *)
Fixpoint title_from (s : string) (in_word : bool) : string :=
  match s with
  | EmptyString => EmptyString
  | String c r =>
      let letter := Str.is_lower c || Str.is_upper c in
      String (if letter
              then if in_word then Str.lower_char c else Str.upper_char c
              else c)
             (title_from r letter)
  end.

Definition title (s : string) : string := title_from s false.

Definition default_general_answer : string :=
  "I'm here to help with car hire and related services. How can I assist you today?".

Definition default_clean_answer : string :=
  "I'm here to help with your car hire needs. How can I assist you?".

Definition goodbye_phrases : list string :=
  ["goodbye"; "farewell"; "see you later"; "take care"; "have a great day";
   "bye for now"].

Section MoreNodes.
Variable L : PyLib.
Variable W : World.
Variable form_schemas : dict FormInfo.
Variable form_questions : dict (dict string).

(** [data_extractor_node] *)
Definition data_extractor_node (state : ConversationState)
    : M ConversationState :=
  let message := current_message state in
  let collected := collected_data state in
  let completed := completed_fields state in
  match current_form state with
  | None => ret (set_next_node (Some "general") state)
  | Some form_name =>
      if negb (Str.nonempty form_name) then
        ret (set_next_node (Some "general") state)
      else
        match Dict.get form_name form_schemas with
        | None => ret (set_next_node (Some "general") state)
        | Some form_info =>
            let missing :=
              missing_fields (fi_required_fields form_info) collected in
            let step := opt_default "" (current_step state) in
            '(collected, completed) <-
              (if opt_truthy (current_step state) && Str.mem step missing
               then
                 extracted_value <-
                   _extract_field_value L W form_schemas message step
                     form_name ;;
                 if opt_truthy extracted_value then
                   ret (Dict.set step
                          (PStr (opt_default "" extracted_value)) collected,
                        append_new step completed)
                 else ret (collected, completed)
               else ret (collected, completed)) ;;
            let remaining_missing :=
              List.filter
                (fun f => match current_step state with
                          | Some s => negb (String.eqb f s)
                          | None => true
                          end) missing in
            '(collected, completed) <-
              (if negb (is_nil remaining_missing) then
                 extracted <-
                   _extract_multiple_fields_from_message L W form_schemas
                     message remaining_missing form_name collected ;;
                 ret (commit_fields extracted remaining_missing collected
                        completed)
               else ret (collected, completed)) ;;
            let required :=
              missing_fields (fi_required_fields form_info) collected in
            ret (set_next_node
                   (Some (if is_nil required then "validate"
                          else "next_question"))
                   (set_required_fields required
                      (set_current_step None
                         (set_completed_fields completed
                            (set_collected_data collected state)))))
        end
  end.

(** [question_generator_node] *)
Definition question_generator_node (state : ConversationState)
    : ConversationState :=
  let form_info :=
    match current_form state with
    | Some f => Dict.get f form_schemas
    | None => None
    end in
  match opt_truthy (current_form state), required_fields state with
  | true, next_field :: others =>
      let form_name := opt_default "" (current_form state) in
      let total_required :=
        match form_info with
        | Some fi => List.length (fi_required_fields fi)
        | None => 0
        end in
      let collected_count := List.length (collected_data state) in
      let remaining_count := List.length (required_fields state) in
      let question :=
        opt_default
          ("Could you please provide your "
           ++ Str.replace_char "_"%char " "%char next_field ++ "?")
          (Dict.get next_field
             (opt_default [] (Dict.get form_name form_questions))) in
      let form_title :=
        match form_info with
        | Some fi => fi_title fi
        | None => "form"
        end in
      let response_text :=
        if (collected_count =? 0)%nat then
          "I'd be happy to help you with " ++ form_title ++ ". " ++ question
        else if (0 <? collected_count)%nat && (1 <? remaining_count)%nat then
          "Great! " ++ question ++ " (" ++ str_of_nat collected_count
          ++ " of " ++ str_of_nat total_required ++ " completed)"
        else if (remaining_count =? 1)%nat then
          "Almost there! " ++ question ++ " (just 1 more field needed)"
        else question in
      set_next_node (Some "end")
        (set_response_type "question"
           (set_response (Some response_text)
              (set_current_step (Some next_field) state)))
  | _, _ =>
      set_next_node (Some "end")
        (set_response_type "general"
           (set_response
              (Some "Thank you! I have all the information I need.") state))
  end.

(** [validator_node] *)
Definition validator_node (state : ConversationState)
    : M ConversationState :=
  match opt_truthy (current_form state), current_form state with
  | true, Some form_name =>
      match Dict.get form_name form_schemas with
      | None => raise "KeyError"
      | Some form_info =>
          let validation_errors :=
            missing_fields (fi_required_fields form_info)
              (collected_data state) in
          if negb (is_nil validation_errors) then
            ret (set_next_node (Some "ask_question")
                   (set_required_fields validation_errors state))
          else ret (set_next_node (Some "confirm") state)
      end
  | _, _ => ret (set_next_node (Some "end") state)
  end.

(** [_clean_response] of the agent *)
Definition _clean_response (response_text : option string) : M string :=
  if negb (opt_truthy response_text) then ret default_clean_answer
  else lift (service_clean_response L (opt_default "" response_text)).

(** [_generate_general_response]; the prompt is an argument of the
    request only. *)
Definition _generate_general_response : M string :=
  available <- _is_client_available ;;
  if negb available then ret default_general_answer
  else
    try_except
      (answer <- create_completion W ;;
       if negb (opt_truthy answer) then ret default_general_answer
       else
         cleaned <- _clean_response
                      (Some (Str.strip (opt_default "" answer))) ;;
         if existsb (fun phrase => Str.contains phrase (Str.lower cleaned))
              goodbye_phrases
            && negb (Str.contains "always here" (Str.lower cleaned))
         then ret (cleaned ++
           " I'm always here whenever you need anything or have any questions!")
         else ret cleaned)
      (fun e => _mark_api_failure e ;;; ret default_general_answer).

(** The confirmation summary of [response_generator_node]. *)
Definition summary_line (entry : string * pyval) : string :=
  let '(field, value) := entry in
  let field_label :=
    opt_default (title (Str.replace_char "_"%char " "%char field))
      (Dict.get field field_labels) in
  let display_value :=
    match value with
    | PBool b => if b then "Yes" else "No"
    | _ => py_str L value
    end in
  "• **" ++ field_label ++ "**: " ++ display_value ++ String "010"%char "".

Definition confirmation_summary (form_title : string)
    (collected : dict pyval) : string :=
  "Perfect! Let me confirm the information you've provided for your "
  ++ form_title ++ ":" ++ String "010"%char (String "010"%char "")
  ++ String.concat "" (map summary_line collected)
  ++ String "010"%char
       "Does this look correct? Please reply 'yes' to submit or 'no' to make changes.".

(** [response_generator_node] *)
Definition response_generator_node (state : ConversationState)
    : M ConversationState :=
  let confirming :=
    match next_node state with
    | Some n => String.eqb n "confirm" && opt_truthy (current_form state)
    | None => false
    end in
  if confirming then
    let form_title :=
      match Dict.get (opt_default "" (current_form state)) form_schemas with
      | Some fi => fi_title fi
      | None => "form"
      end in
    ret (set_next_node (Some "end")
           (set_requires_confirmation true
              (set_response_type "confirmation"
                 (set_response
                    (Some (confirmation_summary form_title
                             (collected_data state))) state))))
  else
    response_text <-
      match match intent state with
            | Some i => Dict.get i form_schemas
            | None => None
            end with
      | Some form_info =>
          ret ("I'd be happy to help you with " ++ fi_title form_info
               ++ ". Let me collect some information from you.")
      | None => _generate_general_response
      end ;;
    ret (set_next_node (Some "end")
           (set_response_type "general"
              (set_response (Some response_text) state))).

(** The compiled graph: the nodes joined by [_route_after_intent],
    [_route_after_form_router], [_route_after_extraction] and
    [_route_after_validation]. A route name without an edge is an error
    of the graph runtime. Every key of the state is given afresh on
    each invocation, so nothing is carried over by the checkpointer. *)
Definition after_validation (state : ConversationState)
    : M ConversationState :=
  state <- validator_node state ;;
  match next_node state with
  | Some "confirm" => response_generator_node state
  | Some "ask_question" => ret (question_generator_node state)
  | _ => raise "no edge for route end"
  end.

Definition after_extraction (state : ConversationState)
    : M ConversationState :=
  state <- data_extractor_node state ;;
  match next_node state with
  | Some "validate" => after_validation state
  | Some "complete" => response_generator_node state
  | _ => ret (question_generator_node state)
  end.

Definition after_form_router (state : ConversationState)
    : M ConversationState :=
  state <- form_router_node L W form_schemas state ;;
  match next_node state with
  | Some "start_form" => ret (question_generator_node state)
  | Some "extract_data" => after_extraction state
  | Some "validate" => after_validation state
  | _ => response_generator_node state
  end.

Definition graph_invoke (initial_state : ConversationState)
    : M ConversationState :=
  state <- intent_classifier_node L W form_schemas initial_state ;;
  match next_node state with
  | Some "form_flow" => after_form_router state
  | Some "general" => response_generator_node state
  | Some "extract_data" => after_extraction state
  | _ => raise "no edge for route"
  end.

End MoreNodes.

(* ================================================================== *)
(** ** The rule-based responder ([rule_based_chatbot.py]) *)

(** The first canned answer of each intent of [context_patterns]:
    [_get_response_for_intent] only ever returns [responses[0]]. *)
Definition context_first_response : dict string := [
  ("greeting",
   "Hello! Welcome to Prestige Car Hire Management. I'm here to help you with all your car hire needs. How can I assist you today?");
  ("company_info",
   "Prestige Car Hire Management is a premier car rental service offering luxury and standard vehicles for hire. We provide exceptional customer service, flexible rental options, and a wide range of vehicles to suit your needs.");
  ("pricing",
   "Our pricing varies depending on the vehicle type, rental duration, and season. We offer competitive rates for daily, weekly, and monthly rentals. For specific pricing quotes, please visit the 'Contact Us' page to get in touch with our team, or check the 'Our Fleet' page to see vehicles and inquire about rates.");
  ("booking",
   "I'd be happy to help you with a booking! You can browse our available vehicles and make a booking through our website. Visit the 'Our Fleet' page to see all available vehicles, or go to the 'Contact Us' page to speak with our team directly. Would you like me to guide you to a specific page?");
  ("contact",
   "You can reach us through our 'Contact Us' page on the website, where you'll find our contact form, email (info@prestigecarhire.co.uk), and phone number. Visit the Contact Us page to get in touch with our team - we're here to help!");
  ("vehicle_types",
   "We offer a wide range of vehicles including economy cars, sedans, SUVs, luxury vehicles, sports cars, and commercial vehicles. To see our full fleet, visit the 'Our Fleet' page on our website where you can browse all available vehicles with details, photos, and specifications.");
  ("insurance",
   "We offer comprehensive insurance coverage options for all rentals. For detailed information about our insurance services, visit the 'Insurance Services' page on our website. If you need to make a claim, you can use the 'Make a Claim' page. Would you like directions to either of these pages?");
  ("requirements",
   "To rent a vehicle, you'll need: a valid driving license (held for at least 1-2 years depending on vehicle type), proof of identity, a credit or debit card for the security deposit, and you must meet our minimum age requirement (typically 21-25 years depending on vehicle category).");
  ("payment",
   "We accept major credit and debit cards. A security deposit is required at the time of rental, which is typically held as a pre-authorization on your card and released after the vehicle is returned in good condition. The deposit amount varies by vehicle type.");
  ("cancellation",
   "Our cancellation policy allows for booking changes and cancellations. Cancellation terms depend on how far in advance you cancel and the type of booking. Generally, cancellations made 24-48 hours before pickup are fully refundable. For specific terms, please check your booking confirmation or contact us.");
  ("delivery",
   "We offer flexible pickup and return options. You can collect your vehicle from our office locations, or we can arrange delivery to airports, train stations, hotels, or other convenient locations (subject to availability and additional fees). Where would be most convenient for you?");
  ("hours",
   "Our office hours are typically Monday to Friday 9 AM to 6 PM, and Saturday 9 AM to 4 PM. We're closed on Sundays and bank holidays. However, we offer 24/7 roadside assistance for emergencies. For specific hours or holiday schedules, please contact us.");
  ("emergency",
   "In case of an emergency, breakdown, or accident, please contact our 24/7 emergency helpline immediately. We'll provide roadside assistance, arrange recovery if needed, and help you get back on the road or provide a replacement vehicle. Your safety is our priority!");
  ("testimonials",
   "We're proud of our excellent customer reviews and testimonials! Visit the 'Testimonials' page on our website to read what our customers say about our service quality, vehicle condition, and customer support. We'd love to add your positive experience too!");
  ("goodbye",
   "You're very welcome! I'm always here to help whenever you need assistance with car hire, bookings, or any questions. Feel free to reach out anytime. Have a wonderful day!");
  ("general_help",
   "I can help guide you to the right pages on our website! Here's what's available: 'Our Fleet' for browsing vehicles, 'Contact Us' for inquiries, 'Insurance Services' for coverage info, 'Make a Claim' for accident claims, 'Car Sales' for purchasing vehicles, 'Testimonials' for reviews, and 'Our People' to learn about our team. What would you like to explore?");
  ("faq_general",
   "Rental duration is flexible - we offer daily, weekly, and monthly rentals. Minimum rental periods vary by vehicle type (typically 1-3 days). You can extend your rental if the vehicle is available, or return early (subject to our terms). What duration are you considering?");
  ("vehicle_features",
   "Our vehicles come with various features depending on the category. Standard features often include air conditioning, Bluetooth connectivity, GPS navigation (in many vehicles), and modern safety features. Visit the 'Our Fleet' page to see detailed specifications for each vehicle.");
  ("car_sales",
   "Great! We offer vehicles for purchase through our car sales service. Visit the 'Car Sales' page on our website to browse vehicles available for purchase, view pricing, and submit a purchase inquiry. You can also contact us through the 'Contact Us' page for more information.");
  ("car_sell",
   "We'd be happy to help you sell your vehicle! Visit the 'Car Sales' page on our website where you can submit a sell request with details about your vehicle. Our team will provide a valuation and discuss options with you. You can also contact us through the 'Contact Us' page.");
  ("make_claim",
   "If you've had an accident and need to make a claim, visit the 'Make a Claim' page on our website. There you can submit your claim details and request a replacement vehicle. Our team will process your claim and arrange a suitable vehicle for you.");
  ("services",
   "We offer several services including car hire, accident replacement vehicles, insurance claim management, personal assistance, introducer support, and insurance services. Visit the 'What We Do' page on our website to learn more about all our services, or check out 'Personal Assistance', 'Introducer Support', and 'Insurance Services' pages for specific details.")
].

(** [self.responses['unclear'][0]] and [self.responses['default'][0]] *)
Definition unclear_first_response : string :=
  "I want to make sure I understand correctly. Could you rephrase your question or provide more details?".

Definition default_first_response : string :=
  "I'm here to help with car hire and related services. Could you provide more details about what you're looking for?".

Definition lead_intents : list string :=
  ["booking"; "pricing"; "contact"; "vehicle_types"; "delivery";
   "car_sales"; "car_sell"; "make_claim"].

(** [len(message.split())] *)
Fixpoint word_count_from (s : string) (in_word : bool) : nat :=
  match s with
  | EmptyString => 0
  | String c r =>
      if Str.is_space c then word_count_from r false
      else (if in_word then 0 else 1) + word_count_from r true
  end.

Definition word_count (s : string) : nat := word_count_from s false.

(** What [generate_response] returns. *)
Record RuleResult : Type := {
  rr_message : string;
  rr_intent : string;
  rr_confidence : Q;
  rr_collected_data : dict pyval;
  rr_is_lead : bool;
  rr_response_time_ms : Z
}.

(** The two objects [get_rule_based_chatbot] can hand out. *)
Inductive Chatbot : Type := RuleBasedChatbot | FallbackChatbot.

Section RuleBased.
Variable L : PyLib.

(** [classify_intent]: the scoring loop is [score_intent]; whatever it
    raises is caught. *)
Definition classify_intent (message : string) : string * Q :=
  if negb (Str.nonempty message) then ("unclear", 0%Q)
  else
    let message_lower := Str.strip (Str.lower message) in
    if negb (Str.nonempty message_lower) then ("unclear", 0%Q)
    else
      match score_intent L message_lower with
      | Ok scored => scored
      | Exc _ => ("general_help", (3 # 10)%Q)
      end.

(** [_get_response_for_intent] *)
Definition _get_response_for_intent (intent message : string) : string :=
  let intent := if Str.nonempty intent then intent else "general_help" in
  match Dict.get intent context_first_response with
  | Some first => first
  | None =>
      if String.eqb intent "unclear" then
        if (word_count message <=? 2)%nat then
          "I'm here to help! Could you tell me more about what you need? For example, are you looking to book a vehicle, get pricing information, or have questions about our services?"
        else unclear_first_response
      else default_first_response
  end.

(** [RuleBasedChatbot.generate_response] *)
Definition generate_response (message : string) : RuleResult :=
  if negb (Str.nonempty message) || negb (Str.nonempty (Str.strip message))
  then
    {| rr_message :=
         "I'm here to help! Please let me know what you need assistance with.";
       rr_intent := "unclear"; rr_confidence := 0%Q;
       rr_collected_data := []; rr_is_lead := false;
       rr_response_time_ms := 50%Z |}
  else
    let message_clean := Str.strip message in
    let '(intent, confidence) := classify_intent message_clean in
    {| rr_message := _get_response_for_intent intent message_clean;
       rr_intent := intent; rr_confidence := confidence;
       rr_collected_data := [];
       rr_is_lead := Str.mem intent lead_intents;
       rr_response_time_ms := 50%Z |}.

(** [FallbackChatbot.generate_response] *)
Definition fallback_generate_response : RuleResult :=
  {| rr_message := default_general_answer; rr_intent := "general_help";
     rr_confidence := (3 # 10)%Q; rr_collected_data := [];
     rr_is_lead := false; rr_response_time_ms := 50%Z |}.

Definition chatbot_generate_response (bot : Chatbot) (message : string)
    : RuleResult :=
  match bot with
  | RuleBasedChatbot => generate_response message
  | FallbackChatbot => fallback_generate_response
  end.

End RuleBased.

(* ================================================================== *)
(** ** The resilience wrapper *)

(** The dictionary [process_message] returns. [r_fallback_used] is
    [None] where the key is absent. *)
Record Response : Type := {
  r_message : string;
  r_response_type : string;
  r_intent_classification : option string;
  r_confidence_score : Q;
  r_collected_data : dict pyval;
  r_current_form : option string;
  r_current_step : option string;
  r_is_form_active : bool;
  r_form_completed : bool;
  r_requires_confirmation : bool;
  r_user_info : dict pyval;
  r_response_time_ms : Z;
  r_fallback_used : option bool
}.

(** The collaborators a turn calls into. Each is a computation that may
    raise and may touch the heap. *)
Record Runtime : Type := {
  (** the history read off [conversation.messages.all()] *)
  messages_all : M (list HistoryEntry);
  (** [conversation.save()] *)
  conversation_save : M unit;
  (** [self._extract_contact_info] *)
  extract_contact_info : string -> list HistoryEntry -> M (dict pyval);
  (** [self.reload_api_key] *)
  reload : M bool;
  (** [self.graph.invoke] *)
  invoke_graph : ConversationState -> M ConversationState;
  (** [self._clean_response] *)
  clean_response : option string -> M string;
  (** [get_rule_based_chatbot] *)
  get_rule_based_chatbot : M Chatbot
}.

(** [x or d] *)
Definition py_or (x d : pyval) : pyval := if truthy x then x else d.

(** [_ultimate_fallback_response] *)
Definition _ultimate_fallback_response (info : dict pyval) : Response :=
  {| r_message := default_general_answer;
     r_response_type := "general";
     r_intent_classification := Some "general";
     r_confidence_score := (3 # 10)%Q;
     r_collected_data := [];
     r_current_form := None;
     r_current_step := None;
     r_is_form_active := false;
     r_form_completed := false;
     r_requires_confirmation := false;
     r_user_info := info;
     r_response_time_ms := 0%Z;
     r_fallback_used := Some true |}.

(** The three guarded assignments that copy a contact field found in
    [found] into [info] when [info] has none. *)
Definition adopt (key : string) (found info : dict pyval) : dict pyval :=
  if truthy (pyget key found) && negb (truthy (pyget key info))
  then Dict.set key (pyget key found) info else info.

Section Wrapper.
Variable L : PyLib.
Variable form_schemas : dict FormInfo.
Variable R : Runtime.

(** The answer of the rule-based tier as a response dictionary. *)
Definition rule_based_response (result : RuleResult)
    (collected info : dict pyval) : Response :=
  {| r_message := rr_message result;
     r_response_type := "general";
     r_intent_classification := Some (rr_intent result);
     r_confidence_score := rr_confidence result;
     r_collected_data := collected;
     r_current_form := None;
     r_current_step := None;
     r_is_form_active := false;
     r_form_completed := false;
     r_requires_confirmation := false;
     r_user_info := info;
     r_response_time_ms := rr_response_time_ms result;
     r_fallback_used := Some true |}.

(** [_fallback_to_rule_based] *)
Definition _fallback_to_rule_based (message : string) (info : dict pyval)
    : M Response :=
  try_except
    (bot <- try_except
              (b <- get_rule_based_chatbot R ;; ret (Some b))
              (fun _ => ret None) ;;
     match bot with
     | None => ret (_ultimate_fallback_response info)
     | Some rule_based =>
         _history <- try_except (messages_all R) (fun _ => ret []) ;;
         let result := chatbot_generate_response L rule_based message in
         c <- get_conv ;;
         let collected :=
           Dict.update (rr_collected_data result) (cv_collected_data c) in
         let info :=
           adopt "phone" (rr_collected_data result)
             (adopt "email" (rr_collected_data result)
                (adopt "name" (rr_collected_data result) info)) in
         ret (rule_based_response result collected info)
     end)
    (fun _ => ret (_ultimate_fallback_response info)).

(** Lines 1445-1457: the active form and what is still missing. *)
Definition read_form_state
    : M (option string * dict pyval * list string) :=
  try_except
    (c <- get_conv ;;
     known <- lift (in_form_schemas form_schemas
                      (cv_intent_classification c)) ;;
     let current :=
       match known, cv_intent_classification c with
       | true, PStr s => Some s
       | _, _ => None
       end in
     let collected := cv_collected_data c in
     let required :=
       match current with
       | Some f =>
           match Dict.get f form_schemas with
           | Some form_info =>
               if Str.nonempty f
               then missing_fields (fi_required_fields form_info) collected
               else []
           | None => []
           end
       | None => []
       end in
     ret (current, collected, required))
    (fun _ => ret (None, [], [])).

(** Lines 1460-1499: take contact details out of the message when the
    conversation lacks one. *)
Definition learn_contact_info (message : string) (info : dict pyval)
    : M (dict pyval) :=
  try_except
    (if negb (truthy (pyget "name" info))
        || negb (truthy (pyget "phone" info))
        || negb (truthy (pyget "email" info))
     then
       history <- try_except (messages_all R) (fun _ => ret []) ;;
       found <- try_except (extract_contact_info R message history)
                  (fun _ => ret []) ;;
       c <- get_conv ;;
       let info' := adopt "phone" found (adopt "email" found
                      (adopt "name" found info)) in
       let pick (key : string) (old : pyval) : pyval :=
         if truthy (pyget key found) && negb (truthy (pyget key info))
         then pyget key found else old in
       put_conv
         {| cv_session_id := cv_session_id c;
            cv_user_email := pick "email" (cv_user_email c);
            cv_user_name := pick "name" (cv_user_name c);
            cv_user_phone := pick "phone" (cv_user_phone c);
            cv_ip_address := cv_ip_address c;
            cv_is_lead := cv_is_lead c;
            cv_status := cv_status c;
            cv_manual_reply_active := cv_manual_reply_active c;
            cv_collected_data := cv_collected_data c;
            cv_intent_classification := cv_intent_classification c;
            cv_confidence_score := cv_confidence_score c |} ;;;
       (if negb (is_nil found)
        then try_except (conversation_save R) (fun _ => ret tt)
        else ret tt) ;;;
       ret info'
     else ret info)
    (fun _ => ret info).

(** The response built from the final state of the graph. *)
Definition pipeline_response (cleaned_message : string)
    (final_state : ConversationState) : Response :=
  {| r_message := cleaned_message;
     r_response_type := response_type final_state;
     r_intent_classification := intent final_state;
     r_confidence_score := confidence final_state;
     r_collected_data := collected_data final_state;
     r_current_form := current_form final_state;
     r_current_step := current_step final_state;
     r_is_form_active := is_form_active final_state;
     r_form_completed := form_completed final_state;
     r_requires_confirmation := requires_confirmation final_state;
     r_user_info := user_info final_state;
     r_response_time_ms := 1000%Z;
     r_fallback_used := None |}.

(** Lines 1502-1533: the state the graph starts from. *)
Definition initial_state (sid message : string) (info : dict pyval)
    (form : option string * dict pyval * list string)
    (history : list HistoryEntry) (c : Conversation) : ConversationState :=
  let '(current, collected, required) := form in
  {| session_id := sid;
     user_info := info;
     ip_address := cv_ip_address c;
     messages := history;
     current_message := message;
     current_form := current;
     current_step := None;
     collected_data := collected;
     required_fields := required;
     completed_fields := Dict.keys collected;
     intent := None;
     confidence := 0%Q;
     intent_reasoning := PNone;
     is_form_active := opt_truthy current;
     form_completed := false;
     requires_confirmation := false;
     manual_reply_active := cv_manual_reply_active c;
     response := None;
     response_type := "general";
     next_node := None |}.

(** Lines 1539-1549: the re-probe of a disabled provider. [None] where
    the source falls through to the next statement. *)
Definition reprobe (message : string) (info : dict pyval)
    : M (option Response) :=
  try_except
    (a <- get_agent ;;
     if api_disabled a then
       ok <- reload R ;;
       if ok then ret None
       else r <- _fallback_to_rule_based message info ;; ret (Some r)
     else ret None)
    (fun _ => r <- _fallback_to_rule_based message info ;; ret (Some r)).

(** Lines 1552-1558: the capability check before the graph. *)
Definition require_client (message : string) (info : dict pyval)
    : M (option Response) :=
  try_except
    (available <- _is_client_available ;;
     if negb available then
       r <- _fallback_to_rule_based message info ;; ret (Some r)
     else ret None)
    (fun _ => r <- _fallback_to_rule_based message info ;; ret (Some r)).

(** Lines 1561-1605: the graph and the response read off its final
    state. *)
Definition answer_from_graph (message : string) (info : dict pyval)
    (state0 : ConversationState) : M Response :=
  try_except
    (final_state <- invoke_graph R state0 ;;
     a <- get_agent ;;
     if api_disabled a then _fallback_to_rule_based message info
     else
       try_except
         (cleaned_message <- clean_response R (response final_state) ;;
          if negb (Str.nonempty cleaned_message)
             || Str.startswith "I apologize" cleaned_message
             || Str.startswith "I'm having trouble" cleaned_message
          then _fallback_to_rule_based message info
          else ret (pipeline_response cleaned_message final_state))
         (fun _ => _fallback_to_rule_based message info))
    (fun _ => _fallback_to_rule_based message info).

(** Lines 1502-1605, everything after the contact details. *)
Definition run_pipeline (sid message : string) (info : dict pyval)
    (form : option string * dict pyval * list string) : M Response :=
  history <- try_except (messages_all R) (fun _ => ret []) ;;
  c <- get_conv ;;
  let state0 := initial_state sid message info form history c in
  reloaded <- reprobe message info ;;
  match reloaded with
  | Some r => ret r
  | None =>
      checked <- require_client message info ;;
      match checked with
      | Some r => ret r
      | None => answer_from_graph message info state0
      end
  end.

(** [process_message]. The outer [try] of the source also encloses the
    three preludes; each of them is a [try] with a handler for every
    exception, so [user_info] is bound whenever the outer handler runs
    and the handler is reached from [run_pipeline] only. *)
Definition process_message (sid message : string) : M Response :=
  c <- get_conv ;;
  let info :=
    [("name", py_or (cv_user_name c) (PStr ""));
     ("email", py_or (cv_user_email c) (PStr ""));
     ("phone", py_or (cv_user_phone c) (PStr ""))] in
  form <- read_form_state ;;
  info <- learn_contact_info message info ;;
  try_except
    (run_pipeline sid message info form)
    (fun _ => ret (_ultimate_fallback_response info)).

End Wrapper.

(* ================================================================== *)
(** ** The agent's own collaborators *)

Section Agent.
Variable L : PyLib.
Variable W : World.
Variable form_schemas : dict FormInfo.
Variable form_questions : dict (dict string).

(** [_extract_contact_info] *)
Definition _extract_contact_info (message : string)
    (_history : list HistoryEntry) : M (dict pyval) :=
  if negb (Str.nonempty message) then ret []
  else
    let with_email : dict pyval :=
      match search_email L message with
      | Some e => [("email", PStr e)]
      | None => []
      end in
    let extracted : dict pyval :=
      match search_phone L message with
      | Some found =>
          let phone := Str.strip found in
          if (7 <=? String.length (digits_only phone))%nat
          then Dict.set "phone" (PStr phone) with_email else with_email
      | None => with_email
      end in
    available <- _is_client_available ;;
    if negb available then ret extracted
    else
      try_except
        (answer <- create_completion W ;;
         if negb (opt_truthy answer) then ret extracted
         else
           let result :=
             _extract_json_from_text L
               (_clean_response_for_json L
                  (Str.strip (opt_default "" answer))) in
           if truthy result then
             name <- lift (py_dict_get result "name" PNone) ;;
             email <- lift (py_dict_get result "email" PNone) ;;
             phone <- lift (py_dict_get result "phone" PNone) ;;
             let take (key : string) (v : pyval) (d : dict pyval) :=
               if truthy v then Dict.set key v d else d in
             ret (take "phone" phone (take "email" email
                    (take "name" name extracted)))
           else ret extracted)
        (fun e => _mark_api_failure e ;;; ret extracted).

(** The collaborators as the agent object wires them. *)
Definition agent_runtime : Runtime :=
  {| messages_all := lift (stored_messages W);
     conversation_save := lift (save_result W);
     extract_contact_info := _extract_contact_info;
     reload := reload_api_key W;
     invoke_graph := graph_invoke L W form_schemas form_questions;
     clean_response := _clean_response L;
     get_rule_based_chatbot := ret RuleBasedChatbot |}.

(** [react_agent.process_message] *)
Definition agent_process_message (sid message : string) : M Response :=
  process_message L form_schemas agent_runtime sid message.

End Agent.

(* ================================================================== *)
(** ** The turn endpoint ([views.py]) *)

(** The tables of the two models, the agent singleton of the process,
    and two counters kept for the proofs: completion requests issued and
    calls of [process_message] made so far. Timestamps are left out. *)
Record Site : Type := {
  conversations : list Conversation;
  message_rows : list ConversationMessage;
  next_message_id : nat;
  site_agent : Agent;
  site_calls : nat;
  agent_turns : nat
}.

Record Request : Type := {
  q_message : string;
  q_session_id : string;
  q_forwarded_for : option string;
  q_remote_addr : option string
}.

(** The JSON body of the endpoint's answers; a key that an answer does
    not carry is [None]. *)
Record HttpResponse : Type := {
  http_status : nat;
  body_error : option string;
  body_message : option string;
  body_response_time_ms : option Z;
  body_session_id : option string;
  body_manual_reply_active : option bool;
  body_silent_block : option bool;
  body_conversation_completed : option bool;
  body_intent_classified : option bool;
  body_current_form : option string;
  body_current_step : option string;
  body_is_form_active : option bool;
  body_form_completed : option bool;
  body_requires_confirmation : option bool;
  body_status : option Status;
  body_message_id : option nat;
  body_user_message_id : option nat
}.

(** [Conversation.objects.get(session_id=sid)] *)
Fixpoint find_conversation (sid : string) (rows : list Conversation)
    : option Conversation :=
  match rows with
  | [] => None
  | c :: rest =>
      if String.eqb (cv_session_id c) sid then Some c
      else find_conversation sid rest
  end.

(** [conversation.save()]: the row of the same session is replaced, a
    new conversation is added. *)
Fixpoint save_conversation (c : Conversation) (rows : list Conversation)
    : list Conversation :=
  match rows with
  | [] => [c]
  | r :: rest =>
      if String.eqb (cv_session_id r) (cv_session_id c) then c :: rest
      else r :: save_conversation c rest
  end.

(** The defaults of the model's fields. *)
Definition new_conversation (sid : string) (ip : option string)
    : Conversation :=
  {| cv_session_id := sid; cv_user_email := PNone;
     cv_user_name := PStr ""; cv_user_phone := PStr "";
     cv_ip_address := ip; cv_is_lead := false; cv_status := Active;
     cv_manual_reply_active := false; cv_collected_data := [];
     cv_intent_classification := PStr ""; cv_confidence_score := None |}.

(** [mark_completed], [activate_manual_reply] and
    [deactivate_manual_reply] of the model. *)
Definition with_mode (st : Status) (manual : bool) (c : Conversation)
    : Conversation :=
  {| cv_session_id := cv_session_id c; cv_user_email := cv_user_email c;
     cv_user_name := cv_user_name c; cv_user_phone := cv_user_phone c;
     cv_ip_address := cv_ip_address c; cv_is_lead := cv_is_lead c;
     cv_status := st; cv_manual_reply_active := manual;
     cv_collected_data := cv_collected_data c;
     cv_intent_classification := cv_intent_classification c;
     cv_confidence_score := cv_confidence_score c |}.

Definition is_completed (st : Status) : bool :=
  match st with Completed => true | _ => false end.

Definition is_active (st : Status) : bool :=
  match st with Active => true | _ => false end.

Definition mark_completed (c : Conversation) : Conversation :=
  if negb (is_completed (cv_status c)) then with_mode Completed false c
  else c.

Definition activate_manual_reply (c : Conversation) : Conversation :=
  if is_active (cv_status c) then with_mode (cv_status c) true c else c.

Definition deactivate_manual_reply (c : Conversation) : Conversation :=
  if is_active (cv_status c) then with_mode (cv_status c) false c else c.

(** [x_forwarded_for.split(',')[0]] *)
Fixpoint before_comma (s : string) : string :=
  match s with
  | EmptyString => EmptyString
  | String c r =>
      if Ascii.eqb c ","%char then EmptyString
      else String c (before_comma r)
  end.

(** [ConversationMessage.objects.create] *)
Definition create_message (sid kind text : string) (ms : option Z)
    (site : Site) : nat * Site :=
  let row := {| msg_id := next_message_id site; msg_conversation := sid;
                message_type := kind; content := text;
                response_time_ms := ms; is_admin_reply := false |} in
  (next_message_id site,
   {| conversations := conversations site;
      message_rows := (message_rows site ++ [row])%list;
      next_message_id := S (next_message_id site);
      site_agent := site_agent site; site_calls := site_calls site;
      agent_turns := agent_turns site |}).

Definition store_conversation (c : Conversation) (site : Site) : Site :=
  {| conversations := save_conversation c (conversations site);
     message_rows := message_rows site;
     next_message_id := next_message_id site;
     site_agent := site_agent site; site_calls := site_calls site;
     agent_turns := agent_turns site |}.

(** The id of the newest assistant message of a conversation. *)
Fixpoint latest_assistant (sid : string) (rows : list ConversationMessage)
    (found : option nat) : option nat :=
  match rows with
  | [] => found
  | r :: rest =>
      latest_assistant sid rest
        (if String.eqb (msg_conversation r) sid
            && String.eqb (message_type r) "assistant"
         then Some (msg_id r) else found)
  end.

Section View.
Variable L : PyLib.
Variable W : World.
Variable form_schemas : dict FormInfo.
Variable form_questions : dict (dict string).

(** The call of the agent with the endpoint's own two fallbacks around
    it; the conversation object comes back as the agent left it. *)
Definition call_agent (sid user_message : string) (c : Conversation)
    (site : Site) : Response * Conversation * Site :=
  let '(res, h) :=
    agent_process_message L W form_schemas form_questions sid user_message
      {| agent := site_agent site; conv := c; calls := site_calls site |} in
  let site' :=
    {| conversations := conversations site;
       message_rows := message_rows site;
       next_message_id := next_message_id site;
       site_agent := agent h; site_calls := calls h;
       agent_turns := S (agent_turns site) |} in
  match res with
  | Ok ai_response => (ai_response, conv h, site')
  | Exc _ =>
      let fallback_result := generate_response L user_message in
      ({| r_message := rr_message fallback_result;
          r_response_type := "general";
          r_intent_classification := Some (rr_intent fallback_result);
          r_confidence_score := rr_confidence fallback_result;
          r_collected_data := [];
          r_current_form := None; r_current_step := None;
          r_is_form_active := false; r_form_completed := false;
          r_requires_confirmation := false;
          r_user_info := [];
          r_response_time_ms := 50%Z;
          r_fallback_used := None |}, conv h, site')
  end.

(** Lines 268-317: what the answer teaches about the conversation. *)
Definition absorb_response (ai_response : Response) (c : Conversation)
    : Conversation :=
  let classified := opt_truthy (r_intent_classification ai_response) in
  let extracted_data := r_collected_data ai_response in
  let extracted_user_info := r_user_info ai_response in
  let keep (old : pyval) (candidates : list pyval) : pyval :=
    fold_left (fun acc v => if truthy v && negb (truthy acc) then v else acc)
      candidates old in
  {| cv_session_id := cv_session_id c;
     cv_user_email :=
       keep (cv_user_email c)
         [pyget "email" extracted_user_info; pyget "email" extracted_data];
     cv_user_name :=
       keep (cv_user_name c)
         [pyget "name" extracted_user_info;
          py_or (pyget "name" extracted_data)
            (pyget "full_name" extracted_data)];
     cv_user_phone :=
       keep (cv_user_phone c)
         [pyget "phone" extracted_user_info; pyget "phone" extracted_data];
     cv_ip_address := cv_ip_address c;
     cv_is_lead :=
       if negb (is_nil extracted_data) || negb (is_nil extracted_user_info)
       then true else cv_is_lead c;
     cv_status := cv_status c;
     cv_manual_reply_active := cv_manual_reply_active c;
     cv_collected_data :=
       Dict.update extracted_data (cv_collected_data c);
     cv_intent_classification :=
       if classified
       then PStr (opt_default "" (r_intent_classification ai_response))
       else cv_intent_classification c;
     cv_confidence_score :=
       if classified then Some (r_confidence_score ai_response)
       else cv_confidence_score c |}.

(** [chatbot_message] *)
Definition chatbot_message (request : Request) (site : Site)
    : HttpResponse * Site :=
  let user_message := Str.strip (q_message request) in
  let sid := q_session_id request in
  if negb (Str.nonempty user_message) || negb (Str.nonempty sid) then
    ({| http_status := 400;
        body_error := Some "Message and session_id are required";
        body_message := None; body_response_time_ms := None;
        body_session_id := None; body_manual_reply_active := None;
        body_silent_block := None; body_conversation_completed := None;
        body_intent_classified := None; body_current_form := None;
        body_current_step := None; body_is_form_active := None;
        body_form_completed := None; body_requires_confirmation := None;
        body_status := None; body_message_id := None;
        body_user_message_id := None |}, site)
  else
    let ip :=
      match q_forwarded_for request with
      | Some x => if Str.nonempty x then Some (before_comma x)
                  else q_remote_addr request
      | None => q_remote_addr request
      end in
    (* get_or_create *)
    let '(conversation, site) :=
      match find_conversation sid (conversations site) with
      | Some c => (c, site)
      | None =>
          let c := new_conversation sid ip in (c, store_conversation c site)
      end in
    let '(conversation, site) :=
      if negb (opt_truthy (cv_ip_address conversation)) then
        let c :=
          {| cv_session_id := cv_session_id conversation;
             cv_user_email := cv_user_email conversation;
             cv_user_name := cv_user_name conversation;
             cv_user_phone := cv_user_phone conversation;
             cv_ip_address := ip;
             cv_is_lead := cv_is_lead conversation;
             cv_status := cv_status conversation;
             cv_manual_reply_active := cv_manual_reply_active conversation;
             cv_collected_data := cv_collected_data conversation;
             cv_intent_classification :=
               cv_intent_classification conversation;
             cv_confidence_score := cv_confidence_score conversation |} in
        (c, store_conversation c site)
      else (conversation, site) in
    (* check_and_mark_completed() changes nothing *)
    if is_completed (cv_status conversation) then
      ({| http_status := 200; body_error := None;
          body_message :=
            Some "This conversation has ended. Please start a new conversation.";
          body_response_time_ms := Some 0%Z;
          body_session_id := Some sid;
          body_manual_reply_active := Some false;
          body_silent_block := None;
          body_conversation_completed := Some true;
          body_intent_classified := None; body_current_form := None;
          body_current_step := None; body_is_form_active := None;
          body_form_completed := None; body_requires_confirmation := None;
          body_status := Some (cv_status conversation);
          body_message_id := None; body_user_message_id := None |}, site)
    else
      let '(user_message_id, site) :=
        create_message sid "user" user_message None site in
      let site := store_conversation conversation site in
      if cv_manual_reply_active conversation then
        ({| http_status := 200; body_error := None;
            body_message := Some "";
            body_response_time_ms := Some 0%Z;
            body_session_id := Some sid;
            body_manual_reply_active := Some true;
            body_silent_block := Some true;
            body_conversation_completed := None;
            body_intent_classified := None; body_current_form := None;
            body_current_step := None; body_is_form_active := None;
            body_form_completed := None;
            body_requires_confirmation := None;
            body_status := Some (cv_status conversation);
            body_message_id := None;
            body_user_message_id := Some user_message_id |}, site)
      else
        let '(ai_response, conversation, site) :=
          call_agent sid user_message conversation site in
        let conversation := absorb_response ai_response conversation in
        let site := store_conversation conversation site in
        let '(_, site) :=
          create_message sid "assistant" (r_message ai_response)
            (Some (r_response_time_ms ai_response)) site in
        ({| http_status := 200; body_error := None;
            body_message := Some (r_message ai_response);
            body_response_time_ms := Some (r_response_time_ms ai_response);
            body_session_id := Some sid;
            body_manual_reply_active :=
              Some (cv_manual_reply_active conversation);
            body_silent_block := None;
            body_conversation_completed := None;
            body_intent_classified :=
              Some (opt_truthy (r_intent_classification ai_response));
            body_current_form := r_current_form ai_response;
            body_current_step := r_current_step ai_response;
            body_is_form_active := Some (r_is_form_active ai_response);
            body_form_completed := Some (r_form_completed ai_response);
            body_requires_confirmation :=
              Some (r_requires_confirmation ai_response);
            body_status := Some (cv_status conversation);
            body_message_id :=
              latest_assistant sid (message_rows site) None;
            body_user_message_id := Some user_message_id |}, site).

End View.

(* ================================================================== *)
(** ** Runs of several turns *)

(** One turn as the process sees it: the world of that moment, the
    request, and the conversation record loaded for it. *)
Record Turn : Type := {
  t_world : World;
  t_session : string;
  t_message : string;
  t_conversation : Conversation
}.

Section Runs.
Variable L : PyLib.
Variable form_schemas : dict FormInfo.
Variable form_questions : dict (dict string).

(** Successive calls of [process_message] on the agent singleton: the
    agent and the request counter are carried from turn to turn. *)
Fixpoint run_turns (turns : list Turn) (a : Agent) (n : nat)
    : list (Res Response) * Agent * nat :=
  match turns with
  | [] => ([], a, n)
  | t :: rest =>
      let '(r, h) :=
        agent_process_message L (t_world t) form_schemas form_questions
          (t_session t) (t_message t)
          {| agent := a; conv := t_conversation t; calls := n |} in
      let '(rs, a', n') := run_turns rest (agent h) (calls h) in
      (r :: rs, a', n')
  end.

End Runs.

(* ================================================================== *)
(** ** The operator's actions and the polling endpoint ([views.py]) *)

(** [ConversationMessage.objects.create] with every field given; the
    row created comes back with the table. *)
Definition create_row (sid kind text : string) (ms : option Z)
    (admin : bool) (site : Site) : ConversationMessage * Site :=
  let row := {| msg_id := next_message_id site; msg_conversation := sid;
                message_type := kind; content := text;
                response_time_ms := ms; is_admin_reply := admin |} in
  (row,
   {| conversations := conversations site;
      message_rows := (message_rows site ++ [row])%list;
      next_message_id := S (next_message_id site);
      site_agent := site_agent site; site_calls := site_calls site;
      agent_turns := agent_turns site |}).

(** The JSON body of the answers of the two operator actions; a key
    an answer does not carry is [None]. [sent_message] is the row as
    [ConversationMessageSerializer] renders it. *)
Record ActionResponse : Type := {
  a_http_status : nat;
  a_error : option string;
  a_message : option string;
  a_manual_reply_active : option bool;
  a_status : option Status;
  a_sent_message : option ConversationMessage;
  a_message_id : option nat
}.

Definition action_error (text : string) : ActionResponse :=
  {| a_http_status := 400; a_error := Some text; a_message := None;
     a_manual_reply_active := None; a_status := None;
     a_sent_message := None; a_message_id := None |}.

(** [ConversationViewSet.toggle_manual_reply], from the record
    [get_object] returned. Both model methods save, the conversation
    being active. *)
Definition toggle_manual_reply (conversation : Conversation) (site : Site)
    : ActionResponse * Site :=
  if negb (is_active (cv_status conversation)) then
    (action_error "Can only toggle manual reply for active conversations",
     site)
  else if cv_manual_reply_active conversation then
    ({| a_http_status := 200; a_error := None;
        a_message := Some "Switched to Auto mode";
        a_manual_reply_active := Some false; a_status := None;
        a_sent_message := None; a_message_id := None |},
     store_conversation (deactivate_manual_reply conversation) site)
  else
    ({| a_http_status := 200; a_error := None;
        a_message := Some "Switched to Manual mode";
        a_manual_reply_active := Some true; a_status := None;
        a_sent_message := None; a_message_id := None |},
     store_conversation (activate_manual_reply conversation) site).

(** [ConversationViewSet.send_manual_reply], from the record
    [get_object] returned and the [message] of the request. *)
Definition send_manual_reply (conversation : Conversation)
    (message : string) (site : Site) : ActionResponse * Site :=
  let reply_message := Str.strip message in
  if negb (Str.nonempty reply_message) then
    (action_error "Message is required", site)
  else if negb (is_active (cv_status conversation)) then
    (action_error "Conversation is not active", site)
  else if negb (cv_manual_reply_active conversation) then
    (action_error "Manual reply mode is not active", site)
  else
    let '(admin_message, site) :=
      create_row (cv_session_id conversation) "admin" reply_message
        (Some 0%Z) true site in
    let site := store_conversation conversation site in
    (* check_and_mark_completed() changes nothing *)
    ({| a_http_status := 200; a_error := None;
        a_message := Some "Manual reply sent successfully";
        a_manual_reply_active :=
          Some (cv_manual_reply_active conversation);
        a_status := Some (cv_status conversation);
        a_sent_message := Some admin_message;
        a_message_id := Some (msg_id admin_message) |}, site).

(** [order_by('id')]: ids are primary keys, so ties do not occur. *)
Fixpoint insert_by_id (m : ConversationMessage)
    (l : list ConversationMessage) : list ConversationMessage :=
  match l with
  | [] => [m]
  | x :: r =>
      if (msg_id m <? msg_id x)%nat then m :: x :: r
      else x :: insert_by_id m r
  end.

Definition order_by_id (l : list ConversationMessage)
    : list ConversationMessage :=
  fold_right insert_by_id [] l.

(** [conversation.messages.all().order_by('id')] *)
Definition messages_of (sid : string) (site : Site)
    : list ConversationMessage :=
  order_by_id
    (List.filter (fun m => String.eqb (msg_conversation m) sid)
       (message_rows site)).

(** The query parameters of the polling endpoint; [None] for a
    parameter the request does not have. *)
Record PollRequest : Type := {
  p_session_id : option string;
  p_last_message_id : option string
}.

(** The JSON body of its answers, [last_activity] left out. *)
Record PollResponse : Type := {
  poll_http_status : nat;
  poll_error : option string;
  poll_messages : option (list ConversationMessage);
  poll_manual_reply_active : option bool;
  poll_status : option Status;
  poll_latest_message_id : option nat;
  poll_has_new_messages : option bool
}.

(** [get_conversation_messages] *)
Definition get_conversation_messages (request : PollRequest) (site : Site)
    : PollResponse :=
  if negb (opt_truthy (p_session_id request)) then
    {| poll_http_status := 400;
       poll_error := Some "session_id is required";
       poll_messages := None; poll_manual_reply_active := None;
       poll_status := None; poll_latest_message_id := None;
       poll_has_new_messages := None |}
  else
    let sid := opt_default "" (p_session_id request) in
    match find_conversation sid (conversations site) with
    | None =>
        {| poll_http_status := 200; poll_error := None;
           poll_messages := Some []; poll_manual_reply_active := Some false;
           poll_status := Some Active; poll_latest_message_id := Some 0;
           poll_has_new_messages := Some false |}
    | Some conversation =>
        let messages := messages_of sid site in
        let latest_message_id :=
          match List.rev messages with
          | newest :: _ => msg_id newest
          | [] => 0
          end in
        let messages :=
          if opt_truthy (p_last_message_id request) then
            match py_int (opt_default "" (p_last_message_id request)) with
            | Some last_id =>
                List.filter
                  (fun m => (last_id <? Z.of_nat (msg_id m))%Z) messages
            | None => messages
            end
          else messages in
        {| poll_http_status := 200; poll_error := None;
           poll_messages := Some messages;
           poll_manual_reply_active :=
             Some (cv_manual_reply_active conversation);
           poll_status := Some (cv_status conversation);
           poll_latest_message_id := Some latest_message_id;
           poll_has_new_messages := Some (negb (is_nil messages)) |}
    end.

(* ================================================================== *)
(** ** The helpers of the catalog ([form_schemas.py]) *)

(** [get_form_schema]: [None] stands for the empty dictionary. *)
Definition get_form_schema (form_type : string) : option FormInfo :=
  Dict.get form_type FORM_SCHEMAS.

(** [get_form_questions] *)
Definition get_form_questions (form_type : string) : dict string :=
  opt_default [] (Dict.get form_type FORM_QUESTIONS).

(** The dictionary [validate_field_value] returns. *)
Record Verdict : Type := {
  valid : bool;
  error : option string
}.

Definition accepted : Verdict := {| valid := true; error := None |}.

Definition rejected (why : string) : Verdict :=
  {| valid := false; error := Some why |}.

(** [int(value)]: [Ok None] stands for [ValueError]; [Exc] for the
    [TypeError] of a value that is neither a number nor a string. *)
Definition py_int_of (value : pyval) : Res (option Z) :=
  match value with
  | PStr s => Ok (py_int s)
  | PInt z => Ok (Some z)
  | PBool b => Ok (Some (if b then 1 else 0)%Z)
  | PFloat q => Ok (Some (Z.quot (Qnum q) (Zpos (Qden q))))
  | _ => Exc "int() argument must be a string or a real number"
  end.

(** [value in options], the options being strings. *)
Definition among (value : pyval) (options : list string) : bool :=
  match value with
  | PStr s => Str.mem s options
  | _ => false
  end.

Section CatalogHelpers.
Variable L : PyLib.

(** [validate_field_value]. Only [ValueError] is caught around [int]
    and [float]; a missing ['options'] key is a [KeyError] when the
    message is built. *)
Definition validate_field_value (field_name : string) (value : pyval)
    (form_type : string) : Res Verdict :=
  match Dict.get form_type FORM_SCHEMAS with
  | None => Ok (rejected "Unknown form type")
  | Some schema =>
      match Dict.get field_name (fi_validation schema) with
      | None => Ok (rejected "Unknown field")
      | Some field_schema =>
          if negb (rule_nonempty field_schema) then
            Ok (rejected "Unknown field")
          else if opt_default false (f_optional field_schema)
                  && match value with
                     | PNone => true
                     | PStr s => negb (Str.nonempty s)
                     | _ => false
                     end
          then Ok accepted
          else
            let field_type := opt_default "" (f_type field_schema) in
            if String.eqb field_type "string" then
              match value with
              | PStr s =>
                  let n := String.length (Str.strip s) in
                  match f_min_length field_schema with
                  | Some lo =>
                      if (n <? lo)%nat then
                        Ok (rejected ("Must be at least " ++ str_of_nat lo
                                      ++ " characters"))
                      else
                        match f_max_length field_schema with
                        | Some hi =>
                            if (hi <? n)%nat then
                              Ok (rejected ("Must be no more than "
                                            ++ str_of_nat hi
                                            ++ " characters"))
                            else Ok accepted
                        | None => Ok accepted
                        end
                  | None =>
                      match f_max_length field_schema with
                      | Some hi =>
                          if (hi <? n)%nat then
                            Ok (rejected ("Must be no more than "
                                          ++ str_of_nat hi
                                          ++ " characters"))
                          else Ok accepted
                      | None => Ok accepted
                      end
                  end
              | _ => Ok (rejected "Must be text")
              end
            else if String.eqb field_type "email" then
              if Re.match_anchored Re.email_pattern (py_str L value)
              then Ok accepted
              else Ok (rejected "Invalid email format")
            else if String.eqb field_type "phone" then
              if Str.isdigit
                   (Str.remove_char "+"%char
                      (Str.remove_char "-"%char
                         (Str.remove_char " "%char (py_str L value))))
              then Ok accepted
              else Ok (rejected "Invalid phone format")
            else if String.eqb field_type "integer" then
              match py_int_of value with
              | Exc e => Exc e
              | Ok None => Ok (rejected "Must be a number")
              | Ok (Some int_val) =>
                  match f_min field_schema with
                  | Some lo =>
                      if (int_val <? lo)%Z then
                        Ok (rejected
                              ("Must be at least "
                               ++ NilZero.string_of_int (Z.to_int lo)))
                      else
                        match f_max field_schema with
                        | Some hi =>
                            if (hi <? int_val)%Z then
                              Ok (rejected
                                    ("Must be no more than "
                                     ++ NilZero.string_of_int
                                          (Z.to_int hi)))
                            else Ok accepted
                        | None => Ok accepted
                        end
                  | None =>
                      match f_max field_schema with
                      | Some hi =>
                          if (hi <? int_val)%Z then
                            Ok (rejected
                                  ("Must be no more than "
                                   ++ NilZero.string_of_int (Z.to_int hi)))
                          else Ok accepted
                      | None => Ok accepted
                      end
                  end
              end
            else if String.eqb field_type "number" then
              match value with
              | PStr s =>
                  match float_of_str L s with
                  | Some _ => Ok accepted
                  | None => Ok (rejected "Must be a number")
                  end
              | PFloat _ | PInt _ | PBool _ => Ok accepted
              | _ => Exc "float() argument must be a string or a real number"
              end
            else if String.eqb field_type "boolean" then
              if Str.mem (Str.lower (py_str L value))
                   ["true"; "false"; "yes"; "no"; "1"; "0"]
              then Ok accepted
              else Ok (rejected "Must be yes/no")
            else if String.eqb field_type "select" then
              if among value (opt_default [] (f_options field_schema))
              then Ok accepted
              else
                match f_options field_schema with
                | Some options =>
                    Ok (rejected ("Must be one of: "
                                  ++ String.concat ", " options))
                | None => Exc "KeyError: 'options'"
                end
            else Ok accepted
      end
  end.

End CatalogHelpers.

(** [get_next_required_field] *)
Definition get_next_required_field (form_type : string)
    (completed_fields : list string) : option string :=
  match Dict.get form_type FORM_SCHEMAS with
  | None => None
  | Some schema =>
      List.find (fun field => negb (Str.mem field completed_fields))
        (fi_required_fields schema)
  end.

(** [is_form_complete] *)
Definition is_form_complete (form_type : string)
    (collected_data : dict pyval) : bool :=
  match Dict.get form_type FORM_SCHEMAS with
  | None => false
  | Some schema =>
      List.forallb
        (fun field =>
           negb (negb (Dict.mem field collected_data)
                 || negb (truthy (pyget field collected_data))))
        (fi_required_fields schema)
  end.

(* ================================================================== *)
(** ** Keywords of a context section ([models.py]) *)

(** [s.split(sep)] for a one-character separator. *)
Fixpoint split_on_acc (sep : ascii) (s cur : string) : list string :=
  match s with
  | EmptyString => [Str.rev cur]
  | String c r =>
      if Ascii.eqb c sep
      then Str.rev cur :: split_on_acc sep r EmptyString
      else split_on_acc sep r (String c cur)
  end.

Definition split_on (sep : ascii) (s : string) : list string :=
  split_on_acc sep s EmptyString.

(** [ChatbotContext.get_keywords_list] *)
Definition get_keywords_list (keywords : string) : list string :=
  if negb (Str.nonempty keywords) then []
  else
    map (fun k => Str.lower (Str.strip k))
      (List.filter (fun k => Str.nonempty (Str.strip k))
         (split_on ","%char keywords)).

(* ================================================================== *)
(** ** The history in a prompt ([react_agent.py]) *)

(** [_format_history] *)
Definition _format_history (history : list HistoryEntry) : string :=
  let formatted :=
    map (fun msg =>
           (if String.eqb (h_type msg) "user" then "User" else "Assistant")
           ++ ": " ++ String.substring 0 100 (h_content msg))
      history in
  if is_nil formatted then "No previous conversation"
  else Str.join_lines formatted.

(* ================================================================== *)
(** ** Worked inputs *)

(** A provider answer and its parse, for the examples: the library
    functions below agree with Python on the texts the examples feed
    them (texts with no tag, bracket or fence in them). *)
Definition quoted (s : string) : string := Str.dquote ++ s ++ Str.dquote.

(** [{"name": "Jane Doe", "email": "jane@example.com", "phone": null}] *)
Definition jane_reply : string :=
  "{" ++ quoted "name" ++ ": " ++ quoted "Jane Doe" ++ ", "
  ++ quoted "email" ++ ": " ++ quoted "jane@example.com" ++ ", "
  ++ quoted "phone" ++ ": null}".

(** [{"intent": "contact", "confidence": 5}] *)
Definition eager_reply : string :=
  "{" ++ quoted "intent" ++ ": " ++ quoted "contact" ++ ", "
  ++ quoted "confidence" ++ ": 5}".

(** [{"intent": "general", "confidence": 0.9}] *)
Definition general_reply : string :=
  "{" ++ quoted "intent" ++ ": " ++ quoted "general" ++ ", "
  ++ quoted "confidence" ++ ": 0.9}".

Definition jane_message : string := "my name is Jane Doe, jane@example.com".

Definition jane_parsed : dict pyval :=
  [("name", PStr "Jane Doe"); ("email", PStr "jane@example.com");
   ("phone", PNone)].

Definition example_loads (s : string) : option pyval :=
  if String.eqb s jane_reply then Some (PDict jane_parsed)
  else if String.eqb s eager_reply then
    Some (PDict [("intent", PStr "contact"); ("confidence", PInt 5)])
  else if String.eqb s general_reply then
    Some (PDict [("intent", PStr "general");
                 ("confidence", PFloat (9 # 10)%Q)])
  else None.

Definition example_lib : PyLib :=
  {| json_loads := example_loads;
     float_of_str := fun _ => None;
     repr_other := fun _ => "";
     sub_reasoning_tags := fun s => s;
     search_fenced_json := fun _ => None;
     search_flat_json := fun _ => None;
     search_email := fun _ => None;
     search_phone := fun _ => None;
     service_clean_response := fun s => Ok s;
     score_intent := fun _ => Ok ("general_help", (3 # 10)%Q) |}.

(** A world whose provider gives the listed answers in turn and then
    empty responses. *)
Definition world_of (answers : list completion) : World :=
  {| provider := fun n => nth n answers (Reply None);
     stored_api_key := Ok "gsk_example";
     groq_init := fun _ => Ok tt;
     stored_messages := Ok [];
     save_result := Ok tt |}.

Definition ready_agent : Agent :=
  {| client := true; api_disabled := false; api_failure_count := 0 |}.

Definition disabled_agent : Agent :=
  {| client := true; api_disabled := true; api_failure_count := 3 |}.

Definition blank_state (message : string) (form : option string)
    (collected : dict pyval) (required : list string)
    (step : option string) : ConversationState :=
  {| session_id := "s1"; user_info := []; ip_address := None;
     messages := []; current_message := message; current_form := form;
     current_step := step; collected_data := collected;
     required_fields := required;
     completed_fields := Dict.keys collected; intent := None;
     confidence := 0%Q; intent_reasoning := PNone;
     is_form_active := opt_truthy form; form_completed := false;
     requires_confirmation := false; manual_reply_active := false;
     response := None; response_type := "general"; next_node := None |}.

Definition heap_of (a : Agent) (c : Conversation) : Heap :=
  {| agent := a; conv := c; calls := 0 |}.

(** The purchase form, active, with nothing collected yet. *)
Definition purchase_form_open (message : string) : ConversationState :=
  blank_state message (Some "car_purchase") [] ["name"; "email"; "phone"]
    None.

(** A conversation an operator has taken over, and a site that holds
    it together with one earlier message. *)
Definition taken_over : Conversation :=
  {| cv_session_id := "s1"; cv_user_email := PNone;
     cv_user_name := PStr ""; cv_user_phone := PStr "";
     cv_ip_address := Some "203.0.113.7"; cv_is_lead := false;
     cv_status := Active; cv_manual_reply_active := true;
     cv_collected_data := []; cv_intent_classification := PStr "";
     cv_confidence_score := None |}.

Definition manual_site : Site :=
  {| conversations := [taken_over];
     message_rows :=
       [{| msg_id := 1; msg_conversation := "s1"; message_type := "user";
           content := "hello"; response_time_ms := None;
           is_admin_reply := false |}];
     next_message_id := 2;
     site_agent := ready_agent; site_calls := 0; agent_turns := 0 |}.



(** A world without an API key: every re-probe fails. *)
Definition keyless_world : World :=
  {| provider := fun _ => Reply None;
     stored_api_key := Ok "";
     groq_init := fun _ => Ok tt;
     stored_messages := Ok [];
     save_result := Ok tt |}.

(** A conversation in the middle of the purchase form: the name is
    collected, e-mail and phone are not. *)
Definition purchase_in_progress : Conversation :=
  {| cv_session_id := "s1"; cv_user_email := PNone;
     cv_user_name := PStr "Jane Doe"; cv_user_phone := PStr "";
     cv_ip_address := None; cv_is_lead := true; cv_status := Active;
     cv_manual_reply_active := false;
     cv_collected_data := [("name", PStr "Jane Doe")];
     cv_intent_classification := PStr "car_purchase";
     cv_confidence_score := Some 1%Q |}.

(** A busy site: the conversation an operator has taken over, and a
    returning visitor whose name and address are on record. *)
Definition returning_visitor : Conversation :=
  {| cv_session_id := "s2"; cv_user_email := PStr "jane@example.com";
     cv_user_name := PStr "Jane Doe"; cv_user_phone := PStr "";
     cv_ip_address := Some "203.0.113.9"; cv_is_lead := true;
     cv_status := Active; cv_manual_reply_active := false;
     cv_collected_data := [("name", PStr "Jane Doe")];
     cv_intent_classification := PStr "car_purchase";
     cv_confidence_score := Some (9 # 10)%Q |}.

Definition busy_site : Site :=
  {| conversations := [taken_over; returning_visitor];
     message_rows :=
       [{| msg_id := 1; msg_conversation := "s1"; message_type := "user";
           content := "hello"; response_time_ms := None;
           is_admin_reply := false |};
        {| msg_id := 2; msg_conversation := "s2"; message_type := "user";
           content := "I want to buy a car"; response_time_ms := None;
           is_admin_reply := false |};
        {| msg_id := 3; msg_conversation := "s2";
           message_type := "assistant";
           content := "I'd be happy to help you with Car Purchase Request. What's your name?";
           response_time_ms := Some 1000%Z; is_admin_reply := false |}];
     next_message_id := 4;
     site_agent := ready_agent; site_calls := 0; agent_turns := 1 |}.

Definition visitor_request : Request :=
  {| q_message := "what are your opening hours"; q_session_id := "s2";
     q_forwarded_for := Some "198.51.100.4, 10.0.0.1";
     q_remote_addr := Some "10.0.0.1" |}.




(** The inside of [general_reply], and the reply with a remark before
    and after it. *)
Definition general_body : string :=
  quoted "intent" ++ ": " ++ quoted "general" ++ ", "
  ++ quoted "confidence" ++ ": 0.9".

(** The newsletter form with its one required field collected, and the
    purchase form with the name collected. *)
Definition subscription_filled : ConversationState :=
  blank_state "ok" (Some "newsletter_subscribe")
    [("email", PStr "jane@example.com")] [] None.

Definition purchase_named : ConversationState :=
  blank_state jane_message (Some "car_purchase")
    [("name", PStr "Jane Doe")] ["email"; "phone"] None.

(** Worlds whose provider has something to say to every request of a
    turn: the classification, then the answer; and the same after an
    answer that holds no contact details. *)
Definition chatty_world : World :=
  world_of [Reply (Some general_reply); Reply (Some "Hello there.")].

Definition chatty_turn_world : World :=
  world_of [Reply (Some "no details"); Reply (Some general_reply);
            Reply (Some "Hello there.")].

(* ================================================================== *)
(** ** Vocabulary of the statements *)

(** The two degraded tiers: the rule-based responder answers whenever
    it can be obtained, the fixed message only when it cannot. *)
Inductive degraded (L : PyLib) (R : Runtime) (message : string)
    (info : dict pyval) : Response -> Prop :=
| degraded_rules : forall bot h0 h1 collected,
    get_rule_based_chatbot R h0 = (Ok bot, h1) ->
    degraded L R message info
      (rule_based_response (chatbot_generate_response L bot message)
         collected info)
| degraded_ultimate : forall e h0 h1,
    get_rule_based_chatbot R h0 = (Exc e, h1) ->
    degraded L R message info (_ultimate_fallback_response info).

(** Which tier answered a turn: the full pipeline, when the graph ran
    to a final state; one of the degraded tiers otherwise. *)
Inductive answered (L : PyLib) (R : Runtime) (message : string)
    (info : dict pyval) : Response -> Prop :=
| by_pipeline : forall state0 final cleaned h0 h1,
    invoke_graph R state0 h0 = (Ok final, h1) ->
    api_disabled (agent h1) = false ->
    answered L R message info (pipeline_response cleaned final)
| by_fallback : forall r,
    degraded L R message info r -> answered L R message info r.

(** A response that is fit to return: not empty, and accounted for by
    one of the tiers. *)
Definition fit_to_return (L : PyLib) (R : Runtime) (message : string)
    (info : dict pyval) (r : Response) : Prop :=
  r_message r <> "" /\ answered L R message info r.

(** The re-probe of a disabled provider does not succeed in this
    world. *)
Definition probe_fails (W : World) : Prop :=
  forall h, fst (reload_api_key W h) <> Ok true.


(** The provider fails on a request: the call raises, the response is
    empty, or no JSON can be extracted from its text. *)
Definition provider_fails (L : PyLib) (c : completion) : Prop :=
  match c with
  | Raises _ => True
  | Reply None => True
  | Reply (Some answer) =>
      _extract_json_from_text L
        (_clean_response_for_json L (Str.strip answer)) = PNone
  end.


(** The active form, if any, is a form of the catalog, as it is in
    every state [process_message] builds. *)
Definition form_in_catalog (form_schemas : dict FormInfo)
    (form : option string) : Prop :=
  forall f, form = Some f -> Str.nonempty f = true ->
            Dict.mem f form_schemas = true.

(** The value passes the rule the form has for the field. *)
Definition passes_rule (rules : dict FieldSchema) (k v : string) : Prop :=
  _validate_field_value k v (opt_default no_rule (Dict.get k rules)) = true.

(** The state [form_router_node] leaves when the multi-field extraction
    returned [extracted] (lines 516-541). *)
Definition router_commit (fi : FormInfo) (extracted : dict string)
    (st : ConversationState) : ConversationState :=
  let required := missing_fields (fi_required_fields fi) (collected_data st) in
  let st := set_required_fields required st in
  if negb (is_nil extracted) then
    let '(collected, completed) :=
      commit_fields extracted required (collected_data st)
        (completed_fields st) in
    let remaining := missing_fields (fi_required_fields fi) collected in
    set_next_node
      (Some (if is_nil remaining then "validate" else "start_form"))
      (set_required_fields remaining
         (set_collected_data collected (set_completed_fields completed st)))
  else set_next_node (Some "start_form") st.

(** Manual mode and completion exclude each other on a record, as the
    methods of the model keep them. *)
Definition mode_consistent (c : Conversation) : Prop :=
  cv_manual_reply_active c = true -> cv_status c <> Completed.

(** The payload fields that describe a form session, all cleared. *)
Definition denies_form_session (r : Response) : Prop :=
  r_current_form r = None /\ r_current_step r = None
  /\ r_is_form_active r = false /\ r_form_completed r = false
  /\ r_requires_confirmation r = false.

(** A computation leaves a reading [f] of the heap as it was, whether
    it returns or raises. *)
Definition preserves {A X : Type} (f : Heap -> X) (m : M A) : Prop :=
  forall h, f (snd (m h)) = f h.

(** A contact field after a turn: as it was, or filled where it was
    empty. *)
Definition filled_or_kept (old new : pyval) : Prop :=
  new = old \/ (truthy old = false /\ truthy new = true).

(** Two states of a conversation object that differ at most in contact
    fields that were empty and are filled. *)
Definition only_fills_contacts (c c' : Conversation) : Prop :=
  cv_session_id c' = cv_session_id c
  /\ cv_ip_address c' = cv_ip_address c
  /\ cv_is_lead c' = cv_is_lead c
  /\ cv_status c' = cv_status c
  /\ cv_manual_reply_active c' = cv_manual_reply_active c
  /\ cv_collected_data c' = cv_collected_data c
  /\ cv_intent_classification c' = cv_intent_classification c
  /\ cv_confidence_score c' = cv_confidence_score c
  /\ filled_or_kept (cv_user_email c) (cv_user_email c')
  /\ filled_or_kept (cv_user_name c) (cv_user_name c')
  /\ filled_or_kept (cv_user_phone c) (cv_user_phone c').

(** A stored conversation before and after a request: the session, the
    status and the mode are the same; an address, a contact detail or
    the lead mark once on record stays; no collected key is lost. *)
Definition record_grows (c c' : Conversation) : Prop :=
  cv_session_id c' = cv_session_id c
  /\ cv_status c' = cv_status c
  /\ cv_manual_reply_active c' = cv_manual_reply_active c
  /\ (opt_truthy (cv_ip_address c) = true ->
      cv_ip_address c' = cv_ip_address c)
  /\ (truthy (cv_user_email c) = true -> cv_user_email c' = cv_user_email c)
  /\ (truthy (cv_user_name c) = true -> cv_user_name c' = cv_user_name c)
  /\ (truthy (cv_user_phone c) = true -> cv_user_phone c' = cv_user_phone c)
  /\ (cv_is_lead c = true -> cv_is_lead c' = true)
  /\ (forall k, Dict.mem k (cv_collected_data c) = true ->
                Dict.mem k (cv_collected_data c') = true).

(** The status and the mode the turn endpoint sees for a session: those
    on record, or those of the conversation it is about to create. *)
Definition mode_of (sid : string) (site : Site) : Status * bool :=
  match find_conversation sid (conversations site) with
  | Some c => (cv_status c, cv_manual_reply_active c)
  | None => (Active, false)
  end.

(** Two sites with the same messages, the same next id and the same
    agent. *)
Definition same_log (site site' : Site) : Prop :=
  message_rows site' = message_rows site
  /\ next_message_id site' = next_message_id site
  /\ site_agent site' = site_agent site
  /\ site_calls site' = site_calls site
  /\ agent_turns site' = agent_turns site.

(** Messages in ascending order of their ids. *)
Fixpoint ascending (l : list ConversationMessage) : Prop :=
  match l with
  | [] => True
  | m :: r => Forall (fun x => msg_id m <= msg_id x) r /\ ascending r
  end.

(** What [last_message_id] asks of a message id: to be greater, when
    the parameter is there, not empty, and a number. *)
Definition asked_after (last : option string) (id : nat) : Prop :=
  match last with
  | Some text =>
      if Str.nonempty text then
        match py_int text with
        | Some last_id => (last_id < Z.of_nat id)%Z
        | None => True
        end
      else True
  | None => True
  end.

(** The ids of a table with an auto-incremented key: they start at 1
    and all lie below the next one to be given. *)
Definition ids_below (site : Site) : Prop :=
  0 < next_message_id site
  /\ Forall (fun m => msg_id m < next_message_id site) (message_rows site).

(** A keyword as [get_keywords_list] hands them out: not empty, without
    a comma, without white space at either end, in lower case. *)
Definition clean_keyword (k : string) : Prop :=
  k <> ""
  /\ Str.forallb (fun c => negb (Ascii.eqb c ","%char)) k = true
  /\ Str.strip k = k
  /\ Str.lower k = k.

(** What may stand before a keyword in the text: nothing, or the blank
    after a comma. *)
Definition lead_in (lead : string) : Prop := lead = "" \/ lead = " ".

(** A run of failed requests, each marked in turn. *)
Fixpoint mark_failures (errors : list string) : M unit :=
  match errors with
  | [] => ret tt
  | e :: rest => _mark_api_failure e ;;; mark_failures rest
  end.

(** How many of the errors are not authentication errors. *)
Definition other_failures (errors : list string) : nat :=
  List.length (List.filter (fun e => negb (is_auth_error e)) errors).

(** What [_is_client_available] answers for an agent. *)
Definition available (a : Agent) : bool := client a && negb (api_disabled a).

(** A text without a brace. *)
Definition no_brace (s : string) : Prop :=
  Str.forallb (fun c => negb (Ascii.eqb c "{"%char)
                        && negb (Ascii.eqb c "}"%char)) s = true.

(** Every result a computation returns satisfies [P]; nothing is said
    of a run that raises. *)
Definition ensures {A : Type} (P : A -> Prop) (m : M A) : Prop :=
  forall h a h', m h = (Ok a, h') -> P a.

(** A computation that returns from every heap. *)
Definition returns {A : Type} (m : M A) : Prop :=
  forall h, exists a h', m h = (Ok a, h').

(** An answer that takes leave, and an answer that, if it does, also
    says the assistant is always here. *)
Definition signs_off (answer : string) : bool :=
  existsb (fun phrase => Str.contains phrase (Str.lower answer))
    goodbye_phrases.

Definition stays_open (answer : string) : Prop :=
  signs_off answer = true ->
  Str.contains "always here" (Str.lower answer) = true.

(** A state the graph may stop in: an answer is set, of one of the
    three kinds, and the route is the end. *)
Definition final_state (st : ConversationState) : Prop :=
  response st <> None
  /\ next_node st = Some "end"
  /\ In (response_type st) ["question"; "general"; "confirmation"].

(** The form in progress, if there is one, is a form of the catalog. *)
Definition form_known (form_schemas : dict FormInfo)
    (st : ConversationState) : bool :=
  match current_form st with
  | Some f => negb (Str.nonempty f) || Dict.mem f form_schemas
  | None => true
  end.

(** A form is in progress, it is in the catalog, and each of its
    required fields has a truthy value in the collected data. *)
Definition form_filled (form_schemas : dict FormInfo)
    (st : ConversationState) : Prop :=
  exists f fi,
    current_form st = Some f /\ Str.nonempty f = true
    /\ Dict.get f form_schemas = Some fi
    /\ missing_fields (fi_required_fields fi) (collected_data st) = [].

(** The form in progress is the same, and every field that had a truthy
    value still has that value. *)
Definition keeps_answers (st st' : ConversationState) : Prop :=
  current_form st' = current_form st
  /\ forall k, truthy (pyget k (collected_data st)) = true ->
               pyget k (collected_data st') = pyget k (collected_data st).

(** What the classifier leaves alone, and where it routes. *)
Definition classified (st st1 : ConversationState) : Prop :=
  current_form st1 = current_form st
  /\ collected_data st1 = collected_data st
  /\ (next_node st1 = Some "form_flow" \/ next_node st1 = Some "general").

(** A route to the validator is taken with a filled form only. *)
Definition validates_filled (form_schemas : dict FormInfo)
    (st1 : ConversationState) : Prop :=
  next_node st1 = Some "validate" -> form_filled form_schemas st1.

(** The routes the router takes. *)
Definition routed (st1 : ConversationState) : Prop :=
  In (next_node st1)
     [Some "start_form"; Some "general"; Some "extract_data";
      Some "validate"].

(** A confirmation is shown for a filled form only, and raises the
    flag. *)
Definition confirms_filled (form_schemas : dict FormInfo)
    (st1 : ConversationState) : Prop :=
  response_type st1 = "confirmation" ->
  requires_confirmation st1 = true /\ form_filled form_schemas st1.

(** What the part of the graph behind the router comes to. *)
Definition route_done (form_schemas : dict FormInfo)
    (st st' : ConversationState) : Prop :=
  final_state st' /\ confirms_filled form_schemas st'
  /\ keeps_answers st st'.

(** The same for the graph as a whole: the answers are kept while a
    form is in progress. *)
Definition graph_done (form_schemas : dict FormInfo)
    (st st' : ConversationState) : Prop :=
  final_state st' /\ confirms_filled form_schemas st'
  /\ (opt_truthy (current_form st) = true -> keeps_answers st st').

(** A computation that issues [k] completion requests, at most [n] of
    them, whatever its outcome, and whose result together with [k]
    satisfies [P] when it returns. *)
Definition spends {A : Type} (n : nat) (P : A -> nat -> Prop) (m : M A)
    : Prop :=
  forall h r h',
    m h = (r, h') ->
    exists k, calls h' = calls h + k /\ k <= n
              /\ forall a, r = Ok a -> P a k.

(** At most [n] requests, whatever the outcome. *)
Definition within {A : Type} (n : nat) (m : M A) : Prop :=
  spends n (fun _ _ => True) m.

(** No form is in progress, or the form in progress misses nothing. *)
Definition idle_form (form_schemas : dict FormInfo)
    (st : ConversationState) : bool :=
  match current_form st with
  | Some f =>
      negb (Str.nonempty f)
      || is_nil (missing_fields (form_required_fields form_schemas f)
                   (collected_data st))
  | None => true
  end.

(* ================================================================== *)
(** * Properties *)

(** ** Dictionaries and the monad *)

Lemma dict_get_forallb {V} (P : V -> bool) (d : dict V) (k : string) (v : V) :
  forallb (fun kv => P (snd kv)) d = true ->
  Dict.get k d = Some v -> P v = true.
Proof.
  induction d as [|[k' v'] d IH]; simpl; [discriminate|].
  intros Hall Hget. apply andb_prop in Hall as [Hv Hd].
  destruct (String.eqb k k').
  - now inversion Hget; subst.
  - now apply IH.
Qed.

Lemma nonempty_neq (s : string) : Str.nonempty s = true -> s <> "".
Proof. destruct s; [discriminate | intros _ H; discriminate H]. Qed.

Lemma neq_nonempty (s : string) : s <> "" -> Str.nonempty s = true.
Proof. destruct s; [congruence | reflexivity]. Qed.

Lemma dict_update_nil {V} (d : dict V) : Dict.update [] d = d.
Proof. reflexivity. Qed.

Lemma adopt_nil (key : string) (info : dict pyval) : adopt key [] info = info.
Proof. reflexivity. Qed.

(** ** The rule-based responder always has something to say *)

Lemma context_first_response_nonempty (k v : string) :
  Dict.get k context_first_response = Some v -> Str.nonempty v = true.
Proof.
  apply (dict_get_forallb Str.nonempty). vm_compute. reflexivity.
Qed.

Lemma _get_response_for_intent_nonempty (intent message : string) :
  Str.nonempty (_get_response_for_intent intent message) = true.
Proof.
  unfold _get_response_for_intent.
  destruct (Dict.get _ context_first_response) as [first|] eqn:Hget.
  - now apply context_first_response_nonempty in Hget.
  - destruct (String.eqb _ "unclear"); [destruct (_ <=? 2)%nat|]; reflexivity.
Qed.

Lemma generate_response_nonempty (L : PyLib) (message : string) :
  Str.nonempty (rr_message (generate_response L message)) = true.
Proof.
  unfold generate_response.
  destruct (negb _ || negb _); [reflexivity|].
  destruct (classify_intent L _) as [intent c]; simpl.
  apply _get_response_for_intent_nonempty.
Qed.

Lemma generate_response_collects_nothing (L : PyLib) (message : string) :
  rr_collected_data (generate_response L message) = [].
Proof.
  unfold generate_response.
  destruct (negb _ || negb _); [reflexivity|].
  now destruct (classify_intent L _).
Qed.

Lemma chatbot_generate_response_nonempty L bot message :
  Str.nonempty (rr_message (chatbot_generate_response L bot message)) = true.
Proof.
  destruct bot; simpl; [apply generate_response_nonempty | reflexivity].
Qed.

Lemma chatbot_generate_response_collects_nothing L bot message :
  rr_collected_data (chatbot_generate_response L bot message) = [].
Proof.
  destruct bot; simpl;
    [apply generate_response_collects_nothing | reflexivity].
Qed.

(** ** The degraded tiers *)

Lemma degraded_denies_form_session L R message info r :
  degraded L R message info r -> denies_form_session r.
Proof. intros [? ? ? ? _|? ? ? _]; repeat split. Qed.

Lemma degraded_nonempty L R message info r :
  degraded L R message info r -> r_message r <> "".
Proof.
  intros [bot ? ? ? _|? ? ? _]; simpl.
  - apply nonempty_neq, chatbot_generate_response_nonempty.
  - discriminate.
Qed.

Lemma degraded_flagged L R message info r :
  degraded L R message info r -> r_fallback_used r = Some true.
Proof. now intros [? ? ? ? _|? ? ? _]. Qed.

(** [_fallback_to_rule_based] returns, whatever its collaborators do,
    and what it returns comes from one of the degraded tiers. *)
Lemma _fallback_to_rule_based_returns L R message info h :
  exists r h',
    _fallback_to_rule_based L R message info h = (Ok r, h')
    /\ degraded L R message info r.
Proof.
  unfold _fallback_to_rule_based, try_except, bind, ret, get_conv.
  destruct (get_rule_based_chatbot R h) as [[bot|e] h1] eqn:Hbot.
  - destruct (messages_all R h1) as [[hist|e] h2];
      rewrite chatbot_generate_response_collects_nothing;
      rewrite dict_update_nil, !adopt_nil;
      eexists; eexists; (split; [reflexivity|]);
      eapply degraded_rules; eassumption.
  - eexists; eexists; split; [reflexivity|].
    eapply degraded_ultimate; eassumption.
Qed.

(** ** The wrapper *)

Lemma read_form_state_returns form_schemas h :
  exists form, read_form_state form_schemas h = (Ok form, h).
Proof.
  unfold read_form_state, try_except, bind, ret, lift, get_conv.
  destruct (in_form_schemas form_schemas _); eexists; reflexivity.
Qed.

Lemma try_except_ret_returns {A} (m : M A) (x : A) (h : Heap) :
  exists a h', try_except m (fun _ => ret x) h = (Ok a, h').
Proof.
  unfold try_except, ret.
  destruct (m h) as [[a|e] h']; eexists; eexists; reflexivity.
Qed.

Section WrapperFacts.
Variable L : PyLib.
Variable R : Runtime.
Variable message : string.
Variable info : dict pyval.

Local Abbreviation fit := (fit_to_return L R message info).

Lemma fallback_fit (h : Heap) :
  exists r h',
    _fallback_to_rule_based L R message info h = (Ok r, h') /\ fit r.
Proof.
  destruct (_fallback_to_rule_based_returns L R message info h)
    as (r & h' & Heq & Hd).
  exists r, h'. split; [exact Heq|]. split.
  - eapply degraded_nonempty; eassumption.
  - now apply by_fallback.
Qed.

Lemma fallback_some_fit (h : Heap) :
  exists r h',
    (r <- _fallback_to_rule_based L R message info ;; ret (Some r)) h
    = (Ok (Some r), h') /\ fit r.
Proof.
  destruct (fallback_fit h) as (r & h' & Heq & Hfit).
  exists r, h'. unfold bind, ret. now rewrite Heq.
Qed.

Lemma reprobe_returns (h : Heap) :
  exists o h',
    reprobe L R message info h = (Ok o, h')
    /\ match o with Some r => fit r | None => True end.
Proof.
  unfold reprobe, try_except, bind at 1, get_agent.
  destruct (api_disabled (agent h)).
  - unfold bind at 1.
    destruct (reload R h) as [[[|]|e] h1].
    + exists None, h1. now split.
    + destruct (fallback_some_fit h1) as (r & h' & -> & Hfit).
      now exists (Some r), h'.
    + destruct (fallback_some_fit h1) as (r & h' & -> & Hfit).
      now exists (Some r), h'.
  - exists None, h. now split.
Qed.

Lemma require_client_returns (h : Heap) :
  exists o h',
    require_client L R message info h = (Ok o, h')
    /\ match o with Some r => fit r | None => True end.
Proof.
  unfold require_client, try_except, bind at 1, _is_client_available,
    bind at 1, get_agent, ret at 1.
  destruct (negb (if negb (client (agent h)) || api_disabled (agent h)
                  then false else true)).
  - destruct (fallback_some_fit h) as (r & h' & -> & Hfit).
    now exists (Some r), h'.
  - exists None, h. now split.
Qed.

Lemma answer_from_graph_returns (state0 : ConversationState) (h : Heap) :
  exists r h',
    answer_from_graph L R message info state0 h = (Ok r, h') /\ fit r.
Proof.
  unfold answer_from_graph, try_except at 1, bind at 1.
  destruct (invoke_graph R state0 h) as [[final|e] h1] eqn:Hgraph.
  2: { destruct (fallback_fit h1) as (r & h' & -> & Hfit). now exists r, h'. }
  unfold bind at 1, get_agent.
  destruct (api_disabled (agent h1)) eqn:Hon.
  { destruct (fallback_fit h1) as (r & h' & -> & Hfit). now exists r, h'. }
  unfold try_except at 1, bind at 1.
  destruct (clean_response R (response final) h1) as [[cleaned|e] h2].
  2: { destruct (fallback_fit h2) as (r & h' & -> & Hfit). now exists r, h'. }
  destruct (negb (Str.nonempty cleaned) || _ || _) eqn:Hbad.
  - destruct (fallback_fit h2) as (r & h' & -> & Hfit). now exists r, h'.
  - exists (pipeline_response cleaned final), h2.
    split; [reflexivity|]. split.
    + simpl. apply nonempty_neq.
      apply orb_false_elim in Hbad as [Hbad _].
      apply orb_false_elim in Hbad as [Hbad _].
      now apply negb_false_iff in Hbad.
    + eapply by_pipeline; eassumption.
Qed.

Lemma run_pipeline_returns sid form (h : Heap) :
  exists r h',
    run_pipeline L R sid message info form h = (Ok r, h') /\ fit r.
Proof.
  unfold run_pipeline, bind at 1.
  destruct (try_except_ret_returns (messages_all R) [] h)
    as (hist & h1 & ->).
  unfold bind at 1, get_conv, bind at 1.
  destruct (reprobe_returns h1) as ([r|] & h2 & -> & Hfit).
  { now exists r, h2. }
  unfold bind at 1.
  destruct (require_client_returns h2) as ([r|] & h3 & -> & Hfit').
  { now exists r, h3. }
  apply answer_from_graph_returns.
Qed.

End WrapperFacts.

Lemma process_message_returns L form_schemas R sid message h :
  exists r h' info,
    process_message L form_schemas R sid message h = (Ok r, h')
    /\ fit_to_return L R message info r.
Proof.
  unfold process_message, bind at 1, get_conv, bind at 1.
  destruct (read_form_state_returns form_schemas h) as (form & ->).
  unfold bind at 1.
  set (info0 := [("name", _); ("email", _); ("phone", _)]).
  assert (Hlearn : exists info h1,
             learn_contact_info R message info0 h = (Ok info, h1))
    by apply try_except_ret_returns.
  destruct Hlearn as (info & h1 & ->).
  destruct (run_pipeline_returns L R message info sid form h1)
    as (r & h' & Hrun & Hfit).
  exists r, h', info. unfold try_except. now rewrite Hrun.
Qed.


(** The tiers in order: when the graph raises, the rule-based responder
    answers; when the responder cannot be obtained either, the fixed
    message does. *)
Lemma answer_from_graph_degrades L R message info state0 h e h1 :
  invoke_graph R state0 h = (Exc e, h1) ->
  answer_from_graph L R message info state0 h
  = _fallback_to_rule_based L R message info h1.
Proof.
  intros Hgraph. unfold answer_from_graph, try_except at 1, bind at 1.
  now rewrite Hgraph.
Qed.

Lemma _fallback_to_rule_based_degrades L R message info h e h1 :
  get_rule_based_chatbot R h = (Exc e, h1) ->
  _fallback_to_rule_based L R message info h
  = (Ok (_ultimate_fallback_response info), h1).
Proof.
  intros Hbot.
  unfold _fallback_to_rule_based, try_except, bind, ret. now rewrite Hbot.
Qed.

(** C10. Whenever [process_message] answers a turn from the fallback
    tier (the payload carries [fallback_used]), the payload reports no
    current form, no current step, no active form, no completed form and
    no confirmation pending, whatever the conversation holds. *)
Theorem fallback_response_denies_form_session :
  forall (L : PyLib) (form_schemas : dict FormInfo) (R : Runtime)
         (sid message : string) (h h' : Heap) (r : Response),
    process_message L form_schemas R sid message h = (Ok r, h') ->
    r_fallback_used r = Some true ->
    denies_form_session r.
Proof.
  intros L form_schemas R sid message h h' r Hrun Hflag.
  destruct (process_message_returns L form_schemas R sid message h)
    as (r0 & h0 & info & Heq & _ & Hans).
  rewrite Hrun in Heq. inversion Heq; subst r0 h0.
  destruct Hans as [? ? ? ? ? _ _|r Hdeg].
  - discriminate Hflag.
  - eapply degraded_denies_form_session; eassumption.
Qed.

Lemma fallback_response_denies_form_session_witness :
  fst (read_form_state FORM_SCHEMAS
         (heap_of disabled_agent purchase_in_progress))
  = Ok (Some "car_purchase", [("name", PStr "Jane Doe")], ["email"; "phone"])
  /\ match fst (agent_process_message example_lib keyless_world FORM_SCHEMAS
                  FORM_QUESTIONS "s1" "jane@example.com"
                  (heap_of disabled_agent purchase_in_progress)) with
     | Ok r => denies_form_session r
     | Exc _ => False
     end.
Proof.
  split; [reflexivity|].
  vm_compute agent_process_message.
  cbv beta iota delta [fst].
  eapply (fallback_response_denies_form_session example_lib FORM_SCHEMAS
            (agent_runtime example_lib keyless_world FORM_SCHEMAS
               FORM_QUESTIONS)
            "s1" "jane@example.com"
            (heap_of disabled_agent purchase_in_progress)).
  - vm_compute. reflexivity.
  - reflexivity.
Defined.

(** ** The failure counter and the disable flag *)

Lemma _mark_api_failure_auth (error_msg : string) (h : Heap) :
  is_auth_error error_msg = true ->
  api_disabled (agent (snd (_mark_api_failure error_msg h))) = true.
Proof.
  intros Hauth. unfold _mark_api_failure, bind, get_agent. rewrite Hauth.
  destruct (api_disabled (agent h)) eqn:Hdis; simpl; [exact Hdis | reflexivity].
Qed.

Lemma _mark_api_failure_counts (error_msg : string) (h : Heap) :
  is_auth_error error_msg = false ->
  api_failure_count (agent (snd (_mark_api_failure error_msg h)))
  = S (api_failure_count (agent h))
  /\ (3 <= S (api_failure_count (agent h)) ->
      api_disabled (agent (snd (_mark_api_failure error_msg h))) = true).
Proof.
  intros Hauth. unfold _mark_api_failure, bind, get_agent. rewrite Hauth.
  simpl. split; [reflexivity|]. intros Hthree.
  destruct (api_failure_count (agent h)) as [|[|n]]; [lia | lia | reflexivity].
Qed.

Lemma _mark_api_failure_keeps_disabled (error_msg : string) (h : Heap) :
  api_disabled (agent h) = true ->
  api_disabled (agent (snd (_mark_api_failure error_msg h))) = true.
Proof.
  intros Hdis. unfold _mark_api_failure, bind, get_agent.
  destruct (is_auth_error error_msg); rewrite Hdis; simpl;
    [exact Hdis | now destruct (api_failure_count (agent h)) as [|[|n]]].
Qed.

Lemma _is_client_available_disabled (h : Heap) :
  api_disabled (agent h) = true -> _is_client_available h = (Ok false, h).
Proof.
  intros Hdis. unfold _is_client_available, bind, get_agent, ret.
  rewrite Hdis. now rewrite orb_true_r.
Qed.

(** A re-probe that does not succeed leaves a disabled provider
    disabled, and asks the provider nothing. *)
Lemma reload_api_key_failed (W : World) (h : Heap) :
  api_disabled (agent h) = true ->
  fst (reload_api_key W h) <> Ok true ->
  exists h',
    reload_api_key W h = (Ok false, h')
    /\ api_disabled (agent h') = true
    /\ calls h' = calls h /\ conv h' = conv h.
Proof.
  intros Hdis. unfold reload_api_key, try_except, bind, lift, get_agent,
    put_agent, ret.
  destruct (stored_api_key W) as [api_key|e]; simpl.
  2: { intros _. now exists h. }
  destruct (Str.nonempty api_key); simpl.
  2: { intros _. eexists. split; [reflexivity|]. now repeat split. }
  destruct (groq_init W api_key) as [[]|e]; simpl.
  2: { intros _. eexists. split; [reflexivity|]. now repeat split. }
  destruct (Str.startswith "gsk_" api_key); simpl.
  - intros Hno. now contradiction Hno.
  - intros _. eexists. split; [reflexivity|]. now repeat split.
Qed.

Section DisabledTurn.
Variable L : PyLib.
Variable W : World.
Variable form_schemas : dict FormInfo.
Variable form_questions : dict (dict string).
Local Abbreviation R := (agent_runtime L W form_schemas form_questions).

Lemma _extract_contact_info_disabled message history h :
  api_disabled (agent h) = true ->
  exists found, _extract_contact_info L W message history h = (Ok found, h).
Proof.
  intros Hdis. unfold _extract_contact_info.
  destruct (negb (Str.nonempty message)); [now eexists|].
  unfold bind. rewrite (_is_client_available_disabled h Hdis). simpl.
  now eexists.
Qed.

Lemma lift_try_except {A} (r : Res A) (x : A) (h : Heap) :
  exists a, try_except (lift r) (fun _ => ret x) h = (Ok a, h).
Proof. unfold try_except, lift, ret. destruct r; now eexists. Qed.

Lemma learn_contact_info_disabled message info h :
  api_disabled (agent h) = true ->
  exists info' h',
    learn_contact_info R message info h = (Ok info', h')
    /\ agent h' = agent h /\ calls h' = calls h.
Proof.
  intros Hdis. unfold learn_contact_info.
  destruct (negb _ || negb _ || negb _).
  2: { unfold try_except, ret. now exists info, h. }
  unfold try_except at 1, bind at 1. simpl messages_all.
  destruct (lift_try_except (stored_messages W) [] h) as (hist & ->).
  unfold bind at 1, try_except at 1. simpl extract_contact_info.
  destruct (_extract_contact_info_disabled message hist h Hdis)
    as (found & ->).
  unfold bind at 1, get_conv, bind at 1, put_conv, bind at 1.
  simpl conversation_save.
  destruct (is_nil found); simpl.
  - unfold ret. eexists; eexists. split; [reflexivity|]. now split.
  - unfold try_except, lift, ret.
    destruct (save_result W); eexists; eexists;
      (split; [reflexivity|]); now split.
Qed.

Lemma agent_fallback_is_rule_based message info h :
  _fallback_to_rule_based L R message info h
  = (Ok (rule_based_response (generate_response L message)
           (cv_collected_data (conv h)) info), h).
Proof.
  unfold _fallback_to_rule_based, try_except at 1, bind at 1.
  simpl get_rule_based_chatbot. unfold try_except at 1, bind at 1, ret at 1.
  unfold ret at 1. unfold bind at 1. simpl messages_all.
  destruct (lift_try_except (stored_messages W) [] h) as (hist & ->).
  unfold bind, get_conv, ret. simpl chatbot_generate_response.
  now rewrite generate_response_collects_nothing, dict_update_nil, !adopt_nil.
Qed.

(** One turn taken while the provider is disabled and the re-probe
    fails: the rule-based responder answers, no completion is
    requested, and the provider stays disabled. *)
Lemma disabled_turn sid message h :
  api_disabled (agent h) = true ->
  probe_fails W ->
  exists r h',
    agent_process_message L W form_schemas form_questions sid message h
    = (Ok r, h')
    /\ calls h' = calls h
    /\ api_disabled (agent h') = true
    /\ exists collected info,
         r = rule_based_response (generate_response L message) collected info.
Proof.
  intros Hdis Hprobe.
  unfold agent_process_message, process_message, bind at 1, get_conv,
    bind at 1.
  destruct (read_form_state_returns form_schemas h) as (form & ->).
  unfold bind at 1.
  set (info0 := [("name", _); ("email", _); ("phone", _)]).
  destruct (learn_contact_info_disabled message info0 h Hdis)
    as (info & h1 & -> & Hagent & Hcalls).
  assert (Hdis1 : api_disabled (agent h1) = true) by now rewrite Hagent.
  unfold try_except at 1, run_pipeline, bind at 1. simpl messages_all.
  destruct (lift_try_except (stored_messages W) [] h1) as (hist & ->).
  unfold bind at 1, get_conv, bind at 1.
  unfold reprobe, try_except at 1, bind at 1, get_agent. rewrite Hdis1.
  unfold bind at 1. simpl reload.
  destruct (reload_api_key_failed W h1 Hdis1 (Hprobe h1))
    as (h2 & -> & Hdis2 & Hcalls2 & Hconv2).
  unfold bind at 1. rewrite agent_fallback_is_rule_based.
  unfold ret. eexists; eexists. split; [reflexivity|].
  split; [congruence|]. split; [exact Hdis2|]. now eexists; eexists.
Qed.

End DisabledTurn.

(** Any number of turns taken while the provider is disabled and no
    re-probe succeeds. *)
Lemma disabled_turns L form_schemas form_questions (turns : list Turn) :
  forall (a : Agent) (n : nat),
    api_disabled a = true ->
    Forall (fun t => probe_fails (t_world t)) turns ->
    Forall2
      (fun t r =>
         exists collected info,
           r = Ok (rule_based_response (generate_response L (t_message t))
                     collected info))
      turns
      (fst (fst (run_turns L form_schemas form_questions turns a n)))
    /\ api_disabled
         (snd (fst (run_turns L form_schemas form_questions turns a n)))
       = true
    /\ snd (run_turns L form_schemas form_questions turns a n) = n.
Proof.
  induction turns as [|t rest IH]; intros a n Hdis Hprobes.
  - simpl. repeat split; [constructor | exact Hdis].
  - inversion Hprobes as [|? ? Hprobe Hrest]; subst. simpl.
    destruct (disabled_turn L (t_world t) form_schemas form_questions
                (t_session t) (t_message t)
                {| agent := a; conv := t_conversation t; calls := n |}
                Hdis Hprobe)
      as (r & h' & -> & Hcalls & Hdis' & Hrule).
    specialize (IH (agent h') (calls h') Hdis' Hrest).
    destruct (run_turns L form_schemas form_questions rest (agent h')
                (calls h')) as [[rs a'] n'].
    simpl in *. destruct IH as (Hrs & Ha' & Hn').
    split.
    { constructor; [|exact Hrs].
      destruct Hrule as (collected & info & ->). now eexists; eexists. }
    split; [exact Ha' | congruence].
Qed.

(** C2. One authentication-class error passed to [_mark_api_failure]
    sets the disabled flag, and so does any other failure that brings
    the counter to three or more (in particular the third of three
    failures in a row, from any state). From then on every capability
    check reports unavailable, and every further turn of the process is
    answered by the rule-based responder, with no completion requested
    and the provider still disabled, for as long as no re-probe
    succeeds. *)
Theorem disabled_provider_routes_to_rule_based :
  forall (L : PyLib) (form_schemas : dict FormInfo)
         (form_questions : dict (dict string)),
    (forall error_msg h,
        is_auth_error error_msg = true ->
        api_disabled (agent (snd (_mark_api_failure error_msg h))) = true)
    /\ (forall error_msg h,
           is_auth_error error_msg = false ->
           3 <= S (api_failure_count (agent h)) ->
           api_disabled (agent (snd (_mark_api_failure error_msg h))) = true)
    /\ (forall e1 e2 e3 h,
           is_auth_error e1 = false -> is_auth_error e2 = false ->
           is_auth_error e3 = false ->
           api_disabled
             (agent (snd ((_mark_api_failure e1 ;;; _mark_api_failure e2 ;;;
                           _mark_api_failure e3) h))) = true)
    /\ (forall h,
           api_disabled (agent h) = true ->
           _is_client_available h = (Ok false, h))
    /\ (forall (turns : list Turn) (a : Agent) (n : nat),
           api_disabled a = true ->
           Forall (fun t => probe_fails (t_world t)) turns ->
           Forall2
             (fun t r =>
                exists collected info,
                  r = Ok (rule_based_response
                            (generate_response L (t_message t))
                            collected info))
             turns
             (fst (fst (run_turns L form_schemas form_questions turns a n)))
           /\ api_disabled
                (snd (fst (run_turns L form_schemas form_questions
                             turns a n))) = true
           /\ snd (run_turns L form_schemas form_questions turns a n) = n).
Proof.
  intros L form_schemas form_questions.
  split; [exact _mark_api_failure_auth|].
  split; [intros e h Hna; now apply _mark_api_failure_counts|].
  split.
  { intros e1 e2 e3 h H1 H2 H3. unfold bind.
    destruct (_mark_api_failure e1 h) as [r1 h1] eqn:E1.
    assert (Hr1 : r1 = Ok tt).
    { revert E1. unfold _mark_api_failure, bind, get_agent, put_agent.
      rewrite H1. now inversion 1. }
    subst r1.
    destruct (_mark_api_failure e2 h1) as [r2 h2] eqn:E2.
    assert (Hr2 : r2 = Ok tt).
    { revert E2. unfold _mark_api_failure, bind, get_agent, put_agent.
      rewrite H2. now inversion 1. }
    subst r2.
    apply _mark_api_failure_counts; [exact H3|].
    pose proof (proj1 (_mark_api_failure_counts e2 h1 H2)) as C2.
    pose proof (proj1 (_mark_api_failure_counts e1 h H1)) as C1.
    rewrite E2 in C2. rewrite E1 in C1. simpl in C1, C2. lia. }
  split; [exact _is_client_available_disabled|].
  intros turns a n. apply disabled_turns.
Qed.

Lemma keyless_world_probe_fails : probe_fails keyless_world.
Proof. intros h. unfold reload_api_key. simpl. discriminate. Qed.

Lemma disabled_provider_routes_to_rule_based_witness :
  api_disabled
    (agent (snd (_mark_api_failure "Error code: 401 - invalid_api_key"
                   (heap_of ready_agent purchase_in_progress)))) = true
  /\ (let turn message :=
        {| t_world := keyless_world; t_session := "s1";
           t_message := message; t_conversation := purchase_in_progress |} in
      snd (run_turns example_lib FORM_SCHEMAS FORM_QUESTIONS
             [turn "jane@example.com"; turn "hello"] disabled_agent 0) = 0).
Proof.
  destruct (disabled_provider_routes_to_rule_based example_lib FORM_SCHEMAS
              FORM_QUESTIONS) as (Hauth & _ & _ & _ & Hturns).
  split.
  - apply Hauth. reflexivity.
  - cbv zeta. apply Hturns; [reflexivity|].
    repeat constructor; apply keyless_world_probe_fails.
Defined.

(** ** The intent classifier *)

Section ClassifierFacts.
Variable L : PyLib.
Variable W : World.
Variable form_schemas : dict FormInfo.

Lemma classify_general_label why st :
  intent (classify_general why st) = Some "general"
  /\ confidence (classify_general why st) = (3 # 10)%Q.
Proof. destruct why; now split. Qed.


Lemma classify_answer_spec answer st st' :
  classify_answer L form_schemas answer st = Ok st' ->
  (exists why, st' = classify_general (Some why) st)
  \/ exists text,
       answer = Some text
       /\ truthy (_extract_json_from_text L
                    (_clean_response_for_json L (Str.strip text))) = true
       /\ accept_classification L form_schemas
            (_extract_json_from_text L
               (_clean_response_for_json L (Str.strip text))) st = Ok st'.
Proof.
  unfold classify_answer.
  destruct answer as [text|]; simpl.
  2: { intros H; inversion H. left. now eexists. }
  destruct (negb (Str.nonempty text)).
  { intros H; inversion H. left. now eexists. }
  destruct (negb (Str.nonempty (Str.strip text))).
  { intros H; inversion H. left. now eexists. }
  destruct (truthy _) eqn:Htruthy.
  - intros H. right. now exists text.
  - intros H; inversion H. left. now eexists.
Qed.

Lemma classify_answer_failed answer st :
  provider_fails L (Reply answer) ->
  exists why,
    classify_answer L form_schemas answer st
    = Ok (classify_general (Some why) st).
Proof.
  unfold provider_fails, classify_answer.
  destruct answer as [text|]; simpl; [|now eexists].
  intros Hnone.
  destruct (negb (Str.nonempty text)); [now eexists|].
  destruct (negb (Str.nonempty (Str.strip text))); [now eexists|].
  rewrite Hnone. simpl. now eexists.
Qed.

(** What [classify_with_provider] comes to: without a client nothing
    is asked; otherwise exactly one request is made, and the state
    follows from its outcome. *)
Lemma classify_with_provider_spec st h :
  exists r h',
    classify_with_provider L W form_schemas st h = (r, h')
    /\ ((h' = h
         /\ r = Ok (classify_general
                      (Some "API unavailable - using fallback") st))
        \/ (calls h' = S (calls h)
            /\ ((exists msg why,
                    provider W (calls h) = Raises msg
                    /\ r = Ok (classify_general (Some why) st))
                \/ exists answer,
                     provider W (calls h) = Reply answer
                     /\ r = classify_answer L form_schemas answer st))).
Proof.
  unfold classify_with_provider, bind at 1, _is_client_available, bind at 1,
    get_agent, ret at 1.
  destruct (negb (if negb (client (agent h)) || api_disabled (agent h)
                  then false else true)).
  { unfold ret. eexists; eexists. split; [reflexivity|]. left. now split. }
  unfold bind at 1, try_except, bind at 1, create_completion.
  destruct (provider W (calls h)) as [msg|answer] eqn:Hprov.
  - unfold bind, ret.
    destruct (_mark_api_failure msg _) as [[[]|e] h1] eqn:Hmark.
    + eexists; eexists. split; [reflexivity|]. right. split.
      * revert Hmark. unfold _mark_api_failure, bind, get_agent, put_agent,
          ret. simpl.
        destruct (is_auth_error msg); [destruct (negb _)|];
          inversion 1; reflexivity.
      * left. now eexists; eexists.
    + revert Hmark. unfold _mark_api_failure, bind, get_agent, put_agent, ret.
      simpl. destruct (is_auth_error msg); [destruct (negb _)|]; inversion 1.
  - unfold ret, lift. eexists; eexists. split; [reflexivity|]. right.
    split; [reflexivity|]. right. now exists answer.
Qed.

(** The two ways [intent_classifier_node] goes: onto the active form
    without asking anyone, or through [classify_with_provider] under
    the handler of the outer [try]. *)
Lemma intent_classifier_node_cases st h :
  (exists f why,
      current_form st = Some f /\ Str.nonempty f = true
      /\ intent_classifier_node L W form_schemas st h
         = (Ok (continue_form f why st), h))
  \/ intent_classifier_node L W form_schemas st h
     = try_except (classify_with_provider L W form_schemas st)
         (fun _ => ret (classify_general None st)) h.
Proof.
  unfold intent_classifier_node.
  destruct (current_form st) as [f|]; [|now right].
  destruct (Str.nonempty f) eqn:Hf; [|now right].
  destruct (looks_like_new_intent (current_message st)).
  - destruct (negb (is_nil _)); [|now right].
    left. eexists; eexists. split; [reflexivity|]. split; [exact Hf|].
    reflexivity.
  - left. eexists; eexists. split; [reflexivity|]. split; [exact Hf|].
    reflexivity.
Qed.

End ClassifierFacts.


(** C7. Whenever the classifier asks the provider and the provider
    fails (the completion call raises, the response is empty, or no
    JSON can be extracted from its text), the classifier returns: the
    label is "general" and the confidence is at most 0.3 (it is 0.3). *)
Theorem classifier_degrades_on_provider_failure :
  forall (L : PyLib) (W : World) (form_schemas : dict FormInfo)
         (st : ConversationState) (h h' : Heap)
         (r : Res ConversationState),
    intent_classifier_node L W form_schemas st h = (r, h') ->
    calls h' = S (calls h) ->
    provider_fails L (provider W (calls h)) ->
    exists st',
      r = Ok st' /\ intent st' = Some "general"
      /\ (confidence st' <= 3 # 10)%Q.
Proof.
  intros L W form_schemas st h h' r Hrun Hasked Hfails.
  assert (Hgen : forall why,
             intent (classify_general why st) = Some "general"
             /\ (confidence (classify_general why st) <= 3 # 10)%Q).
  { intros why. destruct (classify_general_label why st) as [Hi Hc].
    split; [exact Hi|]. rewrite Hc. apply Qle_refl. }
  destruct (intent_classifier_node_cases L W form_schemas st h)
    as [(f & why & _ & _ & Hshort)|Hlong].
  { rewrite Hshort in Hrun. inversion Hrun; subst. lia. }
  rewrite Hlong in Hrun. unfold try_except in Hrun.
  destruct (classify_with_provider_spec L W form_schemas st h)
    as (r0 & h0 & Heq & [[Hh Hr0]|[Hcalls Hout]]);
    rewrite Heq in Hrun.
  { subst r0 h0. inversion Hrun; subst. lia. }
  destruct Hout as [(msg & why & Hprov & Hr0)|(answer & Hprov & Hr0)].
  - subst r0. inversion Hrun; subst. eexists. split; [reflexivity|].
    apply Hgen.
  - rewrite Hprov in Hfails.
    destruct (classify_answer_failed L form_schemas answer st Hfails)
      as (why & Hwhy).
    rewrite Hwhy in Hr0. subst r0. inversion Hrun; subst.
    eexists. split; [reflexivity|]. apply Hgen.
Qed.

Lemma classifier_degrades_on_provider_failure_witness :
  let W := world_of [Raises "Request timed out"] in
  let st := blank_state "do you hire vans?" None [] [] None in
  let h := heap_of ready_agent (new_conversation "s1" None) in
  exists st',
    fst (intent_classifier_node example_lib W FORM_SCHEMAS st h) = Ok st'
    /\ intent st' = Some "general" /\ (confidence st' <= 3 # 10)%Q.
Proof.
  cbv zeta.
  eapply (classifier_degrades_on_provider_failure example_lib
            (world_of [Raises "Request timed out"]) FORM_SCHEMAS
            (blank_state "do you hire vans?" None [] [] None)
            (heap_of ready_agent (new_conversation "s1" None))).
  - apply surjective_pairing.
  - vm_compute. reflexivity.
  - vm_compute. exact I.
Defined.




(** C4 as stated fails in its second half: a fully collected form does
    not by itself send the message to classification. With the
    newsletter form complete and the message "ok", the classifier still
    answers with the active form, confidence 1.0, and asks nobody,
    although the provider would have labelled the message "general". *)
Lemma complete_form_still_short_circuits :
  let W := world_of [Reply (Some general_reply)] in
  let st := blank_state "ok" (Some "newsletter_subscribe")
              [("email", PStr "jane@example.com")] [] None in
  let h := heap_of ready_agent (new_conversation "s1" None) in
  missing_fields (form_required_fields FORM_SCHEMAS "newsletter_subscribe")
    (collected_data st) = []
  /\ (exists st',
         intent_classifier_node example_lib W FORM_SCHEMAS st h = (Ok st', h)
         /\ intent st' = Some "newsletter_subscribe"
         /\ confidence st' = 1%Q)
  /\ (exists st' h',
         classify_with_provider example_lib W FORM_SCHEMAS st h
         = (Ok st', h')
         /\ intent st' = Some "general").
Proof.
  cbv zeta. split; [reflexivity|]. split.
  - eexists. split; [vm_compute; reflexivity|]. now split.
  - eexists; eexists. split; [vm_compute; reflexivity|]. reflexivity.
Qed.

(** C4, amended. With a form active: if a required field is still
    missing and the message does not look like a new request under the
    keyword heuristic, the classifier returns the active form with
    confidence exactly 1.0 and leaves the heap as it was, so no
    completion is requested; if the form is fully collected and the
    message does look like a new request, the classifier goes on to
    [classify_with_provider], whose label it returns. *)
Theorem active_form_short_circuit :
  forall (L : PyLib) (W : World) (form_schemas : dict FormInfo)
         (st : ConversationState) (h : Heap) (f : string),
    current_form st = Some f ->
    Str.nonempty f = true ->
    (missing_fields (form_required_fields form_schemas f)
       (collected_data st) <> [] ->
     looks_like_new_intent (current_message st) = false ->
     exists st',
       intent_classifier_node L W form_schemas st h = (Ok st', h)
       /\ intent st' = Some f /\ confidence st' = 1%Q)
    /\ (missing_fields (form_required_fields form_schemas f)
          (collected_data st) = [] ->
        looks_like_new_intent (current_message st) = true ->
        intent_classifier_node L W form_schemas st h
        = try_except (classify_with_provider L W form_schemas st)
            (fun _ => ret (classify_general None st)) h).
Proof.
  intros L W form_schemas st h f Hform Hf.
  unfold intent_classifier_node. rewrite Hform, Hf. split.
  - intros _ Hlooks. rewrite Hlooks. eexists. split; [reflexivity|].
    now split.
  - intros Hdone Hlooks. rewrite Hlooks, Hdone. reflexivity.
Qed.

Lemma active_form_short_circuit_witness :
  (let W := world_of [Reply (Some general_reply)] in
   let st := blank_state "Jane Doe" (Some "car_purchase") []
               ["name"; "email"; "phone"] None in
   let h := heap_of ready_agent (new_conversation "s1" None) in
   exists st',
     intent_classifier_node example_lib W FORM_SCHEMAS st h = (Ok st', h)
     /\ intent st' = Some "car_purchase" /\ confidence st' = 1%Q)
  /\ (let W := world_of [Reply (Some general_reply)] in
      let st := blank_state "I want to ask something else"
                  (Some "newsletter_subscribe")
                  [("email", PStr "jane@example.com")] [] None in
      let h := heap_of ready_agent (new_conversation "s1" None) in
      exists st' h',
        intent_classifier_node example_lib W FORM_SCHEMAS st h
        = (Ok st', h')
        /\ intent st' = Some "general" /\ calls h' = 1).
Proof.
  split; cbv zeta.
  - apply (active_form_short_circuit example_lib
             (world_of [Reply (Some general_reply)]) FORM_SCHEMAS
             (blank_state "Jane Doe" (Some "car_purchase") []
                ["name"; "email"; "phone"] None)
             (heap_of ready_agent (new_conversation "s1" None))
             "car_purchase"); [reflexivity | reflexivity | | reflexivity].
    vm_compute. discriminate.
  - rewrite (proj2 (active_form_short_circuit example_lib
                      (world_of [Reply (Some general_reply)]) FORM_SCHEMAS
                      (blank_state "I want to ask something else"
                         (Some "newsletter_subscribe")
                         [("email", PStr "jane@example.com")] [] None)
                      (heap_of ready_agent (new_conversation "s1" None))
                      "newsletter_subscribe" eq_refl eq_refl)
               eq_refl eq_refl).
    eexists; eexists. split; [vm_compute; reflexivity|]. now split.
Defined.

(** ** The form router *)

Lemma read_form_state_view form_schemas h current collected required :
  read_form_state form_schemas h = (Ok (current, collected, required), h) ->
  form_in_catalog form_schemas current
  /\ forall f fi,
       current = Some f -> Str.nonempty f = true ->
       Dict.get f form_schemas = Some fi ->
       required = missing_fields (fi_required_fields fi) collected.
Proof.
  unfold read_form_state, try_except, bind, ret, lift, get_conv.
  destruct (in_form_schemas form_schemas _) as [known|] eqn:Hknown.
  2: { inversion 1; subst. split; [intros f Hf; discriminate Hf|].
       intros f fi Hf; discriminate Hf. }
  destruct known, (cv_intent_classification (conv h)) as [| | | |s| |];
    try (inversion 1; subst; split;
         [intros f Hf; discriminate Hf | intros f fi Hf; discriminate Hf]).
  simpl in Hknown. inversion Hknown as [Hmem]. inversion 1; subst. split.
  - intros f Hf _. injection Hf as <-. exact Hmem.
  - intros f fi Hf Hne Hget. injection Hf as <-.
    rewrite Hget, Hne, Hmem. reflexivity.
Qed.



(** ** Validation on the two extraction paths *)

Lemma dict_set_in {V} (k k' : string) (v v' : V) (d : dict V) :
  In (k, v) (Dict.set k' v' d) -> (k = k' /\ v = v') \/ In (k, v) d.
Proof.
  induction d as [|[k0 v0] d IH]; simpl.
  - intros [H|[]]. inversion H. now left.
  - destruct (String.eqb k' k0); simpl.
    + intros [H|H]; [inversion H; now left | right; now right].
    + intros [H|H]; [right; now left|].
      destruct (IH H) as [Heq|Hin]; [now left | right; now right].
Qed.

Lemma dict_get_set {V} (k k' : string) (v : V) (d : dict V) :
  Dict.get k (Dict.set k' v d)
  = if String.eqb k k' then Some v else Dict.get k d.
Proof.
  induction d as [|[k0 v0] d IH]; simpl.
  - now destruct (String.eqb k k').
  - destruct (String.eqb k' k0) eqn:H0; simpl.
    + apply String.eqb_eq in H0. subst k0.
      now destruct (String.eqb k k').
    + destruct (String.eqb k k0) eqn:H1.
      * apply String.eqb_eq in H1. subst k0.
        rewrite String.eqb_sym in H0. now rewrite H0.
      * exact IH.
Qed.

Section ValidationFacts.
Variable L : PyLib.
Variable W : World.
Variable form_schemas : dict FormInfo.

Local Abbreviation passes := passes_rule.

Lemma validated_fields_sound result rules names :
  forall acc,
    (forall k v, In (k, v) acc -> passes rules k v) ->
    forall k v,
      In (k, v) (validated_fields L result rules names acc) ->
      passes rules k v.
Proof.
  induction names as [|name rest IH]; intros acc Hacc k v; simpl.
  - apply Hacc.
  - apply IH. intros k0 v0.
    match goal with
    | |- context [if ?c then _ else _] => destruct c eqn:Hok
    end; [|apply Hacc].
    intros Hin. apply dict_set_in in Hin as [[-> ->]|Hin]; [|now apply Hacc].
    apply andb_prop in Hok as [_ Hvalid]. exact Hvalid.
Qed.

(** Every entry of the map the multi-field extraction returns has
    passed [_validate_field_value]. *)
Lemma _extract_multiple_fields_sound message names form collected h d h' :
  _extract_multiple_fields_from_message L W form_schemas message names form
    collected h = (Ok d, h') ->
  forall k v,
    In (k, v) d ->
    exists fi,
      Dict.get form form_schemas = Some fi
      /\ passes (fi_validation fi) k v.
Proof.
  unfold _extract_multiple_fields_from_message.
  destruct (negb _ || is_nil names || negb _).
  { inversion 1. intros k v []. }
  destruct (Dict.get form form_schemas) as [fi|].
  2: { inversion 1. intros k v []. }
  unfold bind at 1, _is_client_available, bind at 1, get_agent, ret at 1.
  destruct (negb (if negb (client (agent h)) || api_disabled (agent h)
                  then false else true)).
  { inversion 1. intros k v []. }
  unfold try_except, bind at 1, create_completion.
  destruct (provider W (calls h)) as [msg|answer].
  { unfold bind, ret.
    destruct (_mark_api_failure msg _) as [[[]|e] h1]; inversion 1.
    intros k v []. }
  destruct (negb (opt_truthy answer)).
  { inversion 1. intros k v []. }
  destruct (_extract_json_from_text L _) as [| | | | | |[|[k0 v0] result]];
    try (inversion 1; intros k v []).
  unfold ret. inversion 1. intros k v Hin. exists fi. split; [reflexivity|].
  eapply validated_fields_sound; [|eassumption]. intros ? ? [].
Qed.

Lemma commit_fields_get extracted allowed :
  forall collected completed k x,
    Dict.get k (fst (commit_fields extracted allowed collected completed))
    = Some x ->
    Dict.get k collected = Some x
    \/ exists v, x = PStr v /\ In (k, v) extracted.
Proof.
  induction extracted as [|[name value] rest IH];
    intros collected completed k x; simpl.
  - now left.
  - destruct (Str.nonempty value && Str.mem name allowed).
    + intros H. apply IH in H as [H|(v & -> & Hin)].
      * rewrite dict_get_set in H.
        destruct (String.eqb k name) eqn:Hk; [|now left].
        apply String.eqb_eq in Hk. subst name. inversion H.
        right. exists value. split; [reflexivity | now left].
      * right. exists v. split; [reflexivity | now right].
    + intros H. apply IH in H as [H|(v & -> & Hin)]; [now left|].
      right. exists v. split; [reflexivity | now right].
Qed.

(** The multi-field path: whatever the router adds to the collected
    data has passed validation, and a required field that was missing
    stays in the required list unless a value that passes was stored
    for it. *)
Lemma multi_field_path_rejects_invalid st h st' h' f fi :
  current_form st = Some f ->
  Str.nonempty f = true ->
  opt_truthy (current_step st) = false ->
  Dict.get f form_schemas = Some fi ->
  form_router_node L W form_schemas st h = (Ok st', h') ->
  (forall k x,
      Dict.get k (collected_data st') = Some x ->
      Dict.get k (collected_data st) = Some x
      \/ exists v, x = PStr v /\ passes (fi_validation fi) k v)
  /\ (forall k,
         In k (missing_fields (fi_required_fields fi) (collected_data st)) ->
         ~ In k (required_fields st') ->
         exists v,
           Dict.get k (collected_data st') = Some (PStr v)
           /\ passes (fi_validation fi) k v).
Proof.
  intros Hform Hf Hstep Hfi Hrun.
  assert (Hstore : forall k x,
             Dict.get k (collected_data st') = Some x ->
             Dict.get k (collected_data st) = Some x
             \/ exists v, x = PStr v /\ passes (fi_validation fi) k v).
  { revert Hrun. unfold form_router_node.
    replace (match intent st with
             | Some i => if negb (opt_truthy (current_form st))
                         then Dict.get i form_schemas else None
             | None => None
             end) with (@None FormInfo)
      by (rewrite Hform; simpl; rewrite Hf; now destruct (intent st)).
    rewrite Hform, Hf, Hstep, Hfi. change (negb true) with false. cbv beta iota.
    destruct (is_nil (missing_fields _ _)).
    { inversion 1. simpl. intros k x Hk. now left. }
    unfold bind. 
    destruct (_extract_multiple_fields_from_message L W form_schemas _ _ _ _ h)
      as [[extracted|e] h1] eqn:Hex; [|inversion 1].
    destruct (negb (is_nil extracted)).
    2: { inversion 1. simpl. intros k x Hk. now left. }
    destruct (commit_fields extracted _ _ _) as [collected completed] eqn:Hc.
    inversion 1. simpl. intros k x Hk.
    assert (Hk' : Dict.get k (fst (commit_fields extracted
                     (missing_fields (fi_required_fields fi)
                        (collected_data st))
                     (collected_data st)
                     (completed_fields
                        (set_required_fields
                           (missing_fields (fi_required_fields fi)
                              (collected_data st)) st)))) = Some x)
      by (rewrite Hc; exact Hk).
    apply commit_fields_get in Hk' as [Hold|(v & -> & Hin)]; [now left|].
    right. exists v. split; [reflexivity|].
    destruct (_extract_multiple_fields_sound _ _ _ _ _ _ _ Hex k v Hin)
      as (fi' & Hfi' & Hpass).
    rewrite Hfi in Hfi'. now inversion Hfi'; subst. }
  split; [exact Hstore|].
  intros k Hmissing Hgone.
  assert (Hreq : required_fields st'
                 = missing_fields (fi_required_fields fi)
                     (collected_data st')).
  { revert Hrun. unfold form_router_node.
    replace (match intent st with
             | Some i => if negb (opt_truthy (current_form st))
                         then Dict.get i form_schemas else None
             | None => None
             end) with (@None FormInfo)
      by (rewrite Hform; simpl; rewrite Hf; now destruct (intent st)).
    rewrite Hform, Hf, Hstep, Hfi. change (negb true) with false. cbv beta iota.
    destruct (is_nil (missing_fields _ _)).
    { now inversion 1. }
    unfold bind.
    destruct (_extract_multiple_fields_from_message L W form_schemas _ _ _ _ h)
      as [[extracted|e] h1]; [|inversion 1].
    destruct (negb (is_nil extracted)); [|now inversion 1].
    destruct (commit_fields extracted _ _ _) as [collected completed].
    now inversion 1. }
  unfold missing_fields in Hmissing. apply filter_In in Hmissing as [Hin Hwas].
  rewrite Hreq in Hgone. unfold missing_fields in Hgone.
  rewrite filter_In in Hgone.
  destruct (negb (Dict.mem k (collected_data st'))
            || negb (truthy (pyget k (collected_data st')))) eqn:Hnow.
  { contradiction Hgone. now split. }
  apply orb_false_elim in Hnow as [Hmem Htruthy].
  apply negb_false_iff in Hmem, Htruthy.
  unfold Dict.mem in Hmem. unfold pyget in Htruthy.
  destruct (Dict.get k (collected_data st')) as [x|] eqn:Hget;
    [|discriminate].
  destruct (Hstore k x Hget) as [Hold|(v & -> & Hpass)].
  - unfold Dict.mem, pyget in Hwas. rewrite Hold, Htruthy in Hwas.
    discriminate.
  - now exists v.
Qed.

End ValidationFacts.


(** ** The worked example of the purchase form *)

Lemma form_router_node_collects L W form_schemas st h f fi extracted h1 :
  current_form st = Some f ->
  Str.nonempty f = true ->
  opt_truthy (current_step st) = false ->
  Dict.get f form_schemas = Some fi ->
  is_nil (missing_fields (fi_required_fields fi) (collected_data st)) = false ->
  _extract_multiple_fields_from_message L W form_schemas
    (Str.strip (current_message st))
    (missing_fields (fi_required_fields fi) (collected_data st)) f
    (collected_data st) h = (Ok extracted, h1) ->
  form_router_node L W form_schemas st h
  = (Ok (router_commit fi extracted st), h1).
Proof.
  intros Hform Hf Hstep Hfi Hnil Hex.
  unfold form_router_node, router_commit.
  replace (match intent st with
           | Some i => if negb (opt_truthy (current_form st))
                       then Dict.get i form_schemas else None
           | None => None
           end) with (@None FormInfo)
    by (rewrite Hform; simpl; rewrite Hf; now destruct (intent st)).
  rewrite Hform, Hf, Hstep, Hfi. change (negb true) with false.
  cbv beta iota. rewrite Hnil. unfold bind. rewrite Hex.
  destruct (negb (is_nil extracted)); [|reflexivity].
  simpl collected_data. simpl completed_fields.
  now destruct (commit_fields _ _ _ _).
Qed.

(** A turn that continues a form and ends in a question. *)
Lemma graph_invoke_asks L W form_schemas form_questions st h st1 h1 st2 h2 :
  intent_classifier_node L W form_schemas st h = (Ok st1, h1) ->
  next_node st1 = Some "form_flow" ->
  form_router_node L W form_schemas st1 h1 = (Ok st2, h2) ->
  next_node st2 = Some "start_form" ->
  graph_invoke L W form_schemas form_questions st h
  = (Ok (question_generator_node form_schemas form_questions st2), h2).
Proof.
  intros H1 Hn1 H2 Hn2.
  unfold graph_invoke, bind at 1. rewrite H1, Hn1. cbv beta iota.
  unfold after_form_router, bind at 1. rewrite H2, Hn2. reflexivity.
Qed.

(** The wording of the question when exactly one field remains and
    something is already collected: no progress count. *)
Lemma question_generator_node_last_field form_schemas form_questions st
    f last :
  current_form st = Some f ->
  Str.nonempty f = true ->
  required_fields st = [last] ->
  collected_data st <> [] ->
  exists question,
    response (question_generator_node form_schemas form_questions st)
    = Some ("Almost there! " ++ question ++ " (just 1 more field needed)")
    /\ current_step (question_generator_node form_schemas form_questions st)
       = Some last.
Proof.
  intros Hform Hf Hreq Hsome. unfold question_generator_node.
  rewrite Hform, Hreq. simpl opt_truthy. rewrite Hf.
  destruct (collected_data st) as [|entry rest]; [congruence|].
  simpl. eexists. split; reflexivity.
Qed.

Section PurchaseExample.
Variable L : PyLib.
Variable W : World.
Hypothesis Htags : sub_reasoning_tags L jane_reply = jane_reply.
Hypothesis Hloads : json_loads L jane_reply = Some (PDict jane_parsed).
Hypothesis Hprov : provider W 0 = Reply (Some jane_reply).

Local Abbreviation h0 := (heap_of ready_agent (new_conversation "s1" None)).
Local Abbreviation h1 :=
  {| agent := ready_agent; conv := new_conversation "s1" None; calls := 1 |}.

Lemma jane_reply_parses :
  _extract_json_from_text L (_clean_response_for_json L (Str.strip jane_reply))
  = PDict jane_parsed.
Proof.
  replace (Str.strip jane_reply) with jane_reply by (vm_compute; reflexivity).
  unfold _clean_response_for_json.
  replace (negb (Str.nonempty jane_reply)) with false by reflexivity.
  rewrite Htags.
  match goal with
  | |- _extract_json_from_text L ?t = _ =>
      replace t with jane_reply by (vm_compute; reflexivity)
  end.
  unfold _extract_json_from_text.
  replace (negb (Str.nonempty jane_reply)) with false by reflexivity.
  rewrite Hloads. reflexivity.
Qed.

Lemma jane_fields_extracted (collected : dict pyval) :
  _extract_multiple_fields_from_message L W FORM_SCHEMAS jane_message
    ["name"; "email"; "phone"] "car_purchase" collected h0
  = (Ok [("name", "Jane Doe"); ("email", "jane@example.com")], h1).
Proof.
  unfold _extract_multiple_fields_from_message.
  replace (negb (Str.nonempty jane_message)
           || is_nil ["name"; "email"; "phone"]
           || negb (Str.nonempty "car_purchase")) with false by reflexivity.
  replace (Dict.get "car_purchase" FORM_SCHEMAS)
    with (Some (opt_default (Build_FormInfo "" "" "" [] [] [])
                  (Dict.get "car_purchase" FORM_SCHEMAS))) by reflexivity.
  unfold bind at 1.
  replace (_is_client_available h0) with (@Ok bool true, h0) by reflexivity.
  replace (negb true) with false by reflexivity. cbv iota.
  unfold try_except, bind at 1.
  replace (create_completion W h0) with (Ok (Some jane_reply), h1)
    by (unfold create_completion; simpl calls; now rewrite Hprov).
  replace (negb (opt_truthy (Some jane_reply))) with false by reflexivity.
  cbv iota.
  replace (opt_default "" (Some jane_reply)) with jane_reply by reflexivity.
  rewrite jane_reply_parses. unfold jane_parsed, ret. reflexivity.
Qed.

Lemma jane_turn :
  exists st' h',
    graph_invoke L W FORM_SCHEMAS FORM_QUESTIONS
      (purchase_form_open jane_message) h0 = (Ok st', h')
    /\ collected_data st'
       = [("name", PStr "Jane Doe"); ("email", PStr "jane@example.com")]
    /\ required_fields st' = ["phone"]
    /\ current_step st' = Some "phone"
    /\ response st'
       = Some "Almost there! And your phone number for any immediate questions? (just 1 more field needed)".
Proof.
  eexists; eexists. split.
  - eapply graph_invoke_asks.
    + vm_compute; reflexivity.
    + reflexivity.
    + eapply form_router_node_collects;
        [reflexivity | reflexivity | reflexivity | reflexivity
        | reflexivity |].
      apply jane_fields_extracted.
    + vm_compute; reflexivity.
  - vm_compute; repeat split.
Qed.

End PurchaseExample.

(** C5 as stated fails in its last part: with two of three fields
    collected one field remains, and for the last field the question
    generator uses its final-field wording, which carries no
    "n of total completed" marker. *)
Lemma jane_doe_prompt_lacks_progress_marker :
  exists st' h' prompt,
    graph_invoke example_lib (world_of [Reply (Some jane_reply)])
      FORM_SCHEMAS FORM_QUESTIONS (purchase_form_open jane_message)
      (heap_of ready_agent (new_conversation "s1" None)) = (Ok st', h')
    /\ collected_data st'
       = [("name", PStr "Jane Doe"); ("email", PStr "jane@example.com")]
    /\ required_fields st' = ["phone"]
    /\ response st' = Some prompt
    /\ Str.contains "2 of 3 completed" prompt = false.
Proof.
  eexists; eexists; eexists. split; [vm_compute; reflexivity|].
  repeat split.
Qed.

(** C5, amended. Processing the single message
    "my name is Jane Doe, jane@example.com" against the purchase form,
    whose required fields are name, email and phone, from empty
    collected data, when the provider answers the extraction request
    with the name and the e-mail address: the collected data become
    name "Jane Doe" and email "jane@example.com", the required fields
    become phone alone, and the prompt returned asks for the phone
    number in the final-field wording, "Almost there! ... (just 1 more
    field needed)". *)
Theorem jane_doe_example :
  forall (L : PyLib) (W : World),
    sub_reasoning_tags L jane_reply = jane_reply ->
    json_loads L jane_reply = Some (PDict jane_parsed) ->
    provider W 0 = Reply (Some jane_reply) ->
    exists st' h',
      graph_invoke L W FORM_SCHEMAS FORM_QUESTIONS
        (purchase_form_open jane_message)
        (heap_of ready_agent (new_conversation "s1" None)) = (Ok st', h')
      /\ collected_data st'
         = [("name", PStr "Jane Doe"); ("email", PStr "jane@example.com")]
      /\ required_fields st' = ["phone"]
      /\ current_step st' = Some "phone"
      /\ response st'
         = Some "Almost there! And your phone number for any immediate questions? (just 1 more field needed)".
Proof. exact jane_turn. Qed.

Lemma jane_doe_example_witness :
  exists st' h',
    graph_invoke example_lib (world_of [Reply (Some jane_reply)])
      FORM_SCHEMAS FORM_QUESTIONS (purchase_form_open jane_message)
      (heap_of ready_agent (new_conversation "s1" None)) = (Ok st', h')
    /\ collected_data st'
       = [("name", PStr "Jane Doe"); ("email", PStr "jane@example.com")]
    /\ required_fields st' = ["phone"]
    /\ current_step st' = Some "phone"
    /\ response st'
       = Some "Almost there! And your phone number for any immediate questions? (just 1 more field needed)".
Proof.
  apply (jane_doe_example example_lib (world_of [Reply (Some jane_reply)]));
    reflexivity.
Defined.

(** ** The turn endpoint *)

(** The methods of the model keep manual mode off completed
    conversations: only an active conversation can be taken over, and
    completing a conversation ends the takeover. *)
Lemma model_methods_keep_modes_consistent (c : Conversation) :
  mode_consistent c ->
  mode_consistent (mark_completed c)
  /\ mode_consistent (activate_manual_reply c)
  /\ mode_consistent (deactivate_manual_reply c)
  /\ forall sid ip, mode_consistent (new_conversation sid ip).
Proof.
  unfold mode_consistent, mark_completed, activate_manual_reply,
    deactivate_manual_reply.
  intros Hc. repeat split.
  - destruct (cv_status c) eqn:Hstatus; simpl; try discriminate.
    now rewrite Hstatus.
  - destruct (cv_status c) eqn:Hstatus; simpl;
      try (now rewrite Hstatus); discriminate.
  - destruct (cv_status c) eqn:Hstatus; simpl;
      try (now rewrite Hstatus); discriminate.
  - simpl. discriminate.
Qed.




(* ================================================================== *)
(** * Further properties of the code *)

(** ** What a computation leaves alone *)

Section Frames.
Context {X : Type} (f : Heap -> X).

Lemma preserves_ret {A} (a : A) : preserves f (ret a).
Proof. now intros h. Qed.

Lemma preserves_raise {A} (e : string) : preserves f (@raise A e).
Proof. now intros h. Qed.

Lemma preserves_lift {A} (r : Res A) : preserves f (lift r).
Proof. now intros h. Qed.

Lemma preserves_get_agent : preserves f get_agent.
Proof. now intros h. Qed.

Lemma preserves_get_conv : preserves f get_conv.
Proof. now intros h. Qed.

Lemma preserves_bind {A B} (m : M A) (k : A -> M B) :
  preserves f m -> (forall a, preserves f (k a)) -> preserves f (bind m k).
Proof.
  intros Hm Hk h. unfold bind. specialize (Hm h).
  destruct (m h) as [[a|e] h1]; simpl in *; [|exact Hm].
  now rewrite Hk.
Qed.

Lemma preserves_try_except {A} (m : M A) (handler : string -> M A) :
  preserves f m -> (forall e, preserves f (handler e)) ->
  preserves f (try_except m handler).
Proof.
  intros Hm Hk h. unfold try_except. specialize (Hm h).
  destruct (m h) as [[a|e] h1]; simpl in *; [exact Hm|].
  now rewrite Hk.
Qed.

End Frames.

(** Writing the agent and asking the provider leave every reading of
    the conversation object alone. *)
Lemma preserves_put_agent {X} (g : Conversation -> X) (a : Agent) :
  preserves (fun h => g (conv h)) (put_agent a).
Proof. now intros h. Qed.

Lemma preserves_create_completion {X} (g : Conversation -> X) (W : World) :
  preserves (fun h => g (conv h)) (create_completion W).
Proof.
  intros h. unfold create_completion. now destruct (provider W (calls h)).
Qed.

Ltac frame_step :=
  first
    [ apply preserves_ret | apply preserves_raise | apply preserves_lift
    | apply preserves_get_agent | apply preserves_get_conv
    | apply preserves_put_agent | apply preserves_create_completion
    | apply preserves_bind; [|intros ?]
    | apply preserves_try_except; [|intros ?]
    | match goal with
      | |- preserves _ (if ?b then _ else _) => destruct b
      | |- preserves _ (match ?x with _ => _ end) => destruct x
      end ].

(** The four routing tables of the graph as chains of comparisons. *)
Ltac route_eq :=
  repeat (match goal with
          | |- match ?x with _ => _ end = _ => destruct x
          end; try reflexivity).

Lemma route_after_intent_eq {A} (o : option string) (a b c d : A) :
  match o with
  | Some "form_flow" => a
  | Some "general" => b
  | Some "extract_data" => c
  | _ => d
  end
  = match o with
    | Some s => if String.eqb s "form_flow" then a
                else if String.eqb s "general" then b
                else if String.eqb s "extract_data" then c else d
    | None => d
    end.
Proof. route_eq. Qed.

Lemma route_after_form_router_eq {A} (o : option string) (a b c d : A) :
  match o with
  | Some "start_form" => a
  | Some "extract_data" => b
  | Some "validate" => c
  | _ => d
  end
  = match o with
    | Some s => if String.eqb s "start_form" then a
                else if String.eqb s "extract_data" then b
                else if String.eqb s "validate" then c else d
    | None => d
    end.
Proof. route_eq. Qed.

Lemma route_after_extraction_eq {A} (o : option string) (a b c : A) :
  match o with
  | Some "validate" => a
  | Some "complete" => b
  | _ => c
  end
  = match o with
    | Some s => if String.eqb s "validate" then a
                else if String.eqb s "complete" then b else c
    | None => c
    end.
Proof. route_eq. Qed.

Lemma route_after_validation_eq {A} (o : option string) (a b c : A) :
  match o with
  | Some "confirm" => a
  | Some "ask_question" => b
  | _ => c
  end
  = match o with
    | Some s => if String.eqb s "confirm" then a
                else if String.eqb s "ask_question" then b else c
    | None => c
    end.
Proof. route_eq. Qed.

Section AgentFrames.
Variable L : PyLib.
Variable W : World.
Variable form_schemas : dict FormInfo.
Variable form_questions : dict (dict string).
Context {X : Type} (g : Conversation -> X).
Local Abbreviation f := (fun h : Heap => g (conv h)).

Lemma preserves_is_client_available : preserves f _is_client_available.
Proof. unfold _is_client_available. repeat frame_step. Qed.

Lemma preserves_mark_api_failure e : preserves f (_mark_api_failure e).
Proof. unfold _mark_api_failure. repeat frame_step. Qed.

Lemma preserves_reload_api_key : preserves f (reload_api_key W).
Proof. unfold reload_api_key. repeat frame_step. Qed.

Ltac agent_step :=
  first
    [ frame_step
    | apply preserves_is_client_available
    | apply preserves_mark_api_failure
    | apply preserves_reload_api_key ].

Lemma preserves_extract_multiple message names form collected :
  preserves f (_extract_multiple_fields_from_message L W form_schemas
                 message names form collected).
Proof. unfold _extract_multiple_fields_from_message. repeat agent_step. Qed.

Lemma preserves_extract_field_value message name form :
  preserves f (_extract_field_value L W form_schemas message name form).
Proof. unfold _extract_field_value. repeat agent_step. Qed.

Lemma preserves_extract_contact_info message history :
  preserves f (_extract_contact_info L W message history).
Proof. unfold _extract_contact_info. repeat agent_step. Qed.

Lemma preserves_intent_classifier_node st :
  preserves f (intent_classifier_node L W form_schemas st).
Proof.
  unfold intent_classifier_node, classify_with_provider. repeat agent_step.
Qed.

Lemma preserves_form_router_node st :
  preserves f (form_router_node L W form_schemas st).
Proof.
  unfold form_router_node.
  repeat first [apply preserves_extract_multiple | agent_step].
Qed.

Lemma preserves_data_extractor_node st :
  preserves f (data_extractor_node L W form_schemas st).
Proof.
  unfold data_extractor_node.
  repeat first [ apply preserves_extract_multiple
               | apply preserves_extract_field_value | agent_step ].
Qed.

Lemma preserves_validator_node st :
  preserves f (validator_node form_schemas st).
Proof. unfold validator_node. repeat agent_step. Qed.

Lemma preserves_clean_response r : preserves f (_clean_response L r).
Proof. unfold _clean_response. repeat agent_step. Qed.

Lemma preserves_generate_general_response :
  preserves f (_generate_general_response L W).
Proof.
  unfold _generate_general_response.
  repeat first [apply preserves_clean_response | agent_step].
Qed.

Lemma preserves_response_generator_node st :
  preserves f (response_generator_node L W form_schemas st).
Proof.
  unfold response_generator_node.
  repeat first [apply preserves_generate_general_response | agent_step].
Qed.

Lemma preserves_after_validation st :
  preserves f (after_validation L W form_schemas form_questions st).
Proof.
  unfold after_validation. apply preserves_bind.
  - apply preserves_validator_node.
  - intros st1. rewrite route_after_validation_eq.
    repeat first [apply preserves_response_generator_node | frame_step].
Qed.

Lemma preserves_after_extraction st :
  preserves f (after_extraction L W form_schemas form_questions st).
Proof.
  unfold after_extraction. apply preserves_bind.
  - apply preserves_data_extractor_node.
  - intros st1. rewrite route_after_extraction_eq.
    repeat first [ apply preserves_after_validation
                 | apply preserves_response_generator_node | frame_step ].
Qed.

Lemma preserves_after_form_router st :
  preserves f (after_form_router L W form_schemas form_questions st).
Proof.
  unfold after_form_router. apply preserves_bind.
  - apply preserves_form_router_node.
  - intros st1. rewrite route_after_form_router_eq.
    repeat first [ apply preserves_after_extraction
                 | apply preserves_after_validation
                 | apply preserves_response_generator_node | frame_step ].
Qed.

Lemma preserves_graph_invoke st :
  preserves f (graph_invoke L W form_schemas form_questions st).
Proof.
  unfold graph_invoke. apply preserves_bind.
  - apply preserves_intent_classifier_node.
  - intros st1. rewrite route_after_intent_eq.
    repeat first [ apply preserves_after_form_router
                 | apply preserves_after_extraction
                 | apply preserves_response_generator_node | frame_step ].
Qed.

End AgentFrames.

(** ** The conversation object across a turn *)

Section TurnFrames.
Variable L : PyLib.
Variable W : World.
Variable form_schemas : dict FormInfo.
Variable form_questions : dict (dict string).
Local Abbreviation R := (agent_runtime L W form_schemas form_questions).

Lemma preserves_fallback_to_rule_based {X} (g : Conversation -> X)
    message info :
  preserves (fun h => g (conv h))
    (_fallback_to_rule_based L R message info).
Proof.
  unfold _fallback_to_rule_based.
  cbn [get_rule_based_chatbot messages_all agent_runtime].
  repeat frame_step.
Qed.

Lemma preserves_run_pipeline {X} (g : Conversation -> X)
    sid message info form :
  preserves (fun h => g (conv h)) (run_pipeline L R sid message info form).
Proof.
  unfold run_pipeline, reprobe, require_client, answer_from_graph.
  cbn [messages_all reload invoke_graph clean_response agent_runtime].
  repeat first
    [ apply preserves_fallback_to_rule_based
    | apply preserves_graph_invoke
    | apply preserves_reload_api_key
    | apply preserves_is_client_available
    | apply preserves_clean_response
    | frame_step ].
Qed.

Lemma truthy_py_or (x : pyval) : truthy (py_or x (PStr "")) = truthy x.
Proof. unfold py_or. now destruct (truthy x) eqn:Hx. Qed.

Lemma learn_contact_info_fills message h :
  let info :=
    [("name", py_or (cv_user_name (conv h)) (PStr ""));
     ("email", py_or (cv_user_email (conv h)) (PStr ""));
     ("phone", py_or (cv_user_phone (conv h)) (PStr ""))] in
  only_fills_contacts (conv h)
    (conv (snd (learn_contact_info R message info h))).
Proof.
  cbv zeta.
  set (info := [("name", _); ("email", _); ("phone", _)]).
  assert (Hrefl : only_fills_contacts (conv h) (conv h)).
  { unfold only_fills_contacts, filled_or_kept. repeat split; now left. }
  unfold learn_contact_info, try_except at 1.
  destruct (negb (truthy (pyget "name" info))
            || negb (truthy (pyget "phone" info))
            || negb (truthy (pyget "email" info))); [|exact Hrefl].
  cbn [messages_all extract_contact_info conversation_save agent_runtime].
  unfold bind at 1.
  destruct (try_except (lift (stored_messages W)) (fun _ => ret []) h)
    as [[history|e] h1] eqn:Hhist.
  2: { unfold try_except, lift, ret in Hhist.
       destruct (stored_messages W); discriminate. }
  assert (Hh1 : h1 = h).
  { unfold try_except, lift, ret in Hhist.
    destruct (stored_messages W); now inversion Hhist. }
  subst h1. unfold bind at 1.
  pose proof (preserves_try_except (fun h => conv h)
                (_extract_contact_info L W message history)
                (fun _ => ret [])
                (preserves_extract_contact_info L W (fun c => c) message
                   history)
                (fun e => preserves_ret _ _) h) as Hconv.
  destruct (try_except (_extract_contact_info L W message history)
              (fun _ => ret []) h) as [[found|e] h2] eqn:Hfound.
  2: { unfold try_except in Hfound.
       destruct (_extract_contact_info L W message history h)
         as [[x|x] y]; discriminate. }
  simpl in Hconv.
  unfold bind at 1, get_conv. unfold bind at 1, put_conv.
  set (c' := {| cv_session_id := _ |}).
  assert (Hfill : only_fills_contacts (conv h) c').
  { subst c'. rewrite Hconv.
    unfold only_fills_contacts, filled_or_kept. cbn.
    repeat split; try reflexivity.
    - rewrite truthy_py_or.
      destruct (truthy (pyget "email" found)) eqn:Hf; [|now left].
      destruct (truthy (cv_user_email (conv h))) eqn:Ho; [now left|].
      right. now split.
    - rewrite truthy_py_or.
      destruct (truthy (pyget "name" found)) eqn:Hf; [|now left].
      destruct (truthy (cv_user_name (conv h))) eqn:Ho; [now left|].
      right. now split.
    - rewrite truthy_py_or.
      destruct (truthy (pyget "phone" found)) eqn:Hf; [|now left].
      destruct (truthy (cv_user_phone (conv h))) eqn:Ho; [now left|].
      right. now split. }
  unfold bind, try_except, lift, ret.
  destruct (negb (is_nil found)); [destruct (save_result W)|]; exact Hfill.
Qed.

Lemma agent_process_message_fills sid message h :
  only_fills_contacts (conv h)
    (conv (snd (agent_process_message L W form_schemas form_questions
                  sid message h))).
Proof.
  unfold agent_process_message, process_message, bind at 1, get_conv.
  unfold bind at 1.
  destruct (read_form_state_returns form_schemas h) as (form & ->).
  unfold bind at 1.
  pose proof (learn_contact_info_fills message h) as Hfill.
  cbv zeta in Hfill.
  set (info0 := [("name", _); ("email", _); ("phone", _)]) in *.
  destruct (learn_contact_info R message info0 h) as [[info|e] h1] eqn:Hlearn.
  2: { exact Hfill. }
  simpl in Hfill.
  rewrite (preserves_try_except (fun h => conv h) _ _
             (preserves_run_pipeline (fun c => c) sid message info form)
             (fun e => preserves_ret _ _) h1).
  exact Hfill.
Qed.

End TurnFrames.


(** ** The stored conversations across a request *)

Lemma find_conversation_sid sid rows c :
  find_conversation sid rows = Some c -> cv_session_id c = sid.
Proof.
  induction rows as [|r rest IH]; simpl; [discriminate|].
  destruct (String.eqb (cv_session_id r) sid) eqn:E; [|exact IH].
  intros H. injection H as <-. now apply String.eqb_eq.
Qed.

Lemma find_save_conversation s c rows :
  find_conversation s (save_conversation c rows)
  = if String.eqb (cv_session_id c) s then Some c
    else find_conversation s rows.
Proof.
  induction rows as [|r rest IH]; simpl.
  - reflexivity.
  - destruct (String.eqb (cv_session_id r) (cv_session_id c)) eqn:Erc; simpl.
    + apply String.eqb_eq in Erc. rewrite Erc.
      now destruct (String.eqb (cv_session_id c) s).
    + rewrite IH.
      destruct (String.eqb (cv_session_id r) s) eqn:Ers;
        destruct (String.eqb (cv_session_id c) s) eqn:Ecs; try reflexivity.
      apply String.eqb_eq in Ers, Ecs. rewrite <- Ecs in Ers.
      rewrite Ers, String.eqb_refl in Erc. discriminate.
Qed.

Lemma record_grows_refl c : record_grows c c.
Proof. unfold record_grows. repeat split; auto. Qed.

Lemma record_grows_trans c1 c2 c3 :
  record_grows c1 c2 -> record_grows c2 c3 -> record_grows c1 c3.
Proof.
  unfold record_grows.
  intros (S1 & T1 & M1 & I1 & E1 & N1 & P1 & L1 & D1)
         (S2 & T2 & M2 & I2 & E2 & N2 & P2 & L2 & D2).
  repeat split; try congruence; auto; intros H;
    first [ rewrite I2; [auto|]; rewrite I1; now auto
          | rewrite E2; [auto|]; rewrite E1; now auto
          | rewrite N2; [auto|]; rewrite N1; now auto
          | rewrite P2; [auto|]; rewrite P1; now auto ].
Qed.

Lemma only_fills_contacts_grows c c' :
  only_fills_contacts c c' -> record_grows c c'.
Proof.
  unfold only_fills_contacts, record_grows, filled_or_kept.
  intros (S1 & I1 & L1 & T1 & M1 & D1 & _ & _ & E1 & N1 & P1).
  repeat split; try congruence.
  - intros H. destruct E1 as [E1|[E1 _]]; congruence.
  - intros H. destruct N1 as [N1|[N1 _]]; congruence.
  - intros H. destruct P1 as [P1|[P1 _]]; congruence.
Qed.

Lemma dict_mem_set {V} (k k' : string) (v : V) (d : dict V) :
  Dict.mem k d = true -> Dict.mem k (Dict.set k' v d) = true.
Proof.
  unfold Dict.mem. induction d as [|[k0 v0] r IH]; simpl; [discriminate|].
  destruct (String.eqb k' k0) eqn:E'; simpl.
  - apply String.eqb_eq in E'. subst k0.
    destruct (String.eqb k k'); auto.
  - destruct (String.eqb k k0); auto.
Qed.

Lemma dict_mem_update {V} (k : string) (e d : dict V) :
  Dict.mem k d = true -> Dict.mem k (Dict.update e d) = true.
Proof.
  unfold Dict.update. revert d.
  induction e as [|[k' v'] r IH]; simpl; intros d H; [exact H|].
  apply IH. now apply dict_mem_set.
Qed.

Lemma absorb_response_grows (r : Response) (c : Conversation) :
  record_grows c (absorb_response r c).
Proof.
  unfold record_grows, absorb_response. cbn.
  repeat split; auto.
  - intros H. now repeat (rewrite ?H, ?andb_false_r; cbn [negb]).
  - intros H. now repeat (rewrite ?H, ?andb_false_r; cbn [negb]).
  - intros H. now repeat (rewrite ?H, ?andb_false_r; cbn [negb]).
  - intros H. rewrite H. now destruct (_ || _).
  - intros k. apply dict_mem_update.
Qed.

Lemma ip_update_grows c ip :
  opt_truthy (cv_ip_address c) = false ->
  record_grows c
    {| cv_session_id := cv_session_id c;
       cv_user_email := cv_user_email c;
       cv_user_name := cv_user_name c;
       cv_user_phone := cv_user_phone c;
       cv_ip_address := ip;
       cv_is_lead := cv_is_lead c;
       cv_status := cv_status c;
       cv_manual_reply_active := cv_manual_reply_active c;
       cv_collected_data := cv_collected_data c;
       cv_intent_classification := cv_intent_classification c;
       cv_confidence_score := cv_confidence_score c |}.
Proof.
  intros Hip. unfold record_grows. cbn. repeat split; auto.
  rewrite Hip. discriminate.
Qed.

Section EndpointFacts.
Variable L : PyLib.
Variable W : World.
Variable form_schemas : dict FormInfo.
Variable form_questions : dict (dict string).

(** The call of the agent from the endpoint: an answer that is not
    empty, the conversation object with at most contact fields filled,
    and the tables as they were. *)
Lemma call_agent_spec sid message c site :
  exists r c' site',
    call_agent L W form_schemas form_questions sid message c site
    = (r, c', site')
    /\ only_fills_contacts c c'
    /\ r_message r <> ""
    /\ conversations site' = conversations site
    /\ message_rows site' = message_rows site
    /\ next_message_id site' = next_message_id site
    /\ agent_turns site' = S (agent_turns site).
Proof.
  unfold call_agent.
  set (h := {| agent := site_agent site; conv := c;
               calls := site_calls site |}).
  pose proof (agent_process_message_fills L W form_schemas form_questions
                sid message h) as Hfill.
  destruct (process_message_returns L form_schemas
              (agent_runtime L W form_schemas form_questions) sid message h)
    as (r & h' & info & Hrun & Hne & _).
  unfold agent_process_message in *. rewrite Hrun in *.
  subst h. simpl in Hfill.
  eexists; eexists; eexists. split; [reflexivity|].
  split; [exact Hfill|]. split; [exact Hne|]. repeat split.
Qed.

Lemma chatbot_message_grows request site s c :
  find_conversation s (conversations site) = Some c ->
  exists c',
    find_conversation s
      (conversations
         (snd (chatbot_message L W form_schemas form_questions request site)))
    = Some c'
    /\ record_grows c c'
    /\ (s <> q_session_id request -> c' = c).
Proof.
  intros Hs.
  unfold chatbot_message.
  destruct (negb (Str.nonempty (Str.strip (q_message request)))
            || negb (Str.nonempty (q_session_id request))).
  { exists c. simpl. split; [exact Hs|].
    split; [apply record_grows_refl|auto]. }
  set (sid := q_session_id request).
  set (ip := match q_forwarded_for request with Some x => _ | None => _ end).
  set (text := Str.strip (q_message request)).
  (* get_or_create *)
  set (p1 := match find_conversation sid (conversations site) with
             | Some c0 => _ | None => _ end).
  assert (F1 : cv_session_id (fst p1) = sid
               /\ find_conversation s (conversations (snd p1))
                  = (if String.eqb sid s then Some (fst p1) else Some c)
               /\ (String.eqb sid s = true -> fst p1 = c)).
  { subst p1.
    destruct (find_conversation sid (conversations site)) as [c0|] eqn:Hfind;
      simpl.
    - split;
        [now apply find_conversation_sid with (rows := conversations site)|].
      destruct (String.eqb sid s) eqn:Es.
      + apply String.eqb_eq in Es. subst s. rewrite Hs in Hfind.
        injection Hfind as ->. now repeat split.
      + split; [exact Hs|discriminate].
    - split; [reflexivity|].
      destruct (String.eqb sid s) eqn:Es.
      + apply String.eqb_eq in Es. subst s. rewrite Hs in Hfind.
        discriminate.
      + rewrite find_save_conversation. simpl. rewrite Es.
        split; [exact Hs|discriminate]. }
  destruct p1 as [c1 site1]. simpl in F1. destruct F1 as (S1 & F1 & E1).
  cbv beta iota.
  (* the address *)
  set (p2 := if negb (opt_truthy (cv_ip_address c1)) then _ else _).
  assert (F2 : cv_session_id (fst p2) = sid
               /\ find_conversation s (conversations (snd p2))
                  = (if String.eqb sid s then Some (fst p2) else Some c)
               /\ (String.eqb sid s = true -> record_grows c (fst p2))).
  { subst p2.
    destruct (negb (opt_truthy (cv_ip_address c1))) eqn:Hip; simpl.
    - split; [exact S1|]. rewrite find_save_conversation.
      cbn [cv_session_id]. rewrite S1 at 1.
      destruct (String.eqb sid s) eqn:Es.
      + split; [reflexivity|]. intros _. rewrite <- (E1 eq_refl).
        apply ip_update_grows. now apply negb_true_iff.
      + split; [|discriminate]. exact F1.
    - split; [exact S1|]. split; [exact F1|].
      intros Es. rewrite <- (E1 Es). apply record_grows_refl. }
  destruct p2 as [c2 site2]. simpl in F2. destruct F2 as (S2 & F2 & G2).
  clear c1 site1 S1 F1 E1. cbv beta iota.
  assert (Hno : s <> sid -> String.eqb sid s = false).
  { intros Hne. apply String.eqb_neq. congruence. }
  destruct (is_completed (cv_status c2)).
  { simpl. rewrite F2. destruct (String.eqb sid s) eqn:Es.
    - exists c2. split; [reflexivity|]. split; [auto|].
      intros Hne. now specialize (Hno Hne).
    - exists c. split; [reflexivity|].
      split; [apply record_grows_refl|auto]. }
  unfold create_message at 1. cbv beta iota zeta.
  destruct (cv_manual_reply_active c2).
  { simpl. rewrite find_save_conversation, S2, F2.
    destruct (String.eqb sid s) eqn:Es.
    - exists c2. split; [reflexivity|]. split; [auto|].
      intros Hne. now specialize (Hno Hne).
    - exists c. split; [reflexivity|].
      split; [apply record_grows_refl|auto]. }
  match goal with
  | |- context [call_agent L W form_schemas form_questions sid text c2 ?st] =>
      destruct (call_agent_spec sid text c2 st)
        as (r & c3 & site3 & -> & Hfill & _ & Hconv & _)
  end.
  cbv beta iota. unfold create_message. cbv beta iota zeta. simpl.
  rewrite find_save_conversation, Hconv. simpl.
  rewrite find_save_conversation, S2, F2.
  assert (S3 : cv_session_id c3 = sid).
  { destruct Hfill as (-> & _). exact S2. }
  rewrite S3.
  destruct (String.eqb sid s) eqn:Es.
  - eexists. split; [reflexivity|]. split.
    + apply record_grows_trans with (c2 := c2); [auto|].
      apply record_grows_trans with (c2 := c3).
      * now apply only_fills_contacts_grows.
      * apply absorb_response_grows.
    + intros Hne. now specialize (Hno Hne).
  - exists c. split; [reflexivity|].
    split; [apply record_grows_refl|auto].
Qed.

End EndpointFacts.

(** X2. A request to the turn endpoint, whatever it is and however the
    agent fares, never loses what is stored: every conversation found
    before is found after, with the same session, status and manual
    mode; an address, a name, an e-mail address, a phone number or the
    lead mark it had is still there; no key of its collected data is
    gone; and the conversation of any other session than the
    request's is untouched. *)
Theorem turn_only_adds_to_the_record :
  forall (L : PyLib) (W : World) (form_schemas : dict FormInfo)
         (form_questions : dict (dict string)) (request : Request)
         (site : Site) (s : string) (c : Conversation),
    find_conversation s (conversations site) = Some c ->
    exists c',
      find_conversation s
        (conversations
           (snd (chatbot_message L W form_schemas form_questions
                   request site)))
      = Some c'
      /\ record_grows c c'
      /\ (s <> q_session_id request -> c' = c).
Proof. intros. now apply chatbot_message_grows. Qed.

Lemma turn_only_adds_to_the_record_witness :
  exists c',
    find_conversation "s2"
      (conversations
         (snd (chatbot_message example_lib keyless_world FORM_SCHEMAS
                 FORM_QUESTIONS visitor_request busy_site)))
    = Some c'
    /\ record_grows returning_visitor c'
    /\ ("s2" <> q_session_id visitor_request -> c' = returning_visitor).
Proof.
  apply (turn_only_adds_to_the_record example_lib keyless_world FORM_SCHEMAS
           FORM_QUESTIONS visitor_request busy_site "s2" returning_visitor).
  reflexivity.
Defined.

(* ================================================================== *)
(** ** Strings and numerals *)

Lemma append_nil_r (s : string) : s ++ "" = s.
Proof. induction s as [|c r IH]; simpl; [reflexivity|now rewrite IH]. Qed.

Lemma append_assoc (a b c : string) : (a ++ b) ++ c = a ++ (b ++ c).
Proof. induction a as [|x r IH]; simpl; [reflexivity|now rewrite IH]. Qed.

Lemma length_append (a b : string) :
  String.length (a ++ b) = String.length a + String.length b.
Proof. induction a as [|c r IH]; simpl; [reflexivity|now rewrite IH]. Qed.

Lemma rev_acc_rev_acc (s a b : string) :
  Str.rev_acc (Str.rev_acc s a) b = Str.rev_acc a (s ++ b).
Proof.
  revert a b. induction s as [|c r IH]; intros a b; simpl.
  - reflexivity.
  - now rewrite IH.
Qed.

Lemma rev_rev_acc_nil (k : string) : Str.rev (Str.rev_acc k "") = k.
Proof.
  unfold Str.rev. rewrite rev_acc_rev_acc. simpl. apply append_nil_r.
Qed.

Lemma forallb_append (p : ascii -> bool) (a b : string) :
  Str.forallb p (a ++ b) = Str.forallb p a && Str.forallb p b.
Proof.
  induction a as [|c r IH]; simpl; [reflexivity|].
  now rewrite IH, andb_assoc.
Qed.

Lemma forallb_rev_acc (p : ascii -> bool) (s a : string) :
  Str.forallb p (Str.rev_acc s a) = Str.forallb p s && Str.forallb p a.
Proof.
  revert a. induction s as [|c r IH]; intros a; simpl.
  - reflexivity.
  - rewrite IH. simpl. destruct (p c), (Str.forallb p r); reflexivity.
Qed.

Lemma forallb_lstrip (p : ascii -> bool) (s : string) :
  Str.forallb p s = true -> Str.forallb p (Str.lstrip s) = true.
Proof.
  induction s as [|c r IH]; simpl; [auto|].
  intros H. destruct (Str.is_space c); [|exact H].
  apply andb_prop in H as [_ Hr]. auto.
Qed.

Lemma forallb_strip (p : ascii -> bool) (s : string) :
  Str.forallb p s = true -> Str.forallb p (Str.strip s) = true.
Proof.
  intros H. unfold Str.strip, Str.rstrip, Str.rev.
  rewrite forallb_rev_acc, andb_true_r. apply forallb_lstrip.
  rewrite forallb_rev_acc, andb_true_r. now apply forallb_lstrip.
Qed.

Lemma rev_involutive (s : string) : Str.rev (Str.rev s) = s.
Proof. unfold Str.rev. rewrite rev_acc_rev_acc. simpl. apply append_nil_r. Qed.

Lemma lstrip_no_space (s : string) :
  Str.forallb (fun c => negb (Str.is_space c)) s = true -> Str.lstrip s = s.
Proof.
  destruct s as [|c r]; simpl; [reflexivity|].
  intros H. apply andb_prop in H as [Hc _].
  now destruct (Str.is_space c).
Qed.

(** A string with no white space in it is its own [strip]. *)
Lemma strip_no_space (s : string) :
  Str.forallb (fun c => negb (Str.is_space c)) s = true -> Str.strip s = s.
Proof.
  intros H. unfold Str.strip, Str.rstrip.
  rewrite (lstrip_no_space s H), lstrip_no_space.
  - apply rev_involutive.
  - unfold Str.rev. rewrite forallb_rev_acc, H. reflexivity.
Qed.

Lemma lower_char_idempotent (c : ascii) :
  Str.lower_char (Str.lower_char c) = Str.lower_char c.
Proof. destruct c as [[] [] [] [] [] [] [] []]; reflexivity. Qed.

Lemma lower_idempotent (s : string) : Str.lower (Str.lower s) = Str.lower s.
Proof.
  induction s as [|c r IH]; simpl; [reflexivity|].
  now rewrite IH, lower_char_idempotent.
Qed.

Lemma lower_char_comma (c : ascii) :
  Ascii.eqb (Str.lower_char c) ","%char = Ascii.eqb c ","%char.
Proof. destruct c as [[] [] [] [] [] [] [] []]; reflexivity. Qed.

Lemma lower_keeps_commas_out (s : string) :
  Str.forallb (fun c => negb (Ascii.eqb c ","%char)) (Str.lower s)
  = Str.forallb (fun c => negb (Ascii.eqb c ","%char)) s.
Proof.
  induction s as [|c r IH]; simpl; [reflexivity|].
  now rewrite IH, lower_char_comma.
Qed.

Lemma lower_nonempty (s : string) : Str.nonempty (Str.lower s) = Str.nonempty s.
Proof. now destruct s. Qed.

Lemma lower_append (a b : string) :
  Str.lower (a ++ b) = Str.lower a ++ Str.lower b.
Proof. induction a as [|c r IH]; simpl; [reflexivity|now rewrite IH]. Qed.

Lemma contains_append_r (needle a b : string) :
  Str.contains needle b = true -> Str.contains needle (a ++ b) = true.
Proof.
  intros H. induction a as [|c r IH]; simpl; [exact H|].
  rewrite IH. apply orb_true_r.
Qed.

Lemma substring_prefix (mid post : string) :
  String.substring 0 (String.length mid) (mid ++ post) = mid.
Proof.
  induction mid as [|c r IH]; simpl.
  - now destruct post.
  - now rewrite IH.
Qed.

Lemma substring_middle (pre mid post : string) :
  String.substring (String.length pre) (String.length mid)
    (pre ++ mid ++ post) = mid.
Proof.
  induction pre as [|c r IH]; simpl; [apply substring_prefix|exact IH].
Qed.

Lemma int_digits_string_of_uint (d : Decimal.uint) (acc : nat) :
  int_digits (NilEmpty.string_of_uint d) (Z.of_nat acc) true
  = Some (Z.of_nat (Nat.of_uint_acc d acc)).
Proof.
  revert acc.
  induction d; intros acc;
    cbn -[Z.mul Z.add Z.of_nat Nat.mul Nat.tail_mul];
    try reflexivity;
    rewrite Nat.tail_mul_spec;
    match goal with
    | |- (if ?b then _ else _) = _ => replace b with true by reflexivity
    end;
    match goal with
    | |- int_digits _ ?z true = Some (Z.of_nat (Nat.of_uint_acc _ ?n)) =>
        replace z with (Z.of_nat n)
          by (unfold digit_val; cbn -[Z.mul Z.add Z.of_nat Nat.mul]; lia)
    end; apply IHd.
Qed.

Lemma to_uint_nonnil (n : nat) : Nat.to_uint n <> Decimal.Nil.
Proof.
  rewrite <- (Unsigned.of_to n) at 1. rewrite Unsigned.to_of.
  apply unorm_nonnil.
Qed.

Lemma string_of_uint_digits (d : Decimal.uint) :
  Str.forallb Str.is_digit (NilEmpty.string_of_uint d) = true.
Proof. induction d; simpl; auto. Qed.

Lemma digit_not_space (c : ascii) :
  Str.is_digit c = true -> Str.is_space c = false.
Proof.
  unfold Str.is_digit, Str.is_space. intros H.
  apply andb_prop in H as [H1 H2]. apply Nat.leb_le in H1, H2.
  apply orb_false_iff. split; apply andb_false_iff.
  - right. apply Nat.leb_gt. lia.
  - right. apply Nat.leb_gt. lia.
Qed.

Lemma digits_no_space (s : string) :
  Str.forallb Str.is_digit s = true ->
  Str.forallb (fun c => negb (Str.is_space c)) s = true.
Proof.
  induction s as [|c r IH]; simpl; [reflexivity|].
  intros H. apply andb_prop in H as [Hc Hr].
  now rewrite (IH Hr), (digit_not_space c Hc).
Qed.

(** [int(str(n))] is [n]. *)
Lemma py_int_str_of_nat (n : nat) : py_int (str_of_nat n) = Some (Z.of_nat n).
Proof.
  unfold py_int, str_of_nat, NilZero.string_of_uint.
  pose proof (to_uint_nonnil n) as Hnil.
  pose proof (Unsigned.of_to n) as Hback. unfold Nat.of_uint in Hback.
  pose proof (int_digits_string_of_uint (Nat.to_uint n) 0) as Hd.
  rewrite Hback in Hd.
  pose proof (string_of_uint_digits (Nat.to_uint n)) as Hall.
  destruct (Nat.to_uint n) as [|d|d|d|d|d|d|d|d|d|d]; [contradiction|..];
    rewrite (strip_no_space _ (digits_no_space _ Hall));
    simpl in *; exact Hd.
Qed.

(* ================================================================== *)
(** ** The message log across a request *)

Lemma latest_assistant_last sid rows row found :
  msg_conversation row = sid ->
  message_type row = "assistant" ->
  latest_assistant sid (rows ++ [row]) found = Some (msg_id row).
Proof.
  intros Hc Ht. revert found.
  induction rows as [|r rest IH]; intros found; simpl.
  - now rewrite Hc, Ht, String.eqb_refl.
  - apply IH.
Qed.

Lemma same_log_refl site : same_log site site.
Proof. now repeat split. Qed.

Lemma same_log_store c site : same_log site (store_conversation c site).
Proof. now repeat split. Qed.

(** [get_or_create] *)
Lemma create_stage sid ip site :
  let p :=
    match find_conversation sid (conversations site) with
    | Some c0 => (c0, site)
    | None =>
        (new_conversation sid ip,
         store_conversation (new_conversation sid ip) site)
    end in
  cv_session_id (fst p) = sid
  /\ (cv_status (fst p), cv_manual_reply_active (fst p)) = mode_of sid site
  /\ same_log site (snd p).
Proof.
  cbv zeta. unfold mode_of.
  destruct (find_conversation sid (conversations site)) as [c0|] eqn:Hfind;
    simpl.
  - split; [now apply find_conversation_sid with (rows := conversations site)|].
    split; [reflexivity|apply same_log_refl].
  - split; [reflexivity|]. split; [reflexivity|apply same_log_store].
Qed.

(** The address is filled in when the record has none. *)
Lemma address_stage c1 site1 ip :
  let p :=
    if negb (opt_truthy (cv_ip_address c1)) then
      ({| cv_session_id := cv_session_id c1;
          cv_user_email := cv_user_email c1;
          cv_user_name := cv_user_name c1;
          cv_user_phone := cv_user_phone c1;
          cv_ip_address := ip;
          cv_is_lead := cv_is_lead c1;
          cv_status := cv_status c1;
          cv_manual_reply_active := cv_manual_reply_active c1;
          cv_collected_data := cv_collected_data c1;
          cv_intent_classification := cv_intent_classification c1;
          cv_confidence_score := cv_confidence_score c1 |},
       store_conversation
         {| cv_session_id := cv_session_id c1;
            cv_user_email := cv_user_email c1;
            cv_user_name := cv_user_name c1;
            cv_user_phone := cv_user_phone c1;
            cv_ip_address := ip;
            cv_is_lead := cv_is_lead c1;
            cv_status := cv_status c1;
            cv_manual_reply_active := cv_manual_reply_active c1;
            cv_collected_data := cv_collected_data c1;
            cv_intent_classification := cv_intent_classification c1;
            cv_confidence_score := cv_confidence_score c1 |} site1)
    else (c1, site1) in
  cv_session_id (fst p) = cv_session_id c1
  /\ cv_status (fst p) = cv_status c1
  /\ cv_manual_reply_active (fst p) = cv_manual_reply_active c1
  /\ same_log site1 (snd p).
Proof.
  cbv zeta. destruct (negb (opt_truthy (cv_ip_address c1))); simpl.
  - repeat split.
  - repeat split.
Qed.

Section LogFacts.
Variable L : PyLib.
Variable W : World.
Variable form_schemas : dict FormInfo.
Variable form_questions : dict (dict string).

(** The first two steps of an accepted request leave a conversation
    [c2] of the session and a site [site2] with the same log. *)
Ltac open_conversation request site c2 site2 Hsid Hmode Hlog :=
  unfold chatbot_message;
  let sid := fresh "sid" in
  let ip := fresh "ip" in
  set (sid := q_session_id request) in *;
  set (ip := match q_forwarded_for request with
             | Some x => _ | None => _ end);
  let c1 := fresh "c1" in
  let site1 := fresh "site1" in
  let F := fresh "F" in
  pose proof (create_stage sid ip site) as F; cbv zeta in F;
  destruct (match find_conversation sid (conversations site) with
            | Some c0 => _ | None => _ end) as [c1 site1];
  cbn [fst snd] in F;
  let S1 := fresh "S" in
  let M1 := fresh "M" in
  let L1 := fresh "L" in
  destruct F as (S1 & M1 & L1);
  cbv beta iota;
  let G := fresh "G" in
  pose proof (address_stage c1 site1 ip) as G; cbv zeta in G;
  destruct (if negb (opt_truthy (cv_ip_address c1)) then _ else _)
    as [c2 site2];
  cbn [fst snd] in G;
  let S2 := fresh "S" in
  let T2 := fresh "T" in
  let M2 := fresh "M" in
  let L2 := fresh "L" in
  destruct G as (S2 & T2 & M2 & L2);
  assert (Hsid : cv_session_id c2 = sid) by congruence;
  assert (Hmode : (cv_status c2, cv_manual_reply_active c2)
                  = mode_of sid site) by congruence;
  assert (Hlog : same_log site site2)
    by (destruct L1 as (? & ? & ? & ? & ?);
        destruct L2 as (? & ? & ? & ? & ?);
        repeat split; congruence);
  clear S1 M1 L1 S2 T2 M2 L2;
  cbv beta iota.

Lemma closed_conversation_answer request site :
  Str.strip (q_message request) <> "" ->
  q_session_id request <> "" ->
  fst (mode_of (q_session_id request) site) = Completed ->
  let result :=
    chatbot_message L W form_schemas form_questions request site in
  same_log site (snd result)
  /\ http_status (fst result) = 200
  /\ body_message (fst result)
     = Some "This conversation has ended. Please start a new conversation."
  /\ body_conversation_completed (fst result) = Some true
  /\ body_status (fst result) = Some Completed.
Proof.
  intros Htext Hsid0 Hdone. cbv zeta.
  open_conversation request site c2 site2 Hsid Hmode Hlog.
  rewrite (neq_nonempty _ Htext), (neq_nonempty _ Hsid0).
  cbn [negb orb]. cbv beta iota.
  rewrite <- Hmode in Hdone. cbn [fst] in Hdone. rewrite Hdone.
  cbn [fst snd]. split; [exact Hlog|]. repeat split.
Qed.

Lemma manual_turn request site st :
  Str.strip (q_message request) <> "" ->
  q_session_id request <> "" ->
  mode_of (q_session_id request) site = (st, true) ->
  st <> Completed ->
  let result :=
    chatbot_message L W form_schemas form_questions request site in
  message_rows (snd result)
  = (message_rows site
     ++ [{| msg_id := next_message_id site;
            msg_conversation := q_session_id request;
            message_type := "user";
            content := Str.strip (q_message request);
            response_time_ms := None;
            is_admin_reply := false |}])%list
  /\ next_message_id (snd result) = S (next_message_id site)
  /\ agent_turns (snd result) = agent_turns site.
Proof.
  intros Htext Hsid0 Hmode0 Hopen. cbv zeta.
  open_conversation request site c2 site2 Hsid Hmode Hlog.
  rewrite (neq_nonempty _ Htext), (neq_nonempty _ Hsid0).
  cbn [negb orb]. cbv beta iota.
  rewrite Hmode0 in Hmode. injection Hmode as Hst Hman.
  assert (Hnot : is_completed (cv_status c2) = false).
  { rewrite Hst. now destruct st. }
  rewrite Hnot, Hman. unfold create_message. cbn.
  destruct Hlog as (-> & -> & _ & _ & ->). now repeat split.
Qed.

Lemma auto_turn request site st :
  Str.strip (q_message request) <> "" ->
  q_session_id request <> "" ->
  mode_of (q_session_id request) site = (st, false) ->
  st <> Completed ->
  let result :=
    chatbot_message L W form_schemas form_questions request site in
  exists reply ms,
    reply <> ""
    /\ message_rows (snd result)
       = (message_rows site
          ++ [{| msg_id := next_message_id site;
                 msg_conversation := q_session_id request;
                 message_type := "user";
                 content := Str.strip (q_message request);
                 response_time_ms := None;
                 is_admin_reply := false |};
              {| msg_id := S (next_message_id site);
                 msg_conversation := q_session_id request;
                 message_type := "assistant";
                 content := reply;
                 response_time_ms := Some ms;
                 is_admin_reply := false |}])%list
    /\ next_message_id (snd result) = S (S (next_message_id site))
    /\ agent_turns (snd result) = S (agent_turns site)
    /\ http_status (fst result) = 200
    /\ body_message (fst result) = Some reply
    /\ body_user_message_id (fst result) = Some (next_message_id site)
    /\ body_message_id (fst result) = Some (S (next_message_id site)).
Proof.
  intros Htext Hsid0 Hmode0 Hopen. cbv zeta.
  open_conversation request site c2 site2 Hsid Hmode Hlog.
  rewrite (neq_nonempty _ Htext), (neq_nonempty _ Hsid0).
  cbn [negb orb]. cbv beta iota.
  rewrite Hmode0 in Hmode. injection Hmode as Hst Hman.
  assert (Hnot : is_completed (cv_status c2) = false).
  { rewrite Hst. now destruct st. }
  rewrite Hnot, Hman. unfold create_message. cbv beta iota zeta.
  match goal with
  | |- context [call_agent L W form_schemas form_questions ?a ?b c2 ?s] =>
      destruct (call_agent_spec L W form_schemas form_questions a b c2 s)
        as (r & c3 & site3 & -> & _ & Hne & _ & Hrows & Hnext & Hturns)
  end.
  cbv beta iota. simpl in *.
  destruct Hlog as (Hr2 & Hn2 & _ & _ & Ht2).
  exists (r_message r), (r_response_time_ms r).
  rewrite Hrows, Hnext, Hturns, Hr2, Hn2, Ht2.
  split; [exact Hne|]. split; [now rewrite <- List.app_assoc|].
  repeat split.
  now apply latest_assistant_last.
Qed.

Lemma rejected_request request site :
  Str.strip (q_message request) = "" \/ q_session_id request = "" ->
  let result :=
    chatbot_message L W form_schemas form_questions request site in
  snd result = site /\ http_status (fst result) = 400.
Proof.
  intros Hbad. cbv zeta. unfold chatbot_message.
  assert (Hguard : negb (Str.nonempty (Str.strip (q_message request)))
                   || negb (Str.nonempty (q_session_id request)) = true).
  { destruct Hbad as [-> | ->]; [reflexivity|].
    now destruct (Str.nonempty (Str.strip (q_message request))). }
  rewrite Hguard. now split.
Qed.

Lemma log_appends request site :
  let result :=
    chatbot_message L W form_schemas form_questions request site in
  exists new,
    message_rows (snd result) = (message_rows site ++ new)%list
    /\ next_message_id (snd result)
       = next_message_id site + List.length new
    /\ map msg_id new = seq (next_message_id site) (List.length new)
    /\ Forall (fun m => msg_conversation m = q_session_id request) new
    /\ (map message_type new = []
        \/ map message_type new = ["user"]
        \/ map message_type new = ["user"; "assistant"]).
Proof.
  cbv zeta.
  destruct (string_dec (Str.strip (q_message request)) "") as [Ht|Ht].
  { destruct (rejected_request request site (or_introl Ht)) as (-> & _).
    exists []. rewrite List.app_nil_r, Nat.add_0_r.
    repeat split; [constructor | now left]. }
  destruct (string_dec (q_session_id request) "") as [Hs|Hs].
  { destruct (rejected_request request site (or_intror Hs)) as (-> & _).
    exists []. rewrite List.app_nil_r, Nat.add_0_r.
    repeat split; [constructor | now left]. }
  destruct (mode_of (q_session_id request) site) as [st manual] eqn:Hmode.
  destruct (is_completed st) eqn:Hdone.
  { assert (Hst : fst (mode_of (q_session_id request) site) = Completed).
    { rewrite Hmode. now destruct st. }
    destruct (closed_conversation_answer request site Ht Hs Hst)
      as ((-> & -> & _) & _).
    exists []. rewrite List.app_nil_r, Nat.add_0_r.
    repeat split; [constructor | now left]. }
  assert (Hopen : st <> Completed) by (now destruct st).
  destruct manual.
  - destruct (manual_turn request site st Ht Hs Hmode Hopen)
      as (-> & -> & _).
    eexists. split; [reflexivity|]. cbn.
    rewrite Nat.add_1_r. repeat split;
      [repeat constructor | right; now left].
  - destruct (auto_turn request site st Ht Hs Hmode Hopen)
      as (reply & ms & _ & -> & -> & _).
    eexists. split; [reflexivity|]. cbn.
    replace (next_message_id site + 2) with (S (S (next_message_id site)))
      by lia.
    repeat split; [repeat constructor | right; now right].
Qed.

End LogFacts.

(** X3. The message table is a log the turn endpoint only appends to:
    whatever the request, the rows stored before are still there, in
    place; at most two rows are added, a user message or a user message
    followed by an assistant message; each belongs to the session of
    the request and takes the next free id. *)
Theorem message_log_is_append_only :
  forall (L : PyLib) (W : World) (form_schemas : dict FormInfo)
         (form_questions : dict (dict string)) (request : Request)
         (site : Site),
    exists new,
      message_rows
        (snd (chatbot_message L W form_schemas form_questions request site))
      = (message_rows site ++ new)%list
      /\ next_message_id
           (snd (chatbot_message L W form_schemas form_questions
                   request site))
         = next_message_id site + List.length new
      /\ map msg_id new = seq (next_message_id site) (List.length new)
      /\ Forall (fun m => msg_conversation m = q_session_id request) new
      /\ (map message_type new = []
          \/ map message_type new = ["user"]
          \/ map message_type new = ["user"; "assistant"]).
Proof. intros. apply log_appends. Qed.





(* ================================================================== *)
(** ** The operator's actions and the polling endpoint *)

Lemma insert_by_id_in m x l :
  In x (insert_by_id m l) <-> x = m \/ In x l.
Proof.
  induction l as [|y r IH]; simpl.
  - intuition.
  - destruct (msg_id m <? msg_id y)%nat; simpl; [intuition|].
    rewrite IH. intuition.
Qed.

Lemma order_by_id_in x l : In x (order_by_id l) <-> In x l.
Proof.
  unfold order_by_id. induction l as [|y r IH]; simpl; [reflexivity|].
  rewrite insert_by_id_in, IH. intuition.
Qed.

Lemma insert_by_id_ascending m l :
  ascending l -> ascending (insert_by_id m l).
Proof.
  induction l as [|y r IH]; simpl.
  - intros _. split; [constructor|exact I].
  - intros [Hy Hr]. destruct (msg_id m <? msg_id y)%nat eqn:E; simpl.
    + apply Nat.ltb_lt in E. repeat split; auto.
      constructor; [lia|].
      eapply Forall_impl; [|exact Hy]. simpl. intros; lia.
    + apply Nat.ltb_ge in E. split; [|auto].
      apply Forall_forall. intros x Hx. apply insert_by_id_in in Hx.
      destruct Hx as [->|Hx]; [exact E|].
      rewrite Forall_forall in Hy. auto.
Qed.

Lemma order_by_id_ascending l : ascending (order_by_id l).
Proof.
  unfold order_by_id. induction l as [|y r IH]; simpl; [exact I|].
  now apply insert_by_id_ascending.
Qed.

Lemma filter_ascending p l : ascending l -> ascending (List.filter p l).
Proof.
  induction l as [|y r IH]; simpl; [auto|].
  intros [Hy Hr]. destruct (p y); simpl; [|auto].
  split; [|auto]. apply Forall_forall. intros x Hx.
  apply filter_In in Hx as [Hx _]. rewrite Forall_forall in Hy. auto.
Qed.

Lemma messages_of_in sid site m :
  In m (messages_of sid site)
  <-> In m (message_rows site) /\ msg_conversation m = sid.
Proof.
  unfold messages_of. rewrite order_by_id_in, filter_In.
  now rewrite String.eqb_eq.
Qed.

(** X6. For a session that has a conversation, the polling endpoint
    answers with status 200 and exactly the stored messages of that
    session whose id is greater than [last_message_id], in ascending
    order of id; every message of the session when the parameter is
    absent, empty or not a number. It reports whether that list is
    empty, and the mode and status on record. *)
Theorem poll_returns_the_messages_asked_for :
  forall (request : PollRequest) (site : Site) (sid : string)
         (c : Conversation),
    p_session_id request = Some sid ->
    sid <> "" ->
    find_conversation sid (conversations site) = Some c ->
    exists messages,
      poll_http_status (get_conversation_messages request site) = 200
      /\ poll_messages (get_conversation_messages request site)
         = Some messages
      /\ ascending messages
      /\ (forall m,
             In m messages
             <-> In m (message_rows site)
                 /\ msg_conversation m = sid
                 /\ asked_after (p_last_message_id request) (msg_id m))
      /\ poll_has_new_messages (get_conversation_messages request site)
         = Some (negb (is_nil messages))
      /\ poll_manual_reply_active (get_conversation_messages request site)
         = Some (cv_manual_reply_active c)
      /\ poll_status (get_conversation_messages request site)
         = Some (cv_status c).
Proof.
  intros request site sid c Hsid Hne Hfind.
  unfold get_conversation_messages. rewrite Hsid.
  cbn [opt_truthy opt_default]. rewrite (neq_nonempty _ Hne).
  cbn [negb]. rewrite Hfind. cbn [poll_http_status poll_messages
    poll_has_new_messages poll_manual_reply_active poll_status].
  eexists. split; [reflexivity|]. split; [reflexivity|].
  unfold asked_after, opt_truthy.
  destruct (p_last_message_id request) as [text|].
  - destruct (Str.nonempty text).
    + cbn [opt_default]. destruct (py_int text) as [last_id|].
      * split; [apply filter_ascending, order_by_id_ascending|].
        split; [|now repeat split].
        intros m. rewrite filter_In, messages_of_in, Z.ltb_lt. tauto.
      * split; [apply order_by_id_ascending|].
        split; [|now repeat split].
        intros m. rewrite messages_of_in. tauto.
    + split; [apply order_by_id_ascending|].
      split; [|now repeat split].
      intros m. rewrite messages_of_in. tauto.
  - split; [apply order_by_id_ascending|].
    split; [|now repeat split].
    intros m. rewrite messages_of_in. tauto.
Qed.

Lemma poll_returns_the_messages_asked_for_witness :
  exists messages,
    poll_http_status
      (get_conversation_messages
         {| p_session_id := Some "s2"; p_last_message_id := Some "2" |}
         busy_site) = 200
    /\ poll_messages
         (get_conversation_messages
            {| p_session_id := Some "s2"; p_last_message_id := Some "2" |}
            busy_site) = Some messages
    /\ ascending messages
    /\ (forall m,
           In m messages
           <-> In m (message_rows busy_site)
               /\ msg_conversation m = "s2"
               /\ asked_after (Some "2") (msg_id m))
    /\ poll_has_new_messages
         (get_conversation_messages
            {| p_session_id := Some "s2"; p_last_message_id := Some "2" |}
            busy_site) = Some (negb (is_nil messages))
    /\ poll_manual_reply_active
         (get_conversation_messages
            {| p_session_id := Some "s2"; p_last_message_id := Some "2" |}
            busy_site) = Some false
    /\ poll_status
         (get_conversation_messages
            {| p_session_id := Some "s2"; p_last_message_id := Some "2" |}
            busy_site) = Some Active.
Proof.
  apply (poll_returns_the_messages_asked_for
           {| p_session_id := Some "s2"; p_last_message_id := Some "2" |}
           busy_site "s2" returning_visitor).
  - reflexivity.
  - discriminate.
  - reflexivity.
Defined.

Lemma insert_by_id_last m l row :
  msg_id m < msg_id row ->
  insert_by_id m (l ++ [row]) = (insert_by_id m l ++ [row])%list.
Proof.
  intros Hlt. induction l as [|y r IH]; simpl.
  - apply Nat.ltb_lt in Hlt. now rewrite Hlt.
  - destruct (msg_id m <? msg_id y)%nat; [reflexivity|].
    now rewrite IH.
Qed.

Lemma order_by_id_last l row :
  Forall (fun m => msg_id m < msg_id row) l ->
  order_by_id (l ++ [row]) = (order_by_id l ++ [row])%list.
Proof.
  unfold order_by_id. induction 1 as [|m r Hm Hr IH]; simpl.
  - reflexivity.
  - rewrite IH. now apply insert_by_id_last.
Qed.

Lemma ascending_last l x :
  ascending (l ++ [x]) -> Forall (fun m => msg_id m <= msg_id x) l.
Proof.
  induction l as [|y r IH]; simpl; [constructor|].
  intros [Hy Hr]. constructor; [|auto].
  rewrite Forall_forall in Hy. apply Hy. apply in_or_app. right. now left.
Qed.

(** The id reported as the latest bounds every id of the list. *)
Lemma latest_bounds (l : list ConversationMessage) :
  ascending l ->
  Forall (fun m => msg_id m <= match List.rev l with
                               | newest :: _ => msg_id newest
                               | [] => 0
                               end) l.
Proof.
  destruct l as [|y r] using rev_ind; [constructor|].
  intros Hasc. rewrite List.rev_app_distr. simpl.
  apply Forall_app. split; [now apply ascending_last|].
  constructor; [lia|constructor].
Qed.

Lemma latest_in (l : list ConversationMessage) :
  match List.rev l with
  | newest :: _ => In newest l
  | [] => True
  end.
Proof.
  destruct l as [|y r] using rev_ind; [exact I|].
  rewrite List.rev_app_distr. simpl. apply in_or_app. right. now left.
Qed.

Lemma filter_none_above (l : list ConversationMessage) (n : nat) :
  Forall (fun m => msg_id m <= n) l ->
  List.filter (fun m => (Z.of_nat n <? Z.of_nat (msg_id m))%Z) l = [].
Proof.
  induction 1 as [|m r Hm Hr IH]; simpl; [reflexivity|].
  replace (Z.of_nat n <? Z.of_nat (msg_id m))%Z with false
    by (symmetry; apply Z.ltb_ge; lia).
  exact IH.
Qed.

(** X7. An operator's reply reaches the widget through the polling
    endpoint. On a site whose ids come from an auto-incremented key,
    for a stored, active conversation in manual mode and a reply that
    is not blank: [send_manual_reply] succeeds and stores the stripped
    reply as one admin row with the next id; and a widget that had
    polled before and now polls with the latest id it was told gets
    exactly that row, and is told the conversation is in manual
    mode. *)
Theorem operator_reply_reaches_the_widget :
  forall (site : Site) (c : Conversation) (reply : string) (seen : nat),
    ids_below site ->
    find_conversation (cv_session_id c) (conversations site) = Some c ->
    cv_session_id c <> "" ->
    cv_status c = Active ->
    cv_manual_reply_active c = true ->
    Str.strip reply <> "" ->
    poll_latest_message_id
      (get_conversation_messages
         {| p_session_id := Some (cv_session_id c);
            p_last_message_id := None |} site) = Some seen ->
    let sent := send_manual_reply c reply site in
    let poll :=
      get_conversation_messages
        {| p_session_id := Some (cv_session_id c);
           p_last_message_id := Some (str_of_nat seen) |} (snd sent) in
    a_http_status (fst sent) = 200
    /\ a_message_id (fst sent) = Some (next_message_id site)
    /\ poll_messages poll
       = Some [{| msg_id := next_message_id site;
                  msg_conversation := cv_session_id c;
                  message_type := "admin";
                  content := Str.strip reply;
                  response_time_ms := Some 0%Z;
                  is_admin_reply := true |}]
    /\ poll_has_new_messages poll = Some true
    /\ poll_latest_message_id poll = Some (next_message_id site)
    /\ poll_manual_reply_active poll = Some true.
Proof.
  intros site c reply seen [Hpos Hbelow] Hfind Hsid Hactive Hmanual Hreply.
  set (sid := cv_session_id c) in *.
  unfold get_conversation_messages at 1.
  cbn [p_session_id p_last_message_id opt_truthy opt_default].
  rewrite (neq_nonempty _ Hsid). cbn [negb]. rewrite Hfind.
  cbn [poll_latest_message_id]. intros Hseen.
  apply (f_equal (fun o => match o with Some n => n | None => 0 end))
    in Hseen.
  set (row := {| msg_id := next_message_id site; msg_conversation := sid;
                 message_type := "admin"; content := Str.strip reply;
                 response_time_ms := Some 0%Z; is_admin_reply := true |}).
  set (site' := store_conversation c
                  {| conversations := conversations site;
                     message_rows := (message_rows site ++ [row])%list;
                     next_message_id := S (next_message_id site);
                     site_agent := site_agent site;
                     site_calls := site_calls site;
                     agent_turns := agent_turns site |}).
  assert (Hsent : snd (send_manual_reply c reply site) = site'
                  /\ a_http_status (fst (send_manual_reply c reply site))
                     = 200
                  /\ a_message_id (fst (send_manual_reply c reply site))
                     = Some (next_message_id site)).
  { unfold send_manual_reply.
    rewrite (neq_nonempty _ Hreply), Hactive, Hmanual.
    cbn [negb is_active]. unfold create_row. cbv beta iota zeta.
    now repeat split. }
  destruct Hsent as (Hsite & Hstatus & Hid).
  rewrite Hsite, Hstatus, Hid.
  split; [reflexivity|]. split; [reflexivity|].
  (* the messages of the session, old and new *)
  assert (Hall : messages_of sid site'
                 = (messages_of sid site ++ [row])%list).
  { unfold messages_of, site', store_conversation. cbn [message_rows].
    rewrite filter_app. simpl List.filter at 2.
    rewrite String.eqb_refl. apply order_by_id_last.
    apply Forall_forall. intros m Hm. apply filter_In in Hm as [Hm _].
    rewrite Forall_forall in Hbelow. exact (Hbelow m Hm). }
  pose proof (latest_bounds _ (order_by_id_ascending
                (List.filter (fun m => String.eqb (msg_conversation m) sid)
                   (message_rows site)))) as Hmax.
  fold (messages_of sid site) in Hmax. rewrite Hseen in Hmax.
  assert (Hlt : seen < next_message_id site).
  { pose proof (latest_in (messages_of sid site)) as Hin.
    rewrite <- Hseen.
    destruct (List.rev (messages_of sid site)) as [|newest rest];
      [exact Hpos|].
    apply messages_of_in in Hin as [Hin _].
    rewrite Forall_forall in Hbelow. exact (Hbelow newest Hin). }
  assert (Hdigits : Str.nonempty (str_of_nat seen) = true).
  { unfold str_of_nat, NilZero.string_of_uint.
    pose proof (to_uint_nonnil seen).
    now destruct (Nat.to_uint seen). }
  unfold get_conversation_messages.
  cbn [p_session_id p_last_message_id opt_truthy opt_default].
  rewrite (neq_nonempty _ Hsid). cbn [negb].
  replace (find_conversation sid (conversations site')) with (Some c)
    by (unfold site', store_conversation; cbn [conversations];
        rewrite find_save_conversation; fold sid;
        now rewrite String.eqb_refl).
  rewrite Hdigits, py_int_str_of_nat, Hall, filter_app.
  rewrite (filter_none_above _ _ Hmax). simpl.
  replace (Z.of_nat seen <? Z.of_nat (next_message_id site))%Z with true
    by (symmetry; apply Z.ltb_lt; lia).
  rewrite List.rev_app_distr. simpl. rewrite Hmanual. now repeat split.
Qed.

Lemma operator_reply_reaches_the_widget_witness :
  a_http_status (fst (send_manual_reply taken_over " we are here " manual_site))
  = 200
  /\ a_message_id
       (fst (send_manual_reply taken_over " we are here " manual_site))
     = Some 2
  /\ poll_messages
       (get_conversation_messages
          {| p_session_id := Some "s1";
             p_last_message_id := Some (str_of_nat 1) |}
          (snd (send_manual_reply taken_over " we are here " manual_site)))
     = Some [{| msg_id := 2; msg_conversation := "s1";
                message_type := "admin"; content := "we are here";
                response_time_ms := Some 0%Z; is_admin_reply := true |}]
  /\ poll_has_new_messages
       (get_conversation_messages
          {| p_session_id := Some "s1";
             p_last_message_id := Some (str_of_nat 1) |}
          (snd (send_manual_reply taken_over " we are here " manual_site)))
     = Some true
  /\ poll_latest_message_id
       (get_conversation_messages
          {| p_session_id := Some "s1";
             p_last_message_id := Some (str_of_nat 1) |}
          (snd (send_manual_reply taken_over " we are here " manual_site)))
     = Some 2
  /\ poll_manual_reply_active
       (get_conversation_messages
          {| p_session_id := Some "s1";
             p_last_message_id := Some (str_of_nat 1) |}
          (snd (send_manual_reply taken_over " we are here " manual_site)))
     = Some true.
Proof.
  apply (operator_reply_reaches_the_widget manual_site taken_over
           " we are here " 1).
  - split; [simpl; lia|]. repeat constructor.
  - reflexivity.
  - discriminate.
  - reflexivity.
  - reflexivity.
  - vm_compute. discriminate.
  - reflexivity.
Defined.

(** X8. Toggling manual mode is its own inverse on a stored, active
    conversation: the first call answers with the opposite mode and
    stores it, the second answers with the original mode, and the
    conversation on record is then the one that was there at the start;
    no message is touched. *)
Theorem toggle_manual_reply_twice_restores :
  forall (site : Site) (c : Conversation),
    find_conversation (cv_session_id c) (conversations site) = Some c ->
    cv_status c = Active ->
    let first := toggle_manual_reply c site in
    let c1 := with_mode Active (negb (cv_manual_reply_active c)) c in
    let second := toggle_manual_reply c1 (snd first) in
    a_http_status (fst first) = 200
    /\ a_manual_reply_active (fst first)
       = Some (negb (cv_manual_reply_active c))
    /\ find_conversation (cv_session_id c) (conversations (snd first))
       = Some c1
    /\ a_http_status (fst second) = 200
    /\ a_manual_reply_active (fst second)
       = Some (cv_manual_reply_active c)
    /\ find_conversation (cv_session_id c) (conversations (snd second))
       = Some c
    /\ message_rows (snd second) = message_rows site.
Proof.
  intros site c Hfind Hactive. cbv zeta.
  unfold toggle_manual_reply, activate_manual_reply, deactivate_manual_reply.
  destruct c as [sid email name phone ip lead status manual data intent conf].
  simpl in *. subst status.
  destruct manual; simpl; rewrite ?find_save_conversation; simpl;
    rewrite ?String.eqb_refl; repeat split.
Qed.

Lemma toggle_manual_reply_twice_restores_witness :
  a_http_status (fst (toggle_manual_reply returning_visitor busy_site)) = 200
  /\ a_manual_reply_active
       (fst (toggle_manual_reply returning_visitor busy_site)) = Some true
  /\ find_conversation "s2"
       (conversations (snd (toggle_manual_reply returning_visitor busy_site)))
     = Some (with_mode Active true returning_visitor)
  /\ a_http_status
       (fst (toggle_manual_reply (with_mode Active true returning_visitor)
               (snd (toggle_manual_reply returning_visitor busy_site))))
     = 200
  /\ a_manual_reply_active
       (fst (toggle_manual_reply (with_mode Active true returning_visitor)
               (snd (toggle_manual_reply returning_visitor busy_site))))
     = Some false
  /\ find_conversation "s2"
       (conversations
          (snd (toggle_manual_reply
                  (with_mode Active true returning_visitor)
                  (snd (toggle_manual_reply returning_visitor busy_site)))))
     = Some returning_visitor
  /\ message_rows
       (snd (toggle_manual_reply (with_mode Active true returning_visitor)
               (snd (toggle_manual_reply returning_visitor busy_site))))
     = message_rows busy_site.
Proof.
  apply (toggle_manual_reply_twice_restores busy_site returning_visitor);
    reflexivity.
Defined.

(* ================================================================== *)
(** ** The helpers of the catalog *)

Lemma missing_fields_nil_iff (required : list string) (d : dict pyval) :
  missing_fields required d = []
  <-> List.forallb
        (fun field =>
           negb (negb (Dict.mem field d) || negb (truthy (pyget field d))))
        required = true.
Proof.
  unfold missing_fields. induction required as [|f r IH]; simpl.
  - tauto.
  - destruct (negb (Dict.mem f d) || negb (truthy (pyget f d))); simpl.
    + split; discriminate.
    + exact IH.
Qed.

(** X9. [is_form_complete] of the catalog and the list of missing
    fields the agent's nodes compute agree: a form is complete for some
    collected data exactly when it is in the catalog and none of its
    required fields is missing, that is, absent or empty. *)
Theorem is_form_complete_iff_nothing_missing :
  forall (form_type : string) (collected : dict pyval),
    is_form_complete form_type collected = true
    <-> exists schema,
          Dict.get form_type FORM_SCHEMAS = Some schema
          /\ missing_fields (fi_required_fields schema) collected = [].
Proof.
  intros form_type collected. unfold is_form_complete.
  destruct (Dict.get form_type FORM_SCHEMAS) as [schema|].
  - rewrite <- missing_fields_nil_iff. split.
    + intros H. now exists schema.
    + intros (s & Hs & H). now injection Hs as ->.
  - split; [discriminate|]. intros (s & Hs & _). discriminate.
Qed.

Lemma find_first_open (completed l : list string) :
  match List.find (fun f => negb (Str.mem f completed)) l with
  | Some field =>
      exists before after,
        l = (before ++ field :: after)%list
        /\ Str.mem field completed = false
        /\ Forall (fun f => Str.mem f completed = true) before
  | None => Forall (fun f => Str.mem f completed = true) l
  end.
Proof.
  induction l as [|f r IH]; simpl; [constructor|].
  destruct (Str.mem f completed) eqn:Hf; simpl.
  - destruct (List.find _ r) as [field|].
    + destruct IH as (before & after & -> & Hopen & Hdone).
      exists (f :: before), after. repeat split; auto.
    + now constructor.
  - exists [], r. repeat split; auto.
Qed.

(** X10. [get_next_required_field] returns the first required field,
    in the order of the schema, that is not among the completed ones:
    every required field before it is completed and it is not; and it
    returns nothing only for a form that is not in the catalog or whose
    required fields are all completed. *)
Theorem get_next_required_field_is_first_open :
  forall (form_type : string) (completed : list string),
    match get_next_required_field form_type completed with
    | Some field =>
        exists schema before after,
          Dict.get form_type FORM_SCHEMAS = Some schema
          /\ fi_required_fields schema = (before ++ field :: after)%list
          /\ Str.mem field completed = false
          /\ Forall (fun f => Str.mem f completed = true) before
    | None =>
        forall schema,
          Dict.get form_type FORM_SCHEMAS = Some schema ->
          Forall (fun f => Str.mem f completed = true)
            (fi_required_fields schema)
    end.
Proof.
  intros form_type completed. unfold get_next_required_field.
  destruct (Dict.get form_type FORM_SCHEMAS) as [schema|];
    [|intros s Hs; discriminate].
  pose proof (find_first_open completed (fi_required_fields schema)) as H.
  destruct (List.find _ (fi_required_fields schema)) as [field|].
  - destruct H as (before & after & Hl & Hopen & Hdone).
    now exists schema, before, after.
  - intros s Hs. now injection Hs as <-.
Qed.

(** X11. The two validators of the code base agree on a field of the
    catalog of type string, email or integer, or of type select with
    its options given: for a value that is not empty and has no white
    space at either end, [validate_field_value] returns a verdict, and
    it is valid exactly when the agent's [_validate_field_value]
    accepts the value. *)
Theorem validators_agree :
  forall (L : PyLib) (form_type field_name v : string)
         (schema : FormInfo) (field_schema : FieldSchema),
    Dict.get form_type FORM_SCHEMAS = Some schema ->
    Dict.get field_name (fi_validation schema) = Some field_schema ->
    v <> "" ->
    Str.strip v = v ->
    (f_type field_schema = Some "string"
     \/ f_type field_schema = Some "email"
     \/ f_type field_schema = Some "integer"
     \/ (f_type field_schema = Some "select"
         /\ f_options field_schema <> None)) ->
    exists verdict,
      validate_field_value L field_name (PStr v) form_type = Ok verdict
      /\ valid verdict = _validate_field_value field_name v field_schema.
Proof.
  intros L form_type field_name v schema field_schema Hform Hfield Hv Hstrip
    Htype.
  unfold validate_field_value, _validate_field_value.
  rewrite Hform, Hfield, (neq_nonempty _ Hv).
  assert (Hrule : rule_nonempty field_schema = true).
  { unfold rule_nonempty.
    destruct Htype as [H|[H|[H|[H _]]]]; now rewrite H. }
  rewrite Hrule. cbn [negb andb]. rewrite andb_false_r.
  destruct Htype as [H|[H|[H|[H Hopt]]]]; rewrite H;
    cbn [opt_default String.eqb Ascii.eqb Bool.eqb andb orb].
  - rewrite Hstrip.
    destruct (f_min_length field_schema) as [lo|],
             (f_max_length field_schema) as [hi|];
      repeat match goal with
             | |- context [if ?b then _ else _] => destruct b
             end; eexists; split; reflexivity.
  - cbn [py_str].
    destruct (Re.match_anchored Re.email_pattern v);
      eexists; split; reflexivity.
  - cbn [py_int_of]. destruct (py_int v) as [n|];
      [|eexists; split; reflexivity].
    destruct (f_min field_schema) as [lo|],
             (f_max field_schema) as [hi|];
      repeat match goal with
             | |- context [if ?b then _ else _] => destruct b
             end; eexists; split; reflexivity.
  - destruct (f_options field_schema) as [options|]; [|contradiction].
    cbn [among opt_default]. destruct (Str.mem v options);
      eexists; split; reflexivity.
Qed.

Lemma validators_agree_witness :
  exists verdict,
    validate_field_value example_lib "subject" (PStr "Hi") "contact"
    = Ok verdict
    /\ valid verdict
       = _validate_field_value "subject" "Hi"
           (rule "string" (Some 5) (Some 200) None None None None None).
Proof.
  eapply (validators_agree example_lib "contact" "subject" "Hi").
  - reflexivity.
  - reflexivity.
  - discriminate.
  - reflexivity.
  - now left.
Defined.

(** X12. [validate_field_value] has no rule for a field of type
    text, date, location or file: whatever the value and whatever
    lengths the schema gives, the verdict is valid. *)
Theorem catalog_validator_ignores_free_text :
  forall (L : PyLib) (form_type field_name ty : string) (value : pyval)
         (schema : FormInfo) (field_schema : FieldSchema),
    Dict.get form_type FORM_SCHEMAS = Some schema ->
    Dict.get field_name (fi_validation schema) = Some field_schema ->
    f_type field_schema = Some ty ->
    In ty ["text"; "date"; "location"; "file"] ->
    validate_field_value L field_name value form_type = Ok accepted.
Proof.
  intros L form_type field_name ty value schema field_schema Hform Hfield
    Hty Hin.
  unfold validate_field_value. rewrite Hform, Hfield.
  assert (Hrule : rule_nonempty field_schema = true).
  { unfold rule_nonempty. now rewrite Hty. }
  rewrite Hrule, Hty. cbn [negb opt_default].
  destruct (opt_default false (f_optional field_schema) && _);
    [reflexivity|].
  simpl in Hin.
  destruct Hin as [<-|[<-|[<-|[<-|[]]]]]; reflexivity.
Qed.

Lemma catalog_validator_ignores_free_text_witness :
  validate_field_value example_lib "message" (PStr "x") "contact"
  = Ok accepted.
Proof.
  eapply (catalog_validator_ignores_free_text example_lib "contact"
            "message" "text").
  - reflexivity.
  - reflexivity.
  - reflexivity.
  - now left.
Defined.

(* ================================================================== *)
(** ** Keywords *)

Lemma split_on_acc_piece (sep : ascii) (k rest cur : string) :
  Str.forallb (fun c => negb (Ascii.eqb c sep)) k = true ->
  split_on_acc sep (k ++ String sep rest) cur
  = Str.rev (Str.rev_acc k cur) :: split_on_acc sep rest "".
Proof.
  revert cur. induction k as [|c r IH]; intros cur; simpl.
  - intros _. now rewrite Ascii.eqb_refl.
  - intros H. apply andb_prop in H as [Hc Hr].
    apply negb_true_iff in Hc. rewrite Hc. now apply IH.
Qed.

Lemma split_on_acc_last (sep : ascii) (k cur : string) :
  Str.forallb (fun c => negb (Ascii.eqb c sep)) k = true ->
  split_on_acc sep k cur = [Str.rev (Str.rev_acc k cur)].
Proof.
  revert cur. induction k as [|c r IH]; intros cur; simpl.
  - reflexivity.
  - intros H. apply andb_prop in H as [Hc Hr].
    apply negb_true_iff in Hc. rewrite Hc. now apply IH.
Qed.

Lemma keywords_of_joined (lead : string) (ks : list string) :
  lead_in lead ->
  ks <> [] ->
  Forall clean_keyword ks ->
  map (fun k => Str.lower (Str.strip k))
    (List.filter (fun k => Str.nonempty (Str.strip k))
       (split_on_acc ","%char (lead ++ String.concat ", " ks) ""))
  = ks.
Proof.
  intros Hlead Hne Hclean. revert lead Hlead.
  induction Hclean as [|k r (Hk & Hcomma & Hstrip & Hlower) Hr IH];
    [contradiction|].
  intros lead Hlead.
  assert (Hpiece : Str.forallb (fun c => negb (Ascii.eqb c ","%char))
                     (lead ++ k) = true).
  { rewrite forallb_append, Hcomma. now destruct Hlead as [-> | ->]. }
  assert (Hs : Str.strip (lead ++ k) = k).
  { destruct Hlead as [-> | ->]; exact Hstrip. }
  destruct r as [|k2 r2].
  - simpl String.concat.
    rewrite (split_on_acc_last _ _ _ Hpiece), rev_rev_acc_nil. simpl.
    rewrite Hs, (neq_nonempty _ Hk). simpl. now rewrite Hs, Hlower.
  - change (String.concat ", " (k :: k2 :: r2))
      with (k ++ String ","%char (" " ++ String.concat ", " (k2 :: r2))).
    rewrite <- append_assoc.
    rewrite (split_on_acc_piece _ _ _ _ Hpiece), rev_rev_acc_nil. simpl.
    rewrite Hs, (neq_nonempty _ Hk). simpl. rewrite Hs, Hlower. f_equal.
    apply (IH ltac:(discriminate) " "). now right.
Qed.

(** X13. Keywords written out as a comma separated text are read
    back unchanged: for keywords that are not empty, hold no comma,
    have no white space at either end and are in lower case,
    [get_keywords_list] of the keywords joined by a comma and a blank
    is the list itself. *)
Theorem keywords_round_trip :
  forall ks : list string,
    Forall clean_keyword ks ->
    get_keywords_list (String.concat ", " ks) = ks.
Proof.
  intros ks Hclean. unfold get_keywords_list, split_on.
  destruct ks as [|k r]; [reflexivity|].
  assert (Hne : Str.nonempty (String.concat ", " (k :: r)) = true).
  { inversion Hclean as [|? ? (Hk & _) _]; subst.
    destruct k as [|c k']; [contradiction|].
    simpl. now destruct r. }
  rewrite Hne. cbn [negb].
  apply (keywords_of_joined "" (k :: r)); [now left|discriminate|exact Hclean].
Qed.

Lemma keywords_round_trip_witness :
  get_keywords_list (String.concat ", " ["car hire"; "booking"; "prices"])
  = ["car hire"; "booking"; "prices"].
Proof.
  apply (keywords_round_trip ["car hire"; "booking"; "prices"]).
  repeat constructor; discriminate.
Defined.

Lemma split_on_acc_pieces (sep : ascii) (s cur : string) :
  Str.forallb (fun c => negb (Ascii.eqb c sep)) cur = true ->
  Forall (fun piece =>
            Str.forallb (fun c => negb (Ascii.eqb c sep)) piece = true)
    (split_on_acc sep s cur).
Proof.
  revert cur. induction s as [|c r IH]; intros cur Hcur; simpl.
  - constructor; [|constructor].
    unfold Str.rev. now rewrite forallb_rev_acc, Hcur.
  - destruct (Ascii.eqb c sep) eqn:Hc.
    + constructor; [|now apply IH].
      unfold Str.rev. now rewrite forallb_rev_acc, Hcur.
    + apply IH. simpl. now rewrite Hc, Hcur.
Qed.

(** X14. Whatever the text, every keyword [get_keywords_list]
    returns is not empty, holds no comma and is in lower case. *)
Theorem keywords_are_normalised :
  forall (keywords k : string),
    In k (get_keywords_list keywords) ->
    k <> ""
    /\ Str.forallb (fun c => negb (Ascii.eqb c ","%char)) k = true
    /\ Str.lower k = k.
Proof.
  intros keywords k. unfold get_keywords_list, split_on.
  destruct (negb (Str.nonempty keywords)); [intros []|].
  rewrite in_map_iff. intros (piece & <- & Hin).
  apply filter_In in Hin as [Hin Hne].
  pose proof (split_on_acc_pieces ","%char keywords "" eq_refl) as Hall.
  rewrite Forall_forall in Hall. specialize (Hall piece Hin).
  repeat split.
  - intros Hempty. rewrite <- lower_nonempty, Hempty in Hne. discriminate.
  - rewrite lower_keeps_commas_out. now apply forallb_strip.
  - apply lower_idempotent.
Qed.

Lemma keywords_are_normalised_witness :
  "car hire" <> ""
  /\ Str.forallb (fun c => negb (Ascii.eqb c ","%char)) "car hire" = true
  /\ Str.lower "car hire" = "car hire".
Proof.
  apply (keywords_are_normalised " Car Hire, ,BOOKING" "car hire").
  vm_compute. now left.
Defined.

(* ================================================================== *)
(** ** The failure counter and the re-probe *)

Lemma mark_failures_run (errors : list string) (h : Heap) :
  exists a',
    mark_failures errors h
    = (Ok tt, {| agent := a'; conv := conv h; calls := calls h |})
    /\ api_failure_count a'
       = api_failure_count (agent h) + other_failures errors
    /\ available a'
       = available (agent h)
         && negb (existsb is_auth_error errors)
         && ((other_failures errors =? 0)%nat
             || (api_failure_count (agent h) + other_failures errors <? 3)%nat).
Proof.
  revert h. induction errors as [|e rest IH]; intros h.
  - exists (agent h). simpl. unfold ret, other_failures, available. simpl.
    destruct h as [a c n]. simpl. rewrite Nat.add_0_r.
    repeat split. now rewrite !andb_true_r.
  - simpl mark_failures. unfold bind, _mark_api_failure, bind, get_agent.
    unfold other_failures. simpl List.filter. simpl existsb.
    destruct (is_auth_error e) eqn:Hauth; cbn [negb].
    + fold (other_failures rest).
      destruct (api_disabled (agent h)) eqn:Hd; cbn [negb].
      * unfold ret.
        destruct (IH h) as (a' & -> & Hcount & Havail).
        exists a'. split; [reflexivity|]. split; [exact Hcount|].
        rewrite Havail. unfold available. rewrite Hd.
        now rewrite !andb_false_r.
      * unfold put_agent.
        destruct (IH {| agent := {| client := false; api_disabled := true;
                                    api_failure_count :=
                                      api_failure_count (agent h) |};
                        conv := conv h; calls := calls h |})
          as (a' & -> & Hcount & Havail).
        exists a'. split; [reflexivity|]. split; [exact Hcount|].
        rewrite Havail. unfold available. simpl.
        now rewrite !andb_false_r.
    + unfold put_agent. cbn [List.length].
      fold (other_failures rest).
      set (a1 := {| client := client (agent h);
                    api_disabled := _;
                    api_failure_count := S (api_failure_count (agent h)) |}).
      destruct (IH {| agent := a1; conv := conv h; calls := calls h |})
        as (a' & -> & Hcount & Havail).
      exists a'. split; [reflexivity|]. simpl in Hcount, Havail.
      split; [lia|].
      rewrite Havail. unfold available, a1. simpl.
      destruct (client (agent h)), (api_disabled (agent h)),
               (existsb is_auth_error rest); simpl; try reflexivity;
        try (now rewrite ?andb_false_r).
      all: destruct (other_failures rest) as [|n]; simpl;
        destruct (api_failure_count (agent h)) as [|[|[|m]]]; simpl;
        try reflexivity.
      all: try (replace (S (S (S m)) + S n) with (S (S (S (m + S n))))
                  by lia; reflexivity).
      all: try (destruct n as [|[|n]]; reflexivity).
Qed.

(** X15. Through any run of failed requests the provider stays
    available exactly when it was available before, none of the
    failures is an authentication error, and the failures of other
    kinds, counted together with those counted before, stay below
    three. The counter goes up by the number of failures that are not
    authentication errors and is never reset by [_mark_api_failure];
    the conversation and the request count are not touched. *)
Theorem provider_survives_failures :
  forall (errors : list string) (h : Heap),
    fst (mark_failures errors h) = Ok tt
    /\ conv (snd (mark_failures errors h)) = conv h
    /\ calls (snd (mark_failures errors h)) = calls h
    /\ api_failure_count (agent (snd (mark_failures errors h)))
       = api_failure_count (agent h) + other_failures errors
    /\ available (agent (snd (mark_failures errors h)))
       = available (agent h)
         && negb (existsb is_auth_error errors)
         && ((other_failures errors =? 0)%nat
             || (api_failure_count (agent h) + other_failures errors
                 <? 3)%nat).
Proof.
  intros errors h.
  destruct (mark_failures_run errors h) as (a' & -> & Hcount & Havail).
  now repeat split.
Qed.

(** X16. [reload_api_key] never raises and touches neither the
    conversation nor the request count. It answers true exactly when
    the settings hold a key that is not empty, the client can be built
    from it, and the key starts with gsk_; the agent is then available
    with its failure counter at zero. When it answers false, either the
    settings could not be read and the agent is as it was, or the agent
    is disabled with its counter at zero. *)
Theorem reload_api_key_outcome :
  forall (W : World) (h : Heap),
    exists (ok : bool) (h' : Heap),
      reload_api_key W h = (Ok ok, h')
      /\ conv h' = conv h /\ calls h' = calls h
      /\ (ok = true
          <-> exists key,
                stored_api_key W = Ok key /\ key <> ""
                /\ groq_init W key = Ok tt
                /\ Str.startswith "gsk_" key = true)
      /\ (ok = true ->
          agent h' = {| client := true; api_disabled := false;
                        api_failure_count := 0 |})
      /\ (ok = false ->
          (exists e, stored_api_key W = Exc e /\ agent h' = agent h)
          \/ (api_disabled (agent h') = true
              /\ api_failure_count (agent h') = 0)).
Proof.
  intros W h. unfold reload_api_key, try_except, bind, lift, get_agent,
    put_agent, ret.
  destruct (stored_api_key W) as [key|e] eqn:Hkey.
  - destruct (Str.nonempty key) eqn:Hne; cbn [negb].
    + destruct (groq_init W key) as [[]|e] eqn:Hinit.
      * destruct (Str.startswith "gsk_" key) eqn:Hfmt; cbn [negb].
        -- exists true. eexists. split; [reflexivity|]. cbn.
           split; [reflexivity|]. split; [reflexivity|].
           split; [|split; [reflexivity|discriminate]].
           split; [|reflexivity].
           intros _. exists key. repeat split; auto.
           intros ->. discriminate.
        -- exists false. eexists. split; [reflexivity|]. cbn.
           split; [reflexivity|]. split; [reflexivity|].
           split; [|split; [discriminate|right; now split]].
           split; [discriminate|].
           intros (k & Hk & _ & _ & Hf). injection Hk as <-. congruence.
      * exists false. eexists. split; [reflexivity|]. cbn.
        split; [reflexivity|]. split; [reflexivity|].
        split; [|split; [discriminate|right; now split]].
        split; [discriminate|].
        intros (k & Hk & _ & Hi & _). injection Hk as <-. congruence.
    + exists false. eexists. split; [reflexivity|]. cbn.
      split; [reflexivity|]. split; [reflexivity|].
      split; [|split; [discriminate|right; now split]].
      split; [discriminate|].
      intros (k & Hk & Hk' & _). injection Hk as <-.
      destruct key; [contradiction|discriminate].
  - exists false, h. split; [reflexivity|].
    split; [reflexivity|]. split; [reflexivity|].
    split; [|split; [discriminate|left; now exists e]].
    split; [discriminate|].
    intros (k & Hk & _). discriminate.
Qed.

(* ================================================================== *)
(** ** The JSON object in an answer *)

Lemma brace_scan_skip (L : PyLib) (text pre rest : string) (i : nat)
    (brace_count : Z) (start_idx : option nat) :
  no_brace pre ->
  brace_scan L text (pre ++ rest) i brace_count start_idx
  = brace_scan L text rest (i + String.length pre) brace_count start_idx.
Proof.
  unfold no_brace. revert i.
  induction pre as [|c r IH]; intros i; simpl.
  - intros _. now rewrite Nat.add_0_r.
  - intros H. apply andb_prop in H as [Hc Hr].
    apply andb_prop in Hc as [Ho Hcl].
    apply negb_true_iff in Ho, Hcl. rewrite Ho, Hcl, (IH _ Hr).
    f_equal. lia.
Qed.

Lemma brace_scan_open (L : PyLib) (text r : string) (i : nat)
    (brace_count : Z) (start_idx : option nat) :
  brace_scan L text (String "{"%char r) i brace_count start_idx
  = brace_scan L text r (S i) (brace_count + 1)%Z
      (match start_idx with None => Some i | Some s => Some s end).
Proof. reflexivity. Qed.

Lemma brace_scan_close (L : PyLib) (text r : string) (i s : nat) :
  brace_scan L text (String "}"%char r) i 1%Z (Some s)
  = match json_loads L (String.substring s (S i - s) text) with
    | Some v => Some v
    | None => brace_scan L text r (S i) 0%Z None
    end.
Proof. reflexivity. Qed.

(** X17. [_extract_json_from_text] finds a flat JSON object in the
    middle of commentary: for a text made of a remark without braces, an
    object whose inside has no braces, and anything after it, when the
    text as a whole does not parse and holds no fenced block, the
    result is the parse of the object. *)
Theorem json_object_found_in_commentary :
  forall (L : PyLib) (pre body post : string) (v : pyval),
    no_brace pre ->
    no_brace body ->
    json_loads L (pre ++ "{" ++ body ++ "}" ++ post) = None ->
    search_fenced_json L (pre ++ "{" ++ body ++ "}" ++ post) = None ->
    json_loads L ("{" ++ body ++ "}") = Some v ->
    _extract_json_from_text L (pre ++ "{" ++ body ++ "}" ++ post) = v.
Proof.
  intros L pre body post v Hpre Hbody Hdirect Hfence Hobject.
  unfold _extract_json_from_text.
  set (text := pre ++ "{" ++ body ++ "}" ++ post) in *.
  assert (Hne : Str.nonempty text = true).
  { subst text. destruct pre; reflexivity. }
  rewrite Hne, Hdirect, Hfence. cbn [negb or_else loads_match].
  assert (Hsub : String.substring (String.length pre)
                   (S (S (String.length pre) + String.length body)
                    - String.length pre) text
                 = "{" ++ body ++ "}").
  { replace (S (S (String.length pre) + String.length body)
             - String.length pre)
      with (String.length ("{" ++ body ++ "}"))
      by (cbn [append String.length]; rewrite length_append;
          cbn [String.length]; lia).
    unfold text.
    replace ("{" ++ body ++ "}" ++ post)
      with (("{" ++ body ++ "}") ++ post)
      by (simpl; now rewrite append_assoc).
    apply substring_middle. }
  assert (Hscan : brace_scan L text text 0 0%Z None = Some v).
  { unfold text at 2. rewrite (brace_scan_skip L text pre _ 0 _ _ Hpre).
    change ("{" ++ body ++ "}" ++ post)
      with (String "{"%char (body ++ String "}"%char post)).
    rewrite brace_scan_open.
    rewrite (brace_scan_skip L text body _ _ _ _ Hbody).
    change (0 + 1)%Z with 1%Z. rewrite brace_scan_close.
    change (0 + String.length pre) with (String.length pre).
    now rewrite Hsub, Hobject. }
  now rewrite Hscan.
Qed.

Lemma json_object_found_in_commentary_witness :
  _extract_json_from_text example_lib
    ("Here is my answer: " ++ "{" ++ general_body ++ "}" ++ " I hope it helps.")
  = PDict [("intent", PStr "general"); ("confidence", PFloat (9 # 10)%Q)].
Proof.
  apply (json_object_found_in_commentary example_lib "Here is my answer: "
           general_body " I hope it helps.");
    reflexivity.
Defined.

(* ================================================================== *)
(** ** What a computation returns *)

Section Ensures.
Context {A : Type} (P : A -> Prop).

Lemma ensures_ret (a : A) : P a -> ensures P (ret a).
Proof. intros Ha h a' h' H. now inversion H; subst. Qed.

Lemma ensures_raise (e : string) : ensures P (raise e).
Proof. intros h a h' H. discriminate H. Qed.

Lemma ensures_lift (r : Res A) :
  (forall a, r = Ok a -> P a) -> ensures P (lift r).
Proof. intros Hr h a h' H. inversion H; subst. now apply Hr. Qed.

Lemma ensures_bind {B} (m : M B) (k : B -> M A) :
  (forall b, ensures P (k b)) -> ensures P (bind m k).
Proof.
  intros Hk h a h' H. unfold bind in H.
  destruct (m h) as [[b|e] h1]; [|discriminate].
  exact (Hk b h1 a h' H).
Qed.

Lemma ensures_bind_with {B} (Q : B -> Prop) (m : M B) (k : B -> M A) :
  ensures Q m -> (forall b, Q b -> ensures P (k b)) -> ensures P (bind m k).
Proof.
  intros Hm Hk h a h' H. unfold bind in H.
  destruct (m h) as [[b|e] h1] eqn:Hmh; [|discriminate].
  exact (Hk b (Hm h b h1 Hmh) h1 a h' H).
Qed.

Lemma ensures_try_except (m : M A) (handler : string -> M A) :
  ensures P m -> (forall e, ensures P (handler e)) ->
  ensures P (try_except m handler).
Proof.
  intros Hm Hh h a h' H. unfold try_except in H.
  destruct (m h) as [[b|e] h1] eqn:Hmh.
  - inversion H; subst. exact (Hm h a h' Hmh).
  - exact (Hh e h1 a h' H).
Qed.

End Ensures.

Lemma returns_ret {A} (a : A) : returns (ret a).
Proof. intros h. now exists a, h. Qed.

Lemma returns_bind {A B} (m : M A) (k : A -> M B) :
  returns m -> (forall a, returns (k a)) -> returns (bind m k).
Proof.
  intros Hm Hk h. unfold bind. destruct (Hm h) as (a & h1 & ->).
  apply Hk.
Qed.

Lemma returns_try_except {A} (m : M A) (handler : string -> M A) :
  (forall e, returns (handler e)) -> returns (try_except m handler).
Proof.
  intros Hh h. unfold try_except. destruct (m h) as [[a|e] h1].
  - now exists a, h1.
  - apply Hh.
Qed.

Lemma returns_get_agent : returns get_agent.
Proof. intros h. now exists (agent h), h. Qed.

Lemma returns_put_agent a : returns (put_agent a).
Proof. intros h. eexists; eexists. reflexivity. Qed.

Lemma returns_is_client_available : returns _is_client_available.
Proof.
  unfold _is_client_available. apply returns_bind;
    [apply returns_get_agent|intros; apply returns_ret].
Qed.

Lemma returns_mark_api_failure e : returns (_mark_api_failure e).
Proof.
  unfold _mark_api_failure. apply returns_bind; [apply returns_get_agent|].
  intros a. destruct (is_auth_error e); [destruct (negb _)|];
    first [apply returns_put_agent | apply returns_ret].
Qed.

Ltac returns_step :=
  first
    [ apply returns_ret | apply returns_get_agent | apply returns_put_agent
    | apply returns_is_client_available | apply returns_mark_api_failure
    | apply returns_try_except; intros ?
    | apply returns_bind; [|intros ?]
    | match goal with
      | |- returns (if ?b then _ else _) => destruct b
      | |- returns (match ?x with _ => _ end) => destruct x
      end ].

Ltac ensures_step :=
  first
    [ apply ensures_raise
    | apply ensures_try_except; [|intros ?]
    | apply ensures_bind; intros ?
    | match goal with
      | |- ensures _ (if ?b then _ else _) => destruct b eqn:?
      | |- ensures _ (match ?x with _ => _ end) => destruct x eqn:?
      end ].

(* ================================================================== *)
(** ** The general reply *)

Lemma default_general_answer_stays_open : stays_open default_general_answer.
Proof. intros H. discriminate H. Qed.

Lemma general_response_returns L W : returns (_generate_general_response L W).
Proof. unfold _generate_general_response. repeat returns_step. Qed.

Lemma general_response_ensures L W :
  ensures stays_open (_generate_general_response L W).
Proof.
  unfold _generate_general_response.
  repeat ensures_step;
    try (apply ensures_ret; apply default_general_answer_stays_open).
  - fold (signs_off b1) in *. apply ensures_ret. intros _.
    rewrite lower_append. now apply contains_append_r.
  - fold (signs_off b1) in *. apply ensures_ret. intros Hoff.
    match goal with
    | H : signs_off b1 && _ = false |- _ =>
        rewrite Hoff in H; now apply negb_false_iff in H
    end.
Qed.

(** X18. [_generate_general_response] never raises, whatever the
    provider and the response cleaner do, and never takes leave of the
    user: if its answer holds one of the sign-off phrases (goodbye,
    farewell, see you later, take care, have a great day, bye for now),
    it also says that the assistant is always here. *)
Theorem general_response_stays_open :
  forall (L : PyLib) (W : World) (h : Heap),
    exists (answer : string) (h' : Heap),
      _generate_general_response L W h = (Ok answer, h')
      /\ stays_open answer.
Proof.
  intros L W h.
  destruct (general_response_returns L W h) as (answer & h' & Hrun).
  exists answer, h'. split; [exact Hrun|].
  exact (general_response_ensures L W h answer h' Hrun).
Qed.

(* ================================================================== *)
(** ** The graph *)

Lemma returns_bind_with {A B} (Q : A -> Prop) (m : M A) (k : A -> M B) :
  returns m -> ensures Q m -> (forall a, Q a -> returns (k a)) ->
  returns (bind m k).
Proof.
  intros Hm HQ Hk h. unfold bind. destruct (Hm h) as (a & h1 & Hrun).
  rewrite Hrun. apply Hk. exact (HQ h a h1 Hrun).
Qed.

Lemma ensures_and {A} (P Q : A -> Prop) (m : M A) :
  ensures P m -> ensures Q m -> ensures (fun a => P a /\ Q a) m.
Proof. intros HP HQ h a h' H. split; [exact (HP h a h' H)|exact (HQ h a h' H)]. Qed.

Lemma ensures_weaken {A} (P Q : A -> Prop) (m : M A) :
  ensures P m -> (forall a, P a -> Q a) -> ensures Q m.
Proof. intros HP HPQ h a h' H. apply HPQ. exact (HP h a h' H). Qed.

Lemma keeps_answers_refl st : keeps_answers st st.
Proof. now split. Qed.

Lemma keeps_answers_trans st1 st2 st3 :
  keeps_answers st1 st2 -> keeps_answers st2 st3 -> keeps_answers st1 st3.
Proof.
  intros [F1 K1] [F2 K2]. split; [congruence|].
  intros k Hk. rewrite K2; rewrite K1; auto.
Qed.

Section GraphFacts.
Variable L : PyLib.
Variable W : World.
Variable form_schemas : dict FormInfo.
Variable form_questions : dict (dict string).

(** *** The classifier *)

Lemma classify_general_classified why st :
  classified st (classify_general why st).
Proof. destruct why; cbn; repeat split; auto. Qed.

Lemma accept_classification_classified result st st1 :
  accept_classification L form_schemas result st = Ok st1 ->
  classified st st1.
Proof.
  unfold accept_classification.
  destruct (py_dict_get result "intent" _) as [label|]; [|discriminate].
  destruct (py_dict_get result "confidence" _) as [c0|]; [|discriminate].
  destruct (py_float L c0) as [q|]; [|discriminate].
  destruct (py_dict_get result "reasoning" _) as [why|]; [|discriminate].
  destruct (in_form_schemas form_schemas label) as [known|]; [|discriminate].
  destruct label; try destruct (negb known && _);
    intros H; inversion H; subst; cbn; repeat split; auto;
    match goal with |- context [if ?b then _ else _] => destruct b end; auto.
Qed.

Lemma classify_answer_classified answer st st1 :
  classify_answer L form_schemas answer st = Ok st1 -> classified st st1.
Proof.
  intros H. apply classify_answer_spec in H.
  destruct H as [[why ->]|(text & _ & _ & H)].
  - apply classify_general_classified.
  - now apply accept_classification_classified in H.
Qed.

Lemma classify_with_provider_classified st :
  ensures (classified st) (classify_with_provider L W form_schemas st).
Proof.
  unfold classify_with_provider.
  repeat first [ apply ensures_ret, classify_general_classified
               | apply ensures_lift, classify_answer_classified
               | ensures_step ].
Qed.

Lemma intent_classifier_node_classified st :
  ensures (classified st) (intent_classifier_node L W form_schemas st).
Proof.
  unfold intent_classifier_node.
  repeat first [ apply classify_with_provider_classified
               | apply ensures_ret, classify_general_classified
               | apply ensures_ret; cbn; repeat split; now auto
               | ensures_step ].
Qed.


(** *** The router *)

Lemma is_nil_true {A} (l : list A) : is_nil l = true -> l = [].
Proof. now destruct l. Qed.

Ltac one_of := solve [repeat first [left; reflexivity | right]].

Ltac filled_by f fi :=
  exists f, fi; cbn;
  repeat split;
    first [ assumption | now apply negb_false_iff | now apply is_nil_true
          | apply is_nil_true; now apply negb_false_iff ].

Lemma form_router_node_routed st :
  ensures (fun st1 => routed st1 /\ validates_filled form_schemas st1)
    (form_router_node L W form_schemas st).
Proof.
  unfold form_router_node, routed, validates_filled.
  repeat first [ apply ensures_ret | ensures_step ]; cbn.
  all: try (split; [one_of|discriminate]).
  - split; [one_of|]. intros _.
    match goal with
    | Hf : current_form st = Some ?s, Hfi : Dict.get ?s _ = Some ?fi |- _ =>
        filled_by s fi
    end.
  - match goal with
    | |- context [if ?b then _ else _] => destruct b eqn:Hnil
    end; (split; [one_of|]); [intros _|discriminate].
    match goal with
    | Hf : current_form st = Some ?s, Hfi : Dict.get ?s _ = Some ?fi |- _ =>
        filled_by s fi
    end.
Qed.

Lemma truthy_not_missing k required collected :
  truthy (pyget k collected) = true ->
  Str.mem k (missing_fields required collected) = false.
Proof.
  intros Hk. unfold Str.mem, missing_fields.
  induction required as [|r rest IH]; [reflexivity|]. simpl.
  destruct (negb (Dict.mem r collected) || negb (truthy (pyget r collected)))
    eqn:Hr; [|exact IH].
  simpl. rewrite IH, orb_false_r.
  destruct (String.eqb k r) eqn:Hkr; [|reflexivity].
  apply String.eqb_eq in Hkr. subst r. rewrite Hk in Hr.
  unfold Dict.mem in Hr. unfold pyget in Hk.
  destruct (Dict.get k collected); [discriminate Hr|discriminate Hk].
Qed.

Lemma pyget_set k k' v d :
  String.eqb k k' = false -> pyget k (Dict.set k' v d) = pyget k d.
Proof. intros H. unfold pyget. now rewrite dict_get_set, H. Qed.

Lemma commit_fields_keeps extracted allowed k :
  Str.mem k allowed = false ->
  forall collected completed,
    pyget k (fst (commit_fields extracted allowed collected completed))
    = pyget k collected.
Proof.
  intros Hk. induction extracted as [|[name value] rest IH];
    intros collected completed; simpl; [reflexivity|].
  destruct (Str.nonempty value && Str.mem name allowed) eqn:Hok;
    [|apply IH].
  rewrite IH. apply pyget_set.
  destruct (String.eqb k name) eqn:Hkn; [|reflexivity].
  apply String.eqb_eq in Hkn. subst name. rewrite Hk in Hok.
  now rewrite andb_false_r in Hok.
Qed.

Lemma form_router_node_keeps st :
  opt_truthy (current_form st) = true ->
  ensures (keeps_answers st) (form_router_node L W form_schemas st).
Proof.
  intros Hform. unfold form_router_node. rewrite Hform. cbn [negb].
  replace (match intent st with Some _ => None | None => None end)
    with (@None FormInfo) by now destruct (intent st).
  repeat first [ apply ensures_ret | ensures_step ];
    try (now split).
  split; [reflexivity|]. cbn. intros k Hk.
  apply (f_equal fst) in Heqp. cbn in Heqp. rewrite <- Heqp.
  apply commit_fields_keeps. now apply truthy_not_missing.
Qed.

Lemma extract_multiple_returns message names form collected :
  returns (_extract_multiple_fields_from_message L W form_schemas message
             names form collected).
Proof.
  unfold _extract_multiple_fields_from_message. repeat returns_step.
Qed.

Lemma extract_field_value_returns message name form :
  returns (_extract_field_value L W form_schemas message name form).
Proof. unfold _extract_field_value. repeat returns_step. Qed.

Ltac returns_case :=
  match goal with
  | |- returns (if ?b then _ else _) => destruct b eqn:?
  | |- returns (match ?x with _ => _ end) => destruct x eqn:?
  end.

Lemma form_router_node_returns st :
  form_known form_schemas st = true ->
  returns (form_router_node L W form_schemas st).
Proof.
  intros Hknown. unfold form_router_node.
  repeat first [ apply extract_multiple_returns | apply returns_ret
               | apply returns_bind; [|intros ?] | returns_case ].
  exfalso.
  match goal with
  | Hf : current_form st = Some ?f, Hne : negb (Str.nonempty ?f) = false,
    Hget : Dict.get ?f _ = None |- _ =>
      unfold form_known, Dict.mem in Hknown;
      rewrite Hf, Hne, Hget in Hknown; discriminate Hknown
  end.
Qed.

(** *** The extractor *)

Lemma data_extractor_node_returns st :
  returns (data_extractor_node L W form_schemas st).
Proof.
  unfold data_extractor_node.
  repeat first [ apply extract_multiple_returns
               | apply extract_field_value_returns | returns_step ].
Qed.

Lemma data_extractor_node_routed st :
  ensures (validates_filled form_schemas)
    (data_extractor_node L W form_schemas st).
Proof.
  unfold data_extractor_node, validates_filled.
  repeat first [ apply ensures_ret | ensures_step ]; cbn;
    try discriminate.
  all: match goal with
       | |- context [if ?b then _ else _] => destruct b eqn:Hnil
       end; [intros _|discriminate].
  all: match goal with
       | Hf : current_form _ = Some ?s, Hfi : Dict.get ?s _ = Some ?fi |- _ =>
           filled_by s fi
       end.
Qed.

Lemma mem_filter (p : string -> bool) k l :
  Str.mem k l = false -> Str.mem k (List.filter p l) = false.
Proof.
  unfold Str.mem. induction l as [|x l IH]; [reflexivity|]. simpl.
  intros H. apply orb_false_iff in H as [Hx Hl].
  destruct (p x); simpl; [rewrite Hx|]; now apply IH.
Qed.

Lemma data_extractor_node_keeps st :
  ensures (keeps_answers st) (data_extractor_node L W form_schemas st).
Proof.
  unfold data_extractor_node.
  destruct (current_form st) as [form|];
    [|apply ensures_ret; now split].
  destruct (negb (Str.nonempty form)); [apply ensures_ret; now split|].
  destruct (Dict.get form form_schemas) as [fi|];
    [|apply ensures_ret; now split].
  set (missing := missing_fields (fi_required_fields fi) (collected_data st)).
  set (kept := fun p : dict pyval * list string =>
         forall k, truthy (pyget k (collected_data st)) = true ->
                   pyget k (fst p) = pyget k (collected_data st)).
  apply ensures_bind_with with (Q := kept).
  - destruct (opt_truthy (current_step st) && Str.mem _ missing) eqn:Hstep;
      [|apply ensures_ret; now intros k Hk].
    apply andb_prop in Hstep as [_ Hstep].
    apply ensures_bind. intros v.
    destruct (opt_truthy v); apply ensures_ret; [|now intros k Hk].
    intros k Hk. cbn. apply pyget_set.
    destruct (String.eqb k _) eqn:Hks; [|reflexivity].
    apply String.eqb_eq in Hks. subst k.
    unfold missing in Hstep. now rewrite truthy_not_missing in Hstep.
  - intros [c1 l1] H1. apply ensures_bind_with with (Q := kept).
    + destruct (negb (is_nil _)); [|now apply ensures_ret].
      apply ensures_bind. intros extracted. apply ensures_ret.
      intros k Hk. rewrite commit_fields_keeps; [now apply H1|].
      now apply mem_filter, truthy_not_missing.
    + intros [c2 l2] H2. apply ensures_ret. split; [reflexivity|exact H2].
Qed.

(** *** The validator *)

Lemma validator_node_keeps st :
  ensures (fun st1 => keeps_answers st st1
                      /\ (next_node st1 = Some "confirm" ->
                          form_filled form_schemas st1))
    (validator_node form_schemas st).
Proof.
  unfold validator_node.
  repeat first [ apply ensures_ret | ensures_step ]; cbn;
    (split; [now split|]); try discriminate.
  intros _.
  match goal with
  | Hf : current_form _ = Some ?s, Hfi : Dict.get ?s _ = Some ?fi |- _ =>
      filled_by s fi
  end.
Qed.

Lemma validator_node_routed st :
  form_filled form_schemas st ->
  ensures (fun st1 => next_node st1 = Some "confirm")
    (validator_node form_schemas st).
Proof.
  intros (f & fi & Hf & Hne & Hfi & Hnil). unfold validator_node.
  rewrite Hf. cbn [opt_truthy]. rewrite Hne, Hfi, Hnil. cbn.
  now apply ensures_ret.
Qed.

Lemma validator_node_returns st :
  form_filled form_schemas st -> returns (validator_node form_schemas st).
Proof.
  intros (f & fi & Hf & Hne & Hfi & Hnil). unfold validator_node.
  rewrite Hf. cbn [opt_truthy]. rewrite Hne, Hfi, Hnil. cbn.
  apply returns_ret.
Qed.

(** *** The two generators *)

Lemma question_generator_node_final st :
  final_state (question_generator_node form_schemas form_questions st)
  /\ response_type (question_generator_node form_schemas form_questions st)
     <> "confirmation"
  /\ keeps_answers st
       (question_generator_node form_schemas form_questions st).
Proof.
  unfold question_generator_node, final_state.
  destruct (opt_truthy (current_form st)), (required_fields st);
    cbn; repeat split; try discriminate; auto.
Qed.

Lemma response_generator_node_returns st :
  returns (response_generator_node L W form_schemas st).
Proof.
  unfold response_generator_node.
  repeat first [ apply general_response_returns | returns_step ].
Qed.

Lemma response_generator_node_final st :
  ensures (fun st1 => final_state st1 /\ keeps_answers st st1)
    (response_generator_node L W form_schemas st).
Proof.
  unfold response_generator_node.
  repeat first [ apply ensures_ret | ensures_step ]; unfold final_state; cbn;
    repeat split; try discriminate; auto.
Qed.

Lemma response_generator_node_confirms st :
  (next_node st = Some "confirm" -> form_filled form_schemas st) ->
  ensures (fun st1 => response_type st1 = "confirmation" ->
                      requires_confirmation st1 = true
                      /\ form_filled form_schemas st1)
    (response_generator_node L W form_schemas st).
Proof.
  intros Hfilled. unfold response_generator_node.
  destruct (next_node st) as [n|]; cbn -[String.eqb].
  - destruct (String.eqb n "confirm" && opt_truthy (current_form st))
      eqn:Hc.
    + apply andb_prop in Hc as [Hn _]. apply String.eqb_eq in Hn. subst n.
      apply ensures_ret. cbn. intros _. split; [reflexivity|].
      destruct (Hfilled eq_refl) as (f & fi & Hf & Hne & Hfi & Hnil).
      now exists f, fi.
    + apply ensures_bind. intros text. apply ensures_ret. cbn. discriminate.
  - apply ensures_bind. intros text. apply ensures_ret. cbn. discriminate.
Qed.

(** *** The routes *)

Lemma question_generator_node_answered st0 st :
  keeps_answers st0 st ->
  route_done form_schemas st0
    (question_generator_node form_schemas form_questions st).
Proof.
  intros Hkeep.
  destruct (question_generator_node_final st) as (Hfinal & Hkind & Hk).
  split; [exact Hfinal|]. split; [now intros H|].
  now apply keeps_answers_trans with st.
Qed.

Lemma response_generator_node_answered st0 st :
  keeps_answers st0 st ->
  (next_node st = Some "confirm" -> form_filled form_schemas st) ->
  ensures (route_done form_schemas st0)
    (response_generator_node L W form_schemas st).
Proof.
  intros Hkeep Hfilled.
  apply ensures_weaken with
    (P := fun st1 => (final_state st1 /\ keeps_answers st st1)
                     /\ confirms_filled form_schemas st1).
  - apply ensures_and; [apply response_generator_node_final|].
    now apply response_generator_node_confirms.
  - intros st1 [[Hfinal Hk] Hc]. split; [exact Hfinal|].
    split; [exact Hc|]. now apply keeps_answers_trans with st.
Qed.

Ltac route_case s :=
  match goal with
  | |- context [if String.eqb s ?name then _ else _] =>
      let H := fresh "Hroute" in
      destruct (String.eqb s name) eqn:H;
      [apply String.eqb_eq in H; subst s|]
  end.

Lemma after_validation_answered st0 st :
  keeps_answers st0 st ->
  ensures (route_done form_schemas st0)
    (after_validation L W form_schemas form_questions st).
Proof.
  intros Hkeep. unfold after_validation.
  eapply ensures_bind_with; [apply validator_node_keeps|].
  intros st1 [Hk Hfilled]. rewrite route_after_validation_eq.
  assert (Hkeep1 : keeps_answers st0 st1)
    by now apply keeps_answers_trans with st.
  destruct (next_node st1) as [s|]; [|apply ensures_raise].
  route_case s.
  { apply response_generator_node_answered; [exact Hkeep1|].
    intros _. now apply Hfilled. }
  route_case s; [|apply ensures_raise].
  apply ensures_ret. now apply question_generator_node_answered.
Qed.

Lemma after_validation_returns st :
  form_filled form_schemas st ->
  returns (after_validation L W form_schemas form_questions st).
Proof.
  intros Hfilled. unfold after_validation.
  apply returns_bind_with with (Q := fun st1 => next_node st1 = Some "confirm").
  - now apply validator_node_returns.
  - now apply validator_node_routed.
  - intros st1 ->. apply response_generator_node_returns.
Qed.

Lemma after_extraction_answered st0 st :
  keeps_answers st0 st ->
  ensures (route_done form_schemas st0)
    (after_extraction L W form_schemas form_questions st).
Proof.
  intros Hkeep. unfold after_extraction.
  eapply ensures_bind_with; [apply data_extractor_node_keeps|].
  intros st1 Hk. rewrite route_after_extraction_eq.
  assert (Hkeep1 : keeps_answers st0 st1)
    by now apply keeps_answers_trans with st.
  destruct (next_node st1) as [s|] eqn:Hnext;
    [|apply ensures_ret; now apply question_generator_node_answered].
  route_case s; [now apply after_validation_answered|].
  route_case s;
    [|apply ensures_ret; now apply question_generator_node_answered].
  apply response_generator_node_answered; [exact Hkeep1|].
  rewrite Hnext. discriminate.
Qed.

Lemma after_extraction_returns st :
  returns (after_extraction L W form_schemas form_questions st).
Proof.
  unfold after_extraction.
  apply returns_bind_with with (Q := validates_filled form_schemas).
  - apply data_extractor_node_returns.
  - apply data_extractor_node_routed.
  - intros st1 Hfilled. rewrite route_after_extraction_eq.
    destruct (next_node st1) as [s|] eqn:Hnext; [|apply returns_ret].
    route_case s; [now apply after_validation_returns, Hfilled|].
    route_case s; [apply response_generator_node_returns|apply returns_ret].
Qed.

Lemma after_form_router_answered st :
  ensures (graph_done form_schemas st)
    (after_form_router L W form_schemas form_questions st).
Proof.
  unfold after_form_router.
  apply ensures_bind_with with
    (Q := fun st1 => routed st1
                     /\ (opt_truthy (current_form st) = true ->
                         keeps_answers st st1)).
  - intros h st1 h1 Hrun. split.
    + exact (proj1 (form_router_node_routed st h st1 h1 Hrun)).
    + intros Hform. exact (form_router_node_keeps st Hform h st1 h1 Hrun).
  - intros st1 [Hrouted Hk]. rewrite route_after_form_router_eq.
    assert (Hfrom : forall m,
              ensures (route_done form_schemas st1) m ->
              ensures (graph_done form_schemas st) m).
    { intros m Hm. apply ensures_weaken with (1 := Hm).
      intros st2 (Hfinal & Hc & Hk2). split; [exact Hfinal|].
      split; [exact Hc|]. intros Hform.
      now apply keeps_answers_trans with st1; [apply Hk|]. }
    apply Hfrom.
    assert (Hplain : next_node st1 = Some "confirm" ->
                     form_filled form_schemas st1).
    { intros Hn. unfold routed in Hrouted. rewrite Hn in Hrouted.
      cbn in Hrouted. repeat destruct Hrouted as [Hrouted|Hrouted];
        try discriminate Hrouted. destruct Hrouted. }
    destruct (next_node st1) as [s|] eqn:Hnext;
      [|apply response_generator_node_answered;
        [apply keeps_answers_refl|now rewrite Hnext]].
    route_case s.
    { apply ensures_ret, question_generator_node_answered,
        keeps_answers_refl. }
    route_case s; [apply after_extraction_answered, keeps_answers_refl|].
    route_case s; [apply after_validation_answered, keeps_answers_refl|].
    apply response_generator_node_answered;
      [apply keeps_answers_refl|now rewrite Hnext].
Qed.

Lemma after_form_router_returns st :
  form_known form_schemas st = true ->
  returns (after_form_router L W form_schemas form_questions st).
Proof.
  intros Hknown. unfold after_form_router.
  apply returns_bind_with with (Q := validates_filled form_schemas).
  - now apply form_router_node_returns.
  - intros h st1 h1 Hrun.
    exact (proj2 (form_router_node_routed st h st1 h1 Hrun)).
  - intros st1 Hfilled. rewrite route_after_form_router_eq.
    destruct (next_node st1) as [s|] eqn:Hnext;
      [|apply response_generator_node_returns].
    route_case s; [apply returns_ret|].
    route_case s; [apply after_extraction_returns|].
    route_case s; [now apply after_validation_returns, Hfilled|].
    apply response_generator_node_returns.
Qed.

Lemma intent_classifier_node_returns st :
  returns (intent_classifier_node L W form_schemas st).
Proof.
  unfold intent_classifier_node. apply returns_try_except.
  intros e. apply returns_ret.
Qed.

Lemma graph_invoke_answered st :
  ensures (graph_done form_schemas st)
    (graph_invoke L W form_schemas form_questions st).
Proof.
  unfold graph_invoke.
  eapply ensures_bind_with; [apply intent_classifier_node_classified|].
  intros st1 (Hform & Hdata & Hroute). rewrite route_after_intent_eq.
  assert (Hk : keeps_answers st st1).
  { split; [exact Hform|]. intros k _. now rewrite Hdata. }
  assert (Hfrom : forall m,
            ensures (route_done form_schemas st1) m ->
            ensures (graph_done form_schemas st) m).
  { intros m Hm. apply ensures_weaken with (1 := Hm).
    intros st2 (Hfinal & Hc & Hk2). split; [exact Hfinal|].
    split; [exact Hc|]. intros _.
    now apply keeps_answers_trans with st1. }
  destruct (next_node st1) as [s|] eqn:Hnext; [|apply ensures_raise].
  route_case s.
  { apply ensures_weaken with (1 := after_form_router_answered st1).
    intros st2 (Hfinal & Hc & Hk2). split; [exact Hfinal|].
    split; [exact Hc|]. intros Hactive.
    apply keeps_answers_trans with st1; [exact Hk|].
    apply Hk2. now rewrite Hform. }
  route_case s.
  { apply Hfrom, response_generator_node_answered;
      [apply keeps_answers_refl|]. rewrite Hnext. discriminate. }
  route_case s; [|apply ensures_raise].
  apply Hfrom, after_extraction_answered, keeps_answers_refl.
Qed.

Lemma graph_invoke_returns st :
  form_known form_schemas st = true ->
  returns (graph_invoke L W form_schemas form_questions st).
Proof.
  intros Hknown. unfold graph_invoke.
  apply returns_bind_with with (Q := classified st).
  - apply intent_classifier_node_returns.
  - apply intent_classifier_node_classified.
  - intros st1 (Hform & _ & Hroute). rewrite route_after_intent_eq.
    destruct Hroute as [-> | ->]; cbn.
    + apply after_form_router_returns. unfold form_known in *.
      now rewrite Hform.
    + apply response_generator_node_returns.
Qed.

End GraphFacts.

(** X19. When the form in progress, if there is one, is a form of the
    catalog, the graph runs to its end from every state of the agent
    and whatever the provider answers: no node raises, every route
    taken has an edge, and the state returned holds an answer of kind
    question, general or confirmation. *)
Theorem graph_always_answers :
  forall (L : PyLib) (W : World) (form_schemas : dict FormInfo)
         (form_questions : dict (dict string)) (st : ConversationState)
         (h : Heap),
    form_known form_schemas st = true ->
    exists st' h',
      graph_invoke L W form_schemas form_questions st h = (Ok st', h')
      /\ final_state st'.
Proof.
  intros L W form_schemas form_questions st h Hknown.
  destruct (graph_invoke_returns L W form_schemas form_questions st Hknown h)
    as (st' & h' & Hrun).
  exists st', h'. split; [exact Hrun|].
  exact (proj1 (graph_invoke_answered L W form_schemas form_questions st
                  h st' h' Hrun)).
Qed.

Lemma graph_always_answers_witness :
  form_known FORM_SCHEMAS (purchase_form_open jane_message) = true
  /\ exists st' h',
       graph_invoke example_lib (world_of [Reply (Some jane_reply)])
         FORM_SCHEMAS FORM_QUESTIONS (purchase_form_open jane_message)
         (heap_of ready_agent (new_conversation "s1" None)) = (Ok st', h')
       /\ final_state st'.
Proof.
  split; [reflexivity|].
  apply (graph_always_answers example_lib
           (world_of [Reply (Some jane_reply)]) FORM_SCHEMAS FORM_QUESTIONS
           (purchase_form_open jane_message)).
  reflexivity.
Defined.

(** X20. The graph shows a confirmation summary for a filled form only:
    if the state it returns has the response kind confirmation, then a
    form is in progress, it is in the catalog, each of its required
    fields has a truthy value in the collected data, and the
    confirmation flag is raised. *)
Theorem confirmation_needs_every_required_field :
  forall (L : PyLib) (W : World) (form_schemas : dict FormInfo)
         (form_questions : dict (dict string)) (st st' : ConversationState)
         (h h' : Heap),
    graph_invoke L W form_schemas form_questions st h = (Ok st', h') ->
    response_type st' = "confirmation" ->
    requires_confirmation st' = true /\ form_filled form_schemas st'.
Proof.
  intros L W form_schemas form_questions st st' h h' Hrun.
  exact (proj1 (proj2 (graph_invoke_answered L W form_schemas form_questions
                         st h st' h' Hrun))).
Qed.

Lemma confirmation_needs_every_required_field_witness :
  exists st' h',
    graph_invoke example_lib (world_of []) FORM_SCHEMAS FORM_QUESTIONS
      subscription_filled
      (heap_of ready_agent (new_conversation "s1" None)) = (Ok st', h')
    /\ response_type st' = "confirmation"
    /\ requires_confirmation st' = true
    /\ form_filled FORM_SCHEMAS st'.
Proof.
  eexists; eexists. split; [vm_compute; reflexivity|].
  split; [reflexivity|].
  eapply (confirmation_needs_every_required_field example_lib (world_of [])
            FORM_SCHEMAS FORM_QUESTIONS subscription_filled _
            (heap_of ready_agent (new_conversation "s1" None)) _);
    [vm_compute; reflexivity | reflexivity].
Defined.

(** X21. While a form is in progress, a turn of the graph loses no
    answer: the form stays the same, and every field that had a truthy
    value in the collected data before the turn has that value after
    it, whatever the provider extracts from the message. *)
Theorem active_form_keeps_answers :
  forall (L : PyLib) (W : World) (form_schemas : dict FormInfo)
         (form_questions : dict (dict string)) (st st' : ConversationState)
         (h h' : Heap),
    opt_truthy (current_form st) = true ->
    graph_invoke L W form_schemas form_questions st h = (Ok st', h') ->
    keeps_answers st st'.
Proof.
  intros L W form_schemas form_questions st st' h h' Hform Hrun.
  exact (proj2 (proj2 (graph_invoke_answered L W form_schemas form_questions
                         st h st' h' Hrun)) Hform).
Qed.

Lemma active_form_keeps_answers_witness :
  opt_truthy (current_form purchase_named) = true
  /\ exists st' h',
       graph_invoke example_lib (world_of [Reply (Some jane_reply)])
         FORM_SCHEMAS FORM_QUESTIONS purchase_named
         (heap_of ready_agent (new_conversation "s1" None)) = (Ok st', h')
       /\ collected_data st'
          = [("name", PStr "Jane Doe"); ("email", PStr "jane@example.com")]
       /\ keeps_answers purchase_named st'.
Proof.
  split; [reflexivity|].
  eexists; eexists. split; [vm_compute; reflexivity|].
  split; [reflexivity|].
  eapply (active_form_keeps_answers example_lib
            (world_of [Reply (Some jane_reply)]) FORM_SCHEMAS FORM_QUESTIONS
            purchase_named _
            (heap_of ready_agent (new_conversation "s1" None)) _);
    [reflexivity | vm_compute; reflexivity].
Defined.

(* ================================================================== *)
(** ** Requests to the provider *)

Section Spends.
Context {A : Type}.

Lemma spends_ret n (P : A -> nat -> Prop) (a : A) :
  P a 0 -> spends n P (ret a).
Proof.
  intros Ha h r h' H. inversion H; subst. exists 0.
  split; [lia|]. split; [lia|]. intros a' Ha'. now inversion Ha'; subst.
Qed.

Lemma spends_raise n (P : A -> nat -> Prop) (e : string) :
  spends n P (raise e).
Proof.
  intros h r h' H. inversion H; subst. exists 0.
  split; [lia|]. split; [lia|]. discriminate.
Qed.

Lemma spends_lift n (P : A -> nat -> Prop) (r : Res A) :
  (forall a, r = Ok a -> P a 0) -> spends n P (lift r).
Proof.
  intros Hr h r' h' H. inversion H; subst. exists 0.
  split; [lia|]. split; [lia|]. exact Hr.
Qed.

Lemma spends_weaken n n' (P Q : A -> nat -> Prop) (m : M A) :
  spends n P m -> n <= n' -> (forall a k, k <= n -> P a k -> Q a k) ->
  spends n' Q m.
Proof.
  intros Hm Hn HPQ h r h' H. destruct (Hm h r h' H) as (k & Hk & Hle & HP).
  exists k. split; [exact Hk|]. split; [lia|].
  intros a Ha. apply HPQ; [exact Hle|]. now apply HP.
Qed.

Lemma spends_bind {B} n1 n (Q : B -> nat -> Prop) (P : A -> nat -> Prop)
    (m : M B) (f : B -> M A) :
  spends n1 Q m -> n1 <= n ->
  (forall b k1, k1 <= n1 -> Q b k1 ->
                spends (n - k1) (fun a k2 => P a (k1 + k2)) (f b)) ->
  spends n P (bind m f).
Proof.
  intros Hm Hn Hf h r h' H. unfold bind in H.
  destruct (m h) as [[b|e] h1] eqn:Hmh.
  - destruct (Hm h _ h1 Hmh) as (k1 & Hk1 & Hle1 & HQ).
    destruct (Hf b k1 Hle1 (HQ b eq_refl) h1 r h' H)
      as (k2 & Hk2 & Hle2 & HP).
    exists (k1 + k2). split; [lia|]. split; [lia|]. exact HP.
  - inversion H; subst. destruct (Hm h _ h' Hmh) as (k1 & Hk1 & Hle1 & _).
    exists k1. split; [exact Hk1|]. split; [lia|]. discriminate.
Qed.

Lemma spends_try_except n1 n (Q P : A -> nat -> Prop) (m : M A)
    (handler : string -> M A) :
  spends n1 Q m -> n1 <= n ->
  (forall a k, k <= n1 -> Q a k -> P a k) ->
  (forall e k1, k1 <= n1 ->
                spends (n - k1) (fun a k2 => P a (k1 + k2)) (handler e)) ->
  spends n P (try_except m handler).
Proof.
  intros Hm Hn HQP Hh h r h' H. unfold try_except in H.
  destruct (m h) as [[a|e] h1] eqn:Hmh.
  - inversion H; subst. destruct (Hm h _ h' Hmh) as (k & Hk & Hle & HQ).
    exists k. split; [exact Hk|]. split; [lia|].
    intros a' Ha'. inversion Ha'; subst. apply HQP; [exact Hle|].
    now apply HQ.
  - destruct (Hm h _ h1 Hmh) as (k1 & Hk1 & Hle1 & _).
    destruct (Hh e k1 Hle1 h1 r h' H) as (k2 & Hk2 & Hle2 & HP).
    exists (k1 + k2). split; [lia|]. split; [lia|]. exact HP.
Qed.

Lemma spends_of n (P : A -> Prop) (m : M A) :
  within n m -> ensures P m -> spends n (fun a _ => P a) m.
Proof.
  intros Hm HP h r h' H. destruct (Hm h r h' H) as (k & Hk & Hle & _).
  exists k. split; [exact Hk|]. split; [exact Hle|].
  intros a ->. exact (HP h a h' H).
Qed.

Lemma within_of n (P : A -> nat -> Prop) (m : M A) :
  spends n P m -> within n m.
Proof. intros Hm. apply spends_weaken with (1 := Hm); auto. Qed.

Lemma within_ret n (a : A) : within n (ret a).
Proof. now apply spends_ret. Qed.

Lemma within_raise n (e : string) : within n (@raise A e).
Proof. apply spends_raise. Qed.

Lemma within_lift n (r : Res A) : within n (lift r).
Proof. now apply spends_lift. Qed.

Lemma within_le n n' (m : M A) : within n m -> n <= n' -> within n' m.
Proof. intros Hm Hn. apply spends_weaken with (1 := Hm); auto. Qed.

Lemma within_bind {B} n1 n2 (m : M B) (f : B -> M A) :
  within n1 m -> (forall b, within n2 (f b)) -> within (n1 + n2) (bind m f).
Proof.
  intros Hm Hf. apply spends_bind with (n1 := n1) (Q := fun _ _ => True);
    [exact Hm | lia |].
  intros b k1 Hle _. apply spends_weaken with (1 := Hf b); [lia|auto].
Qed.

Lemma within_try_except n1 n2 (m : M A) (handler : string -> M A) :
  within n1 m -> (forall e, within n2 (handler e)) ->
  within (n1 + n2) (try_except m handler).
Proof.
  intros Hm Hh.
  apply spends_try_except with (n1 := n1) (Q := fun _ _ => True);
    [exact Hm | lia | auto |].
  intros e k1 Hle. apply spends_weaken with (1 := Hh e); [lia|auto].
Qed.

(** A free prefix, and a free suffix. *)
Lemma within_bind_free {B} n (m : M B) (f : B -> M A) :
  within 0 m -> (forall b, within n (f b)) -> within n (bind m f).
Proof. intros Hm Hf. exact (within_bind 0 n m f Hm Hf). Qed.

Lemma within_bind_last {B} n (m : M B) (f : B -> M A) :
  within n m -> (forall b, within 0 (f b)) -> within n (bind m f).
Proof.
  intros Hm Hf. apply within_le with (n + 0); [|lia].
  now apply within_bind.
Qed.

Lemma within_try_free n (m : M A) (handler : string -> M A) :
  within n m -> (forall e, within 0 (handler e)) ->
  within n (try_except m handler).
Proof.
  intros Hm Hh. apply within_le with (n + 0); [|lia].
  now apply within_try_except.
Qed.

End Spends.

Lemma within_get_agent n : within n get_agent.
Proof.
  intros h r h' H. inversion H; subst. exists 0. repeat split; lia.
Qed.

Lemma within_get_conv n : within n get_conv.
Proof.
  intros h r h' H. inversion H; subst. exists 0. repeat split; lia.
Qed.

Lemma within_put_agent n a : within n (put_agent a).
Proof.
  intros h r h' H. inversion H; subst. exists 0. cbn. repeat split; lia.
Qed.

Lemma within_put_conv n c : within n (put_conv c).
Proof.
  intros h r h' H. inversion H; subst. exists 0. cbn. repeat split; lia.
Qed.

Lemma within_create_completion W n : within (S n) (create_completion W).
Proof.
  intros h r h' H. unfold create_completion in H. exists 1.
  destruct (provider W (calls h)); inversion H; subst; cbn;
    repeat split; lia.
Qed.

(** One request and a free rest. *)
Lemma within_completion_then {A} W n (f : option string -> M A) :
  (forall c, within 0 (f c)) -> within (S n) (bind (create_completion W) f).
Proof.
  intros Hf. apply within_le with (1 + 0); [|lia].
  apply within_bind; [apply within_create_completion | exact Hf].
Qed.

Ltac within_leaf :=
  first [ apply within_ret | apply within_raise | apply within_lift
        | apply within_get_agent | apply within_get_conv
        | apply within_put_agent | apply within_put_conv ].

Ltac within_case :=
  match goal with
  | |- within _ (if ?b then _ else _) => destruct b
  | |- within _ (match ?x with _ => _ end) => destruct x
  | |- within _ (let '(_, _) := ?x in _) => destruct x
  end.

(** Free computations: no request at all. *)
Ltac free_step :=
  first [ within_leaf
        | apply within_bind_free; [|intros ?]
        | apply within_try_free; [|intros ?]
        | within_case ].

Lemma within_is_client_available n : within n _is_client_available.
Proof. unfold _is_client_available. repeat free_step. Qed.

Lemma within_mark_api_failure n e : within n (_mark_api_failure e).
Proof. unfold _mark_api_failure. repeat free_step. Qed.

Lemma within_reload_api_key n W : within n (reload_api_key W).
Proof. unfold reload_api_key. repeat free_step. Qed.

Ltac agent_free :=
  first [ apply within_is_client_available | apply within_mark_api_failure
        | apply within_reload_api_key | free_step ].

(** Computations that ask once: the request is the first costly step,
    and what follows it is free. *)
Ltac once_step :=
  first [ apply within_completion_then; intros ?; solve [repeat agent_free]
        | apply within_is_client_available | apply within_mark_api_failure
        | within_leaf
        | apply within_bind_free; [solve [repeat agent_free]|intros ?]
        | apply within_try_free; [|intros ?; solve [repeat agent_free]]
        | apply within_bind_last; [|intros ?; solve [repeat agent_free]]
        | within_case ].

Section ProviderRequests.
Variable L : PyLib.
Variable W : World.
Variable form_schemas : dict FormInfo.
Variable form_questions : dict (dict string).

Lemma within_clean_response n r : within n (_clean_response L r).
Proof. unfold _clean_response. repeat free_step. Qed.

Lemma within_extract_multiple message names form collected :
  within 1 (_extract_multiple_fields_from_message L W form_schemas message
              names form collected).
Proof.
  unfold _extract_multiple_fields_from_message. repeat once_step.
Qed.

Lemma within_extract_field_value message name form :
  within 1 (_extract_field_value L W form_schemas message name form).
Proof. unfold _extract_field_value. repeat once_step. Qed.

Lemma within_extract_contact_info message history :
  within 1 (_extract_contact_info L W message history).
Proof. unfold _extract_contact_info. repeat once_step. Qed.

Lemma within_generate_general_response :
  within 1 (_generate_general_response L W).
Proof.
  unfold _generate_general_response.
  repeat first
    [ apply within_completion_then; intros ?;
      solve [repeat first [apply within_clean_response | agent_free]]
    | once_step ].
Qed.

Lemma within_classify_with_provider st :
  within 1 (classify_with_provider L W form_schemas st).
Proof.
  unfold classify_with_provider.
  repeat once_step.
Qed.

(** *** The nodes *)

Lemma within_response_generator_node st :
  within 1 (response_generator_node L W form_schemas st).
Proof.
  unfold response_generator_node.
  repeat first [ apply within_generate_general_response
               | apply within_bind_last; [|intros ?; solve [repeat free_step]]
               | once_step ].
Qed.

Lemma within_response_generator_node_confirm st :
  next_node st = Some "confirm" -> form_filled form_schemas st ->
  within 0 (response_generator_node L W form_schemas st).
Proof.
  intros Hnext (f & fi & Hf & Hne & _). unfold response_generator_node.
  rewrite Hnext, Hf. cbn [opt_truthy]. rewrite Hne.
  replace (("confirm" =? "confirm") && true) with true by reflexivity.
  apply within_ret.
Qed.

Lemma within_validator_node n st : within n (validator_node form_schemas st).
Proof. unfold validator_node. repeat free_step. Qed.

Lemma within_after_validation st :
  within 0 (after_validation L W form_schemas form_questions st).
Proof.
  unfold after_validation.
  apply spends_bind with (n1 := 0)
    (Q := fun st1 _ => next_node st1 = Some "confirm" ->
                       form_filled form_schemas st1); [|lia|].
  - apply spends_of; [apply within_validator_node|].
    apply ensures_weaken with (1 := validator_node_keeps form_schemas st).
    now intros st1 [_ H].
  - intros st1 k1 Hk1 Hfilled. cbn. replace k1 with 0 by lia. cbn.
    rewrite route_after_validation_eq.
    destruct (next_node st1) as [s|] eqn:Hnext; [|apply within_raise].
    destruct (String.eqb s "confirm") eqn:Hs.
    + apply String.eqb_eq in Hs. subst s.
      apply within_response_generator_node_confirm; [exact Hnext|].
      now apply Hfilled.
    + destruct (String.eqb s "ask_question");
        [apply within_ret|apply within_raise].
Qed.

Lemma within_data_extractor_node st :
  within 2 (data_extractor_node L W form_schemas st).
Proof.
  unfold data_extractor_node.
  destruct (current_form st) as [form|]; [|apply within_ret].
  destruct (negb (Str.nonempty form)); [apply within_ret|].
  destruct (Dict.get form form_schemas) as [fi|]; [|apply within_ret].
  apply (within_bind 1 1).
  - destruct (opt_truthy (current_step st) && _); [|apply within_ret].
    apply within_bind_last; [apply within_extract_field_value|].
    intros v. repeat free_step.
  - intros [c1 l1]. apply within_bind_last.
    + destruct (negb (is_nil _)); [|apply within_ret].
      apply within_bind_last; [apply within_extract_multiple|].
      intros extracted. apply within_ret.
    + intros [c2 l2]. apply within_ret.
Qed.

Lemma idle_form_missing st form fi :
  idle_form form_schemas st = true ->
  current_form st = Some form ->
  negb (Str.nonempty form) = false ->
  Dict.get form form_schemas = Some fi ->
  missing_fields (fi_required_fields fi) (collected_data st) = [].
Proof.
  unfold idle_form, form_required_fields. intros Hidle Hf Hne Hfi.
  rewrite Hf, Hne, Hfi in Hidle. now apply is_nil_true.
Qed.

Lemma within_data_extractor_node_idle st :
  idle_form form_schemas st = true ->
  within 0 (data_extractor_node L W form_schemas st).
Proof.
  intros Hidle. unfold data_extractor_node.
  destruct (current_form st) as [form|] eqn:Hf; [|apply within_ret].
  destruct (negb (Str.nonempty form)) eqn:Hne; [apply within_ret|].
  destruct (Dict.get form form_schemas) as [fi|] eqn:Hfi;
    [|apply within_ret].
  rewrite (idle_form_missing st form fi Hidle Hf Hne Hfi). cbn.
  rewrite andb_false_r. repeat free_step.
Qed.

Lemma data_extractor_node_incomplete st :
  ensures (fun st1 => next_node st1 <> Some "complete")
    (data_extractor_node L W form_schemas st).
Proof.
  unfold data_extractor_node.
  repeat first [ apply ensures_ret | ensures_step ]; cbn;
    try discriminate.
  all: match goal with
       | |- context [if ?b then _ else _] => destruct b
       end; discriminate.
Qed.

Lemma route_after_extraction_within n st1 :
  validates_filled form_schemas st1 ->
  next_node st1 <> Some "complete" ->
  within n
    (match next_node st1 with
     | Some "validate" =>
         after_validation L W form_schemas form_questions st1
     | Some "complete" => response_generator_node L W form_schemas st1
     | _ => ret (question_generator_node form_schemas form_questions st1)
     end).
Proof.
  intros Hfilled Hnot. rewrite route_after_extraction_eq.
  destruct (next_node st1) as [s|]; [|apply within_ret].
  destruct (String.eqb s "validate");
    [apply within_le with 0; [apply within_after_validation|lia]|].
  destruct (String.eqb s "complete") eqn:Hs; [|apply within_ret].
  apply String.eqb_eq in Hs. now subst s.
Qed.

Lemma extractor_post st :
  ensures (fun st1 => validates_filled form_schemas st1
                      /\ next_node st1 <> Some "complete")
    (data_extractor_node L W form_schemas st).
Proof.
  apply ensures_and;
    [apply data_extractor_node_routed|apply data_extractor_node_incomplete].
Qed.

Lemma within_after_extraction st :
  within 2 (after_extraction L W form_schemas form_questions st).
Proof.
  unfold after_extraction.
  eapply spends_bind with (n1 := 2);
    [apply spends_of; [apply within_data_extractor_node
                      |apply extractor_post] | lia |].
  intros st1 k1 Hk1 [Hfilled Hnot].
  now apply route_after_extraction_within.
Qed.

Lemma within_after_extraction_idle st :
  idle_form form_schemas st = true ->
  within 0 (after_extraction L W form_schemas form_questions st).
Proof.
  intros Hidle. unfold after_extraction.
  eapply spends_bind with (n1 := 0);
    [apply spends_of; [now apply within_data_extractor_node_idle
                      |apply extractor_post] | lia |].
  intros st1 k1 Hk1 [Hfilled Hnot].
  now apply route_after_extraction_within.
Qed.

(** The router asks at most once, and only on its way to the question
    generator or to the validator. *)
Lemma spends_form_router_node st :
  spends 1
    (fun st1 k => k = 0 \/ next_node st1 = Some "start_form"
                  \/ next_node st1 = Some "validate")
    (form_router_node L W form_schemas st).
Proof.
  unfold form_router_node.
  destruct (match intent st with Some _ => _ | None => _ end).
  { destruct (prefill_field _ _ _) as [[? ?] ?]. apply spends_ret. now left. }
  destruct (current_form st) as [form|]; [|apply spends_ret; now left].
  destruct (negb (Str.nonempty form)); [apply spends_ret; now left|].
  destruct (opt_truthy (current_step st)); [apply spends_ret; now left|].
  destruct (Dict.get form form_schemas) as [fi|]; [|apply spends_raise].
  destruct (is_nil _); [apply spends_ret; now left|].
  eapply spends_bind with (n1 := 1);
    [apply within_extract_multiple | lia |].
  intros extracted k1 Hk1 _.
  destruct (negb (is_nil extracted)).
  - destruct (commit_fields _ _ _ _) as [c l]. apply spends_ret. cbn.
    right. destruct (is_nil _); [now right|now left].
  - apply spends_ret. right. now left.
Qed.

Lemma spends_form_router_node_idle st :
  idle_form form_schemas st = true ->
  spends 0
    (fun st1 _ => next_node st1 = Some "extract_data" ->
                  idle_form form_schemas st1 = true)
    (form_router_node L W form_schemas st).
Proof.
  intros Hidle. unfold form_router_node.
  destruct (match intent st with Some _ => _ | None => _ end).
  { destruct (prefill_field _ _ _) as [[? ?] ?]. apply spends_ret.
    discriminate. }
  destruct (current_form st) as [form|] eqn:Hf;
    [|apply spends_ret; discriminate].
  destruct (negb (Str.nonempty form)) eqn:Hne;
    [apply spends_ret; discriminate|].
  destruct (opt_truthy (current_step st)); [now apply spends_ret|].
  destruct (Dict.get form form_schemas) as [fi|] eqn:Hfi;
    [|apply spends_raise].
  rewrite (idle_form_missing st form fi Hidle Hf Hne Hfi). cbn.
  apply spends_ret. discriminate.
Qed.

Lemma within_after_form_router st :
  within 2 (after_form_router L W form_schemas form_questions st).
Proof.
  unfold after_form_router.
  eapply spends_bind with (n1 := 1); [apply spends_form_router_node|lia|].
  intros st1 k1 Hk1 Hroute. rewrite route_after_form_router_eq.
  assert (Hgeneral : within (2 - k1)
                       (response_generator_node L W form_schemas st1)).
  { apply within_le with 1; [apply within_response_generator_node|lia]. }
  destruct (next_node st1) as [s|] eqn:Hnext; [|exact Hgeneral].
  destruct (String.eqb s "start_form"); [apply within_ret|].
  destruct (String.eqb s "extract_data") eqn:Hextract.
  { apply String.eqb_eq in Hextract. subst s.
    destruct Hroute as [->|[H|H]]; [|congruence|congruence].
    apply within_after_extraction. }
  destruct (String.eqb s "validate");
    [apply within_le with 0; [apply within_after_validation|lia]|].
  exact Hgeneral.
Qed.

Lemma within_after_form_router_idle st :
  idle_form form_schemas st = true ->
  within 1 (after_form_router L W form_schemas form_questions st).
Proof.
  intros Hidle. unfold after_form_router.
  eapply spends_bind with (n1 := 0);
    [now apply spends_form_router_node_idle|lia|].
  intros st1 k1 Hk1 Hnext. replace k1 with 0 by lia. cbn.
  rewrite route_after_form_router_eq.
  destruct (next_node st1) as [s|] eqn:Hroute;
    [|apply within_response_generator_node].
  destruct (String.eqb s "start_form"); [apply within_ret|].
  destruct (String.eqb s "extract_data") eqn:Hextract.
  { apply String.eqb_eq in Hextract. subst s.
    apply within_le with 0; [|lia].
    apply within_after_extraction_idle. apply Hnext. exact Hroute. }
  destruct (String.eqb s "validate");
    [apply within_le with 0; [apply within_after_validation|lia]|].
  apply within_response_generator_node.
Qed.

(** The classifier asks at most once, and only when no form is in
    progress or the form misses nothing. *)
Lemma spends_intent_classifier_node st :
  spends 1
    (fun st1 k => classified st st1
                  /\ (k = 0 \/ idle_form form_schemas st = true))
    (intent_classifier_node L W form_schemas st).
Proof.
  assert (Hask : idle_form form_schemas st = true ->
            spends 1
              (fun st1 k => classified st st1
                            /\ (k = 0 \/ idle_form form_schemas st = true))
              (try_except (classify_with_provider L W form_schemas st)
                 (fun _ => ret (classify_general None st)))).
  { intros Hidle.
    apply spends_try_except with (n1 := 1)
      (Q := fun st1 _ => classified st st1); [|lia| |].
    - apply spends_of; [apply within_classify_with_provider|].
      apply classify_with_provider_classified.
    - intros st1 k _ Hc. split; [exact Hc|now right].
    - intros e k1 Hk1. apply spends_ret.
      split; [apply classify_general_classified|now right]. }
  assert (Hgo : forall f why,
            spends 1
              (fun st1 k => classified st st1
                            /\ (k = 0 \/ idle_form form_schemas st = true))
              (try_except (ret (continue_form f why st))
                 (fun _ => ret (classify_general None st)))).
  { intros f why.
    apply spends_try_except with (n1 := 0)
      (Q := fun st1 k => classified st st1 /\ k = 0); [|lia| |].
    - apply spends_ret. split; [|reflexivity]. cbn. repeat split; auto.
    - intros st1 k _ [Hc ->]. split; [exact Hc|now left].
    - intros e k1 Hk1. apply spends_ret.
      split; [apply classify_general_classified|left; lia]. }
  unfold intent_classifier_node.
  destruct (current_form st) as [f|] eqn:Hf;
    [|apply Hask; unfold idle_form; now rewrite Hf].
  destruct (Str.nonempty f) eqn:Hne;
    [|apply Hask; unfold idle_form; now rewrite Hf, Hne].
  destruct (looks_like_new_intent _); [|apply Hgo].
  destruct (negb (is_nil _)) eqn:Hmiss; [apply Hgo|].
  apply Hask. unfold idle_form. rewrite Hf, Hne.
  apply negb_false_iff in Hmiss. now rewrite Hmiss.
Qed.

Lemma within_graph_invoke st :
  within 2 (graph_invoke L W form_schemas form_questions st).
Proof.
  unfold graph_invoke.
  eapply spends_bind with (n1 := 1);
    [apply spends_intent_classifier_node|lia|].
  intros st1 k1 Hk1 [(Hform & Hdata & Hroute) Hcost].
  rewrite route_after_intent_eq.
  destruct Hroute as [-> | ->]; cbn -[Nat.sub].
  - destruct Hcost as [->|Hidle].
    + apply within_after_form_router.
    + apply within_le with 1; [|lia].
      apply within_after_form_router_idle.
      unfold idle_form in *. now rewrite Hform, Hdata.
  - apply within_le with 1; [apply within_response_generator_node|lia].
Qed.

(** *** The turn *)

Local Abbreviation R := (agent_runtime L W form_schemas form_questions).

Ltac runtime_free :=
  cbn [messages_all conversation_save extract_contact_info reload
       invoke_graph clean_response get_rule_based_chatbot agent_runtime];
  first [ apply within_clean_response | agent_free ].

Lemma within_fallback_to_rule_based n message info :
  within n (_fallback_to_rule_based L R message info).
Proof. unfold _fallback_to_rule_based. repeat runtime_free. Qed.

Lemma within_read_form_state n : within n (read_form_state form_schemas).
Proof. unfold read_form_state. repeat runtime_free. Qed.

Lemma within_learn_contact_info message info :
  within 1 (learn_contact_info R message info).
Proof.
  unfold learn_contact_info.
  apply within_try_free; [|intros e; apply within_ret].
  destruct (_ || _ || _); [|apply within_ret].
  apply within_bind_free; [repeat runtime_free|]. intros history.
  apply within_bind_last; [|intros found; repeat runtime_free].
  apply within_try_free; [|intros e; apply within_ret].
  apply within_extract_contact_info.
Qed.

Lemma within_reprobe n message info : within n (reprobe L R message info).
Proof.
  unfold reprobe.
  repeat first [apply within_fallback_to_rule_based | runtime_free].
Qed.

Lemma within_require_client n message info :
  within n (require_client L R message info).
Proof.
  unfold require_client.
  repeat first [apply within_fallback_to_rule_based | runtime_free].
Qed.

Lemma within_answer_from_graph message info state0 :
  within 2 (answer_from_graph L R message info state0).
Proof.
  unfold answer_from_graph.
  apply within_try_free;
    [|intros e; apply within_fallback_to_rule_based].
  apply within_bind_last; [apply within_graph_invoke|]. intros st1.
  repeat first [apply within_fallback_to_rule_based | runtime_free].
Qed.

Lemma within_run_pipeline sid message info form :
  within 2 (run_pipeline L R sid message info form).
Proof.
  unfold run_pipeline.
  apply within_bind_free; [repeat runtime_free|]. intros history.
  apply within_bind_free; [apply within_get_conv|]. intros c.
  apply within_bind_free; [apply within_reprobe|]. intros [r|];
    [apply within_ret|].
  apply within_bind_free; [apply within_require_client|]. intros [r|];
    [apply within_ret|].
  apply within_answer_from_graph.
Qed.

Lemma within_agent_process_message sid message :
  within 3
    (agent_process_message L W form_schemas form_questions sid message).
Proof.
  unfold agent_process_message, process_message.
  apply within_bind_free; [apply within_get_conv|]. intros c.
  apply within_bind_free; [apply within_read_form_state|]. intros form.
  apply (within_bind 1 2); [apply within_learn_contact_info|]. intros info.
  apply within_try_free; [apply within_run_pipeline|].
  intros e. apply within_ret.
Qed.

End ProviderRequests.

Lemma within_calls {A} (n : nat) (m : M A) (h : Heap) :
  within n m ->
  calls h <= calls (snd (m h)) /\ calls (snd (m h)) <= calls h + n.
Proof.
  intros Hm. destruct (m h) as [r h'] eqn:Hrun.
  destruct (Hm h r h' Hrun) as (k & Hk & Hle & _). cbn. lia.
Qed.

(** Both bounds are reached: with no form in progress the classifier
    asks and so does the general reply, and before them the search for
    contact details. *)
Lemma graph_reaches_two_requests :
  calls (snd (graph_invoke example_lib chatty_world FORM_SCHEMAS
                FORM_QUESTIONS (blank_state "hello" None [] [] None)
                (heap_of ready_agent (new_conversation "s1" None))))
  = 2.
Proof. vm_compute. reflexivity. Qed.

Lemma turn_reaches_three_requests :
  calls (snd (agent_process_message example_lib chatty_turn_world
                FORM_SCHEMAS FORM_QUESTIONS "s1" "hello"
                (heap_of ready_agent (new_conversation "s1" None))))
  = 3.
Proof. vm_compute. reflexivity. Qed.

(** X22. One run of the graph sends at most two completion requests to
    the provider, whatever the state it starts from, whatever the
    provider answers and whether the run returns or raises; and the
    count of requests never goes down. *)
Theorem graph_asks_provider_at_most_twice :
  forall (L : PyLib) (W : World) (form_schemas : dict FormInfo)
         (form_questions : dict (dict string)) (st : ConversationState)
         (h : Heap),
    calls h
    <= calls (snd (graph_invoke L W form_schemas form_questions st h))
    /\ calls (snd (graph_invoke L W form_schemas form_questions st h))
       <= calls h + 2.
Proof. intros. apply within_calls, within_graph_invoke. Qed.

(** X23. One call of the agent's [process_message] sends at most three
    completion requests to the provider: one for the contact details
    and two in the graph, whatever the conversation, the message and
    the provider's answers. *)
Theorem turn_asks_provider_at_most_three_times :
  forall (L : PyLib) (W : World) (form_schemas : dict FormInfo)
         (form_questions : dict (dict string)) (sid message : string)
         (h : Heap),
    calls h
    <= calls (snd (agent_process_message L W form_schemas form_questions
                     sid message h))
    /\ calls (snd (agent_process_message L W form_schemas form_questions
                     sid message h))
       <= calls h + 3.
Proof. intros. apply within_calls, within_agent_process_message. Qed.

(* ================================================================== *)
(** ** The history in a prompt *)

Lemma length_substring_le (n : nat) (s : string) :
  String.length (String.substring 0 n s) <= n.
Proof.
  revert s. induction n as [|n IH]; intros [|c s]; simpl; try lia.
  specialize (IH s). lia.
Qed.

Lemma length_join_lines (bound : nat) (l : list string) :
  Forall (fun x => String.length x <= bound) l ->
  l <> [] ->
  String.length (Str.join_lines l) + 1 <= (bound + 1) * List.length l.
Proof.
  induction 1 as [|x l Hx Hl IH]; [congruence|]. intros _.
  destruct l as [|y l].
  - simpl. lia.
  - change (Str.join_lines (x :: y :: l))
      with (x ++ String "010"%char (Str.join_lines (y :: l))).
    rewrite length_append.
    change (String.length (String "010"%char (Str.join_lines (y :: l))))
      with (S (String.length (Str.join_lines (y :: l)))).
    assert (Hne : y :: l <> []) by discriminate.
    specialize (IH Hne).
    change (List.length (x :: y :: l)) with (S (List.length (y :: l))).
    lia.
Qed.

(** X24. The history [_format_history] writes into a prompt is bounded
    by the number of messages, not by their length: it takes at most
    100 characters of each message, so the text is never longer than
    112 characters per message, and for an empty history it is the 24
    characters of "No previous conversation". *)
Theorem format_history_is_bounded :
  forall (history : list HistoryEntry),
    String.length (_format_history history)
    <= Nat.max 24 (112 * List.length history).
Proof.
  intros history. unfold _format_history.
  destruct history as [|msg rest]; [cbn; lia|].
  set (line := fun msg : HistoryEntry =>
         (if String.eqb (h_type msg) "user" then "User" else "Assistant")
         ++ ": " ++ String.substring 0 100 (h_content msg)).
  cbn [is_nil map].
  assert (Hlines : Forall (fun x => String.length x <= 111)
                     (map line (msg :: rest))).
  { apply Forall_forall. intros x Hx. apply in_map_iff in Hx.
    destruct Hx as (m & <- & _). unfold line.
    rewrite !length_append.
    pose proof (length_substring_le 100 (h_content m)).
    destruct (String.eqb (h_type m) "user"); cbn [String.length]; lia. }
  assert (Hne : map line (msg :: rest) <> []) by discriminate.
  pose proof (length_join_lines 111 _ Hlines Hne) as Hlen.
  rewrite length_map in Hlen.
  change (line msg :: map line rest) with (map line (msg :: rest)).
  lia.
Qed.
